(** * decode-config.py: configuration codec of a Tasmota backup/restore tool

    A shallow embedding of the codec functions of [decode-config.py]
    (version 8.2.0.4) and the properties its specification states about them.

    Conventions of the embedding:
    - Python integers are [Z]; a [bytes]/[bytearray] object is a [list Z] of
      values in [0, 256); a [str] is the list of its code points;
    - a Python call threads the process state ([EXIT_CODE] and what was
      written to stderr) and ends in a returned value, in [sys.exit] or in an
      uncaught exception;
    - the global [ARGS] is an explicit argument;
    - recursion carries the remaining call depth, and running out of it is
      Python's [RecursionError];
    - interpreter built-ins that are not part of the script (UTF-8 coding,
      [int(s, 0)], [str.title], [json.load], float packing) are fields of a
      [runtime] record the functions are parameterised by. *)

From Stdlib Require Import ZArith List Bool String Ascii Lia.
From Stdlib Require HexString.
From Stdlib Require Import Sorted.
From Stdlib Require Import Permutation.
Import ListNotations.
Local Open Scope Z_scope.
Set Warnings "-register-all".

(* ================================================================== *)
(** ** Python values and outcomes *)

(** A [str]: the sequence of its Unicode code points. *)
Definition pystr := list N.

Definition pystr_of_string (s : string) : pystr :=
  map N_of_ascii (list_ascii_of_string s).

Inductive pyval : Type :=
| VNone
| VBool (b : bool)
| VInt (z : Z)
| VFloat (bits : Z)                 (* an IEEE-754 double, by its bit pattern *)
| VStr (s : pystr)
| VBytes (b : list Z)
| VList (l : list pyval)
| VDict (d : list (string * pyval)).

Inductive exn : Type :=
| TypeError | ValueError | IndexError | KeyError | NameError
| SyntaxError | StructError | RecursionError | OSError | AttributeError
| OverflowError.

(** Result of a pure Python computation (a built-in, an [eval]). *)
Inductive pyresult (A : Type) : Type :=
| PyOk (a : A)
| PyExc (e : exn).
Arguments PyOk {A} a.
Arguments PyExc {A} e.

Inductive LogType : Type := INFO | WARNING | ERROR.

(** What [message] prints, with the values it formats into the text. *)
Inductive msgtext : Type :=
| MsgInvalidConfigVersion (config_version : Z) (maxidx : Z)
| MsgUnsupportedVersion (version : Z)
| MsgSizeNotMatch (read expected : Z)
| MsgSizeTooSmall (read expected : Z)
| MsgCrcError (read should : Z)
| MsgCrc32Error (read should : Z)
| MsgConverterError
| MsgWrongFormat
| MsgPackError (addr : Z)
| MsgArrayExceeds (sname : string) (selem smax : Z)
| MsgRestoreError (sname : string) (serror : string)
| MsgValueChanged (sname : string)
| MsgPrematureExit (status : Z).

Record logentry : Type := mklog {
  log_type : option LogType;
  log_status : option Z;
  log_msg : msgtext }.

(** The process state the codec touches: the global [EXIT_CODE] and the
    lines written to stderr (latest first). *)
Record world : Type := mkworld {
  EXIT_CODE : Z;
  stderr : list logentry }.

Inductive outcome (A : Type) : Type :=
| Ret (a : A)                 (* the call returned *)
| SysExit (status : Z)        (* sys.exit(status) *)
| Raise (e : exn).            (* uncaught exception *)
Arguments Ret {A} a.
Arguments SysExit {A} status.
Arguments Raise {A} e.

Definition M (A : Type) : Type := world -> outcome A * world.

Definition ret {A} (a : A) : M A := fun w => (Ret a, w).

Definition bind {A B} (m : M A) (k : A -> M B) : M B :=
  fun w =>
    match m w with
    | (Ret a, w') => k a w'
    | (SysExit s, w') => (SysExit s, w')
    | (Raise e, w') => (Raise e, w')
    end.

Definition raise {A} (e : exn) : M A := fun w => (Raise e, w).

Definition lift {A} (r : pyresult A) : M A :=
  match r with
  | PyOk a => ret a
  | PyExc e => raise e
  end.

Definition pbind {A B} (r : pyresult A) (k : A -> pyresult B) : pyresult B :=
  match r with
  | PyOk a => k a
  | PyExc e => PyExc e
  end.

Declare Scope py_scope.
Delimit Scope py_scope with py.
Notation "x <- m ;; k" := (bind m (fun x => k))
  (at level 61, m at next level, right associativity) : py_scope.
Notation "m ;;; k" := (bind m (fun _ => k))
  (at level 61, right associativity) : py_scope.
Notation "x <~ r ;; k" := (pbind r (fun x => k))
  (at level 61, r at next level, right associativity) : py_scope.
Local Open Scope py_scope.

(* ================================================================== *)
(** ** Constants *)

Module ExitCode.
Definition OK := 0.
Definition RESTORE_SKIPPED := 1.
Definition ARGUMENT_ERROR := 2.
Definition FILE_NOT_FOUND := 3.
Definition DATA_SIZE_MISMATCH := 4.
Definition DATA_CRC_ERROR := 5.
Definition UNSUPPORTED_VERSION := 6.
Definition FILE_READ_ERROR := 7.
Definition JSON_READ_ERROR := 8.
Definition RESTORE_DATA_ERROR := 9.
Definition DOWNLOAD_CONFIG_ERROR := 10.
Definition UPLOAD_CONFIG_ERROR := 11.
Definition INVALID_DATA := 12.
Definition MODULE_NOT_FOUND := 20.
Definition INTERNAL_ERROR := 21.
Definition HTTP_CONNECTION_ERROR := 22.
End ExitCode.

Definition CONFIG_FILE_XOR : Z := 0x5A.
Definition BINARYFILE_MAGIC : Z := 0x63576223.
Definition HIDDEN_PASSWORD : pystr := pystr_of_string "********".
Definition INTERNAL : string := "Internal".
Definition VIRTUAL : string := "*".

Definition PLATFORMS : list string := ["ESP82xx"; "ESP32"]%string.

Module Platform.
Definition ESP82 : Z := 0x1.
Definition ESP32 : Z := 0x2.
Definition ALL : Z := 0xf.
End Platform.

(** [SETTINGSTEXTINDEX.index('SET_MAX')]: the number of text slots. *)
Definition SET_MAX : Z := 76.

(** The command-line switches the codec reads from the global [ARGS]
    (debug tracing is off). *)
Record args : Type := mkargs {
  ignorewarning : bool;
  jsonhidepw : bool;
  verbose : bool;
  filter : option (list string) }.

(* ================================================================== *)
(** ** Field definitions

    A field definition is the tuple
    [(<platform>, <format>, <addrdef>, <datadef> [, <converter>])] of the
    settings tables, in the resolved form [get_fielddef] returns. *)

(** A [struct] format string of the tables: an optional byte-order
    character, an optional repeat count and one format character.  The
    format characters are those [set_field] has a branch for, except the
    pointer format [P], which no table uses. *)
Inductive byteorder : Type := NoPrefix | LittleEndian | BigEndian.

Inductive fcode : Type :=
| Cc | Cbool | Cb | CB | Ch | CH | Ci | CI | Cl | CL | Cq | CQ
| Cf | Cd | Cs | Cp.

Record sformat : Type := mkfmt {
  f_order : byteorder;
  f_count : option Z;
  f_code : fcode }.

(** One item of a [<converter>]: [None], [True]/[False], a string that is
    evaluated with [$] bound to the value, or a function; the two password
    helpers are told apart because the script compares against them. *)
Inductive convitem : Type :=
| CvNone
| CvBool (b : bool)
| CvEval (f : pyval -> pyresult pyval)
| CvCall (f : pyval -> pyresult pyval)
| CvPasswordRead
| CvPasswordWrite.

(** [<converter>]: absent, a single read converter, or a
    [(read, write)] pair. *)
Inductive convdef : Type :=
| NoConverter
| Conv1 (c : convitem)
| Conv2 (r w : convitem).

(** [<validate>]: a string that is evaluated with [$] bound to the value,
    or a function. *)
Inductive validator : Type :=
| ValEval (p : pyval -> pyresult pyval)
| ValCall (p : pyval -> pyresult pyval).

(** [arraydef] is [[]] where Python has [None] (the script treats [None]
    and the empty list alike).  The command templates of [<datadef>], which
    only [set_cmnd] reads, are left out. *)
Inductive fielddef : Type :=
| FieldDef (platform_ : Z) (format_ : format) (baseaddr : Z)
           (bits bitshift : Z) (strindex : option Z)
           (arraydef : list Z) (validate : option validator)
           (group : option string) (converter : convdef)
with format : Type :=
| FStruct (f : sformat)
| FDict (d : list (string * fielddef)).

Definition platform_ (fd : fielddef) : Z :=
  let '(FieldDef p _ _ _ _ _ _ _ _ _) := fd in p.
Definition format_ (fd : fielddef) : format :=
  let '(FieldDef _ f _ _ _ _ _ _ _ _) := fd in f.
Definition baseaddr (fd : fielddef) : Z :=
  let '(FieldDef _ _ a _ _ _ _ _ _ _) := fd in a.
Definition bits (fd : fielddef) : Z :=
  let '(FieldDef _ _ _ b _ _ _ _ _ _) := fd in b.
Definition bitshift (fd : fielddef) : Z :=
  let '(FieldDef _ _ _ _ s _ _ _ _ _) := fd in s.
Definition strindex (fd : fielddef) : option Z :=
  let '(FieldDef _ _ _ _ _ i _ _ _ _) := fd in i.
Definition arraydef (fd : fielddef) : list Z :=
  let '(FieldDef _ _ _ _ _ _ a _ _ _) := fd in a.
Definition validate (fd : fielddef) : option validator :=
  let '(FieldDef _ _ _ _ _ _ _ v _ _) := fd in v.
Definition group (fd : fielddef) : option string :=
  let '(FieldDef _ _ _ _ _ _ _ _ g _) := fd in g.
Definition converter (fd : fielddef) : convdef :=
  let '(FieldDef _ _ _ _ _ _ _ _ _ c) := fd in c.

(** [readconverter] and [writeconverter] as [get_fielddef] derives them
    from [<converter>]. *)
Definition readconverter (fd : fielddef) : convitem :=
  match converter fd with
  | NoConverter => CvNone
  | Conv1 c => c
  | Conv2 r _ => r
  end.

Definition writeconverter (fd : fielddef) : convitem :=
  match converter fd with
  | NoConverter => CvNone
  | Conv1 _ => CvNone
  | Conv2 _ w => w
  end.

(** A settings table and the registry [SETTINGS] of
    [(version, size, setting)] entries. *)
Definition setting := list (string * fielddef).
Definition settings := list (Z * Z * setting).

(** Python's [dict.get(name, None)]. *)
Fixpoint dict_get {A : Type} (d : list (string * A)) (name : string) : option A :=
  match d with
  | [] => None
  | (k, v) :: d' => if String.eqb k name then Some v else dict_get d' name
  end.

(** The interpreter built-ins the codec calls. *)
Record runtime : Type := mkruntime {
  rt_encode : pystr -> list Z;                 (* s.encode('utf8') *)
  rt_decode : list Z -> pystr;                 (* str(b, 'utf8', errors='ignore') *)
  rt_isprintable : N -> bool;                  (* c.isprintable() *)
  rt_title : string -> string;                 (* s.title() *)
  rt_int_of_str : pystr -> pyresult Z;         (* int(s, 0) *)
  rt_int_of_float : Z -> pyresult Z;           (* int(x) of a float *)
  rt_int_of_bytes : list Z -> pyresult Z;      (* int(b) of a bytes object *)
  rt_float : pyval -> pyresult Z;              (* float(x) *)
  rt_pack_float : fcode -> Z -> pyresult (list Z);   (* struct.pack of f, d *)
  rt_unpack_float : fcode -> list Z -> Z;            (* struct.unpack of f, d *)
  rt_native_long : Z;                          (* size of a native long *)
  rt_json_load : list Z -> pyresult pyval      (* json.load of a file's content *)
}.

(* ================================================================== *)
(** ** Python operations used by the codec *)

Definition pystr_eqb (a b : pystr) : bool :=
  if list_eq_dec N.eq_dec a b then true else false.

Definition bytes_eqb (a b : list Z) : bool :=
  if list_eq_dec Z.eq_dec a b then true else false.

(** [v == s] for a [str] constant [s]: only a [str] can equal a [str]
    (in Python 3 a [bytes] object never does). *)
Definition py_eq_str (v : pyval) (s : pystr) : bool :=
  match v with
  | VStr s' => pystr_eqb s' s
  | _ => false
  end.

(** [v == z] for an [int] constant [z]. *)
Definition py_eq_int (v : pyval) (z : Z) : bool :=
  match v with
  | VInt x => x =? z
  | VBool b => (if b then 1 else 0) =? z
  | VFloat fb => (z =? 0) && ((fb =? 0) || (fb =? 0x8000000000000000))
  | _ => false
  end.

(** [a != b] on the values [get_fieldvalue] returns (an [int] or a [str]). *)
Definition py_ne (a b : pyval) : bool :=
  match a, b with
  | VInt x, VInt y => negb (x =? y)
  | VStr x, VStr y => negb (pystr_eqb x y)
  | VBytes x, VBytes y => negb (bytes_eqb x y)
  | VBool x, VBool y => negb (Bool.eqb x y)
  | VNone, VNone => false
  | _, _ => true
  end.

(** Truth value of an object ([if v], [not v], [bool(v)]). *)
Definition py_truthy (v : pyval) : bool :=
  match v with
  | VNone => false
  | VBool b => b
  | VInt z => negb (z =? 0)
  | VFloat fb => negb ((fb =? 0) || (fb =? 0x8000000000000000))
  | VStr s => negb (Nat.eqb (List.length s) 0)
  | VBytes b => negb (Nat.eqb (List.length b) 0)
  | VList l => negb (Nat.eqb (List.length l) 0)
  | VDict d => negb (Nat.eqb (List.length d) 0)
  end.

Definition is_none (v : pyval) : bool :=
  match v with VNone => true | _ => false end.

(** [len(v)]. *)
Definition py_len (v : pyval) : pyresult Z :=
  match v with
  | VStr s => PyOk (Z.of_nat (List.length s))
  | VBytes b => PyOk (Z.of_nat (List.length b))
  | VList l => PyOk (Z.of_nat (List.length l))
  | VDict d => PyOk (Z.of_nat (List.length d))
  | _ => PyExc TypeError
  end.

(** [l[i]] on a sequence, with Python's negative indices. *)
Definition seq_index {A : Type} (l : list A) (i : Z) : pyresult A :=
  let n := Z.of_nat (List.length l) in
  let j := if i <? 0 then i + n else i in
  if (j <? 0) || (n <=? j) then PyExc IndexError
  else match nth_error l (Z.to_nat j) with
       | Some a => PyOk a
       | None => PyExc IndexError
       end.

(** [v[i]] for an integer index. *)
Definition py_getitem (v : pyval) (i : Z) : pyresult pyval :=
  match v with
  | VList l => seq_index l i
  | VStr s => match seq_index s i with
              | PyOk c => PyOk (VStr [c])
              | PyExc e => PyExc e
              end
  | VBytes b => match seq_index b i with
                | PyOk c => PyOk (VInt c)
                | PyExc e => PyExc e
                end
  | VDict _ => PyExc KeyError
  | _ => PyExc TypeError
  end.

(** [v.get(name, None)]: only a [dict] has the method. *)
Definition py_get (v : pyval) (name : string) : pyresult pyval :=
  match v with
  | VDict d => PyOk (match dict_get d name with Some x => x | None => VNone end)
  | _ => PyExc AttributeError
  end.

(** [int(v, 0)] for a [str], [int(v)] otherwise. *)
Definition py_int (rt : runtime) (v : pyval) : pyresult Z :=
  match v with
  | VStr s => rt_int_of_str rt s
  | VInt z => PyOk z
  | VBool b => PyOk (if b then 1 else 0)
  | VFloat fb => rt_int_of_float rt fb
  | VBytes b => rt_int_of_bytes rt b
  | _ => PyExc TypeError
  end.

(** The integer behind an [int] (or [bool]) object, for arithmetic. *)
Definition as_int (v : pyval) : pyresult Z :=
  match v with
  | VInt z => PyOk z
  | VBool b => PyOk (if b then 1 else 0)
  | _ => PyExc TypeError
  end.

(** [v.encode(STR_ENCODING)]: only a [str] has the method. *)
Definition py_encode (rt : runtime) (v : pyval) : pyresult (list Z) :=
  match v with
  | VStr s => PyOk (rt_encode rt s)
  | _ => PyExc AttributeError
  end.

(** [s.split('\x00', maxsplit)] with [maxsplit] splits left. *)
Fixpoint split_nul_from (maxsplit : option nat) (cur : pystr) (s : pystr)
  : list pystr :=
  match s with
  | [] => [rev cur]
  | c :: s' =>
      if N.eqb c 0 then
        match maxsplit with
        | Some O => [rev cur ++ c :: s']
        | Some (S m) => rev cur :: split_nul_from (Some m) [] s'
        | None => rev cur :: split_nul_from None [] s'
        end
      else split_nul_from maxsplit (c :: cur) s'
  end.

Definition split_nul (maxsplit : option nat) (s : pystr) : list pystr :=
  split_nul_from maxsplit [] s.

(** [s.rstrip('\x00')]. *)
Fixpoint rstrip_nul (s : pystr) : pystr :=
  match s with
  | [] => []
  | c :: s' =>
      match rstrip_nul s' with
      | [] => if N.eqb c 0 then [] else [c]
      | r => c :: r
      end
  end.

(** ['\0'.join(l)]. *)
Fixpoint join_nul (l : list pystr) : pystr :=
  match l with
  | [] => []
  | [x] => x
  | x :: l' => x ++ 0%N :: join_nul l'
  end.

(** [l[i] = x] on a list, with Python's negative indices. *)
Fixpoint list_set {A : Type} (l : list A) (n : nat) (x : A) : list A :=
  match l, n with
  | [], _ => []
  | _ :: t, O => x :: t
  | h :: t, S n' => h :: list_set t n' x
  end.

Definition seq_setitem {A : Type} (l : list A) (i : Z) (x : A) : pyresult (list A) :=
  let n := Z.of_nat (List.length l) in
  let j := if i <? 0 then i + n else i in
  if (j <? 0) || (n <=? j) then PyExc IndexError
  else PyOk (list_set l (Z.to_nat j) x).

(** [range(0, n)]. *)
Definition range0 (n : Z) : list Z := map Z.of_nat (seq 0 (Z.to_nat n)).

(* ================================================================== *)
(** ** The [struct] module

    Byte order: [<] is little-endian, [>] big-endian; without a prefix the
    host's native order and sizes apply, and the host is taken to be
    little-endian. *)

Definition is_signed (c : fcode) : bool :=
  match c with
  | Cb | Ch | Ci | Cl | Cq => true
  | _ => false
  end.

Definition is_intcode (c : fcode) : bool :=
  match c with
  | Cb | CB | Ch | CH | Ci | CI | Cl | CL | Cq | CQ => true
  | _ => false
  end.

Definition is_strcode (c : fcode) : bool :=
  match c with
  | Cs | Cp => true
  | _ => false
  end.

Definition code_size (rt : runtime) (o : byteorder) (c : fcode) : Z :=
  match c with
  | Cc | Cbool | Cb | CB | Cs | Cp => 1
  | Ch | CH => 2
  | Ci | CI | Cf => 4
  | Cl | CL => match o with NoPrefix => rt_native_long rt | _ => 4 end
  | Cq | CQ | Cd => 8
  end.

Definition count_of (fmt : sformat) : Z :=
  match f_count fmt with
  | Some n => n
  | None => 1
  end.

(** [struct.calcsize(format_)]. *)
Definition calcsize (rt : runtime) (fmt : sformat) : Z :=
  code_size rt (f_order fmt) (f_code fmt) * count_of fmt.

(** Little-endian bytes of an integer and back. *)
Fixpoint le_bytes (n : nat) (v : Z) : list Z :=
  match n with
  | O => []
  | S n' => Z.land v 0xff :: le_bytes n' (Z.shiftr v 8)
  end.

Fixpoint le_value (l : list Z) : Z :=
  match l with
  | [] => 0
  | b :: t => Z.lor b (Z.shiftl (le_value t) 8)
  end.

Definition ordered (o : byteorder) (l : list Z) : list Z :=
  match o with
  | BigEndian => rev l
  | _ => l
  end.

(** Where an access of [size] bytes at [offset] lands in a buffer of [len]
    bytes; a negative offset counts from the end. *)
Definition buf_offset (len offset size : Z) : pyresult Z :=
  let off := if offset <? 0 then offset + len else offset in
  if (off <? 0) || (len - off <? size) then PyExc StructError else PyOk off.

Definition buf_read (dobj : list Z) (off size : Z) : list Z :=
  firstn (Z.to_nat size) (skipn (Z.to_nat off) dobj).

Definition buf_write (dobj : list Z) (off : Z) (data : list Z) : list Z :=
  firstn (Z.to_nat off) dobj ++ data
    ++ skipn (Z.to_nat off + List.length data) dobj.

Fixpoint chunks (n k : nat) (l : list Z) : list (list Z) :=
  match n with
  | O => []
  | S n' => firstn k l :: chunks n' k (skipn k l)
  end.

Definition unpack_item (rt : runtime) (o : byteorder) (c : fcode)
    (chunk : list Z) : pyval :=
  match c with
  | Cc => VBytes chunk
  | Cbool => VBool (negb (le_value chunk =? 0))
  | Cf | Cd => VFloat (rt_unpack_float rt c (ordered o chunk))
  | Cs | Cp => VBytes chunk
  | _ =>
      let v := le_value (ordered o chunk) in
      let w := 8 * Z.of_nat (List.length chunk) in
      VInt (if is_signed c && (2 ^ (w - 1) <=? v) then v - 2 ^ w else v)
  end.

(** [struct.unpack_from(format_, dobj, addr)]: the tuple of values. *)
Definition unpack_from (rt : runtime) (fmt : sformat) (dobj : list Z) (addr : Z)
  : pyresult (list pyval) :=
  let size := calcsize rt fmt in
  let isz := code_size rt (f_order fmt) (f_code fmt) in
  off <~ buf_offset (Z.of_nat (List.length dobj)) addr size ;;
  let data := buf_read dobj off size in
  match f_code fmt with
  | Cs => PyOk [VBytes data]
  | Cp => match data with
          | [] => PyOk [VBytes []]
          | n :: rest =>
              PyOk [VBytes (firstn (Z.to_nat (Z.min n (size - 1))) rest)]
          end
  | c => PyOk (map (unpack_item rt (f_order fmt) c)
                   (chunks (Z.to_nat (count_of fmt)) (Z.to_nat isz) data))
  end.

(** One packed item of an integer argument. *)
Definition pack_item (rt : runtime) (o : byteorder) (c : fcode) (val : Z)
  : pyresult (list Z) :=
  match c with
  | Cc | Cs | Cp => PyExc StructError
  | Cbool => PyOk [if val =? 0 then 0 else 1]
  | Cf | Cd =>
      match rt_pack_float rt c val with
      | PyOk l => PyOk (ordered o l)
      | PyExc e => PyExc e
      end
  | _ =>
      let sz := code_size rt o c in
      let w := 8 * sz in
      let lo := if is_signed c then - 2 ^ (w - 1) else 0 in
      let hi := if is_signed c then 2 ^ (w - 1) - 1 else 2 ^ w - 1 in
      if (lo <=? val) && (val <=? hi)
      then PyOk (ordered o (le_bytes (Z.to_nat sz) val))
      else PyExc StructError
  end.

(** What [get_formattype] returns as the type: the leading run of
    non-digit characters of the format string. *)
Inductive formattype : Type :=
| FtPrefix (o : byteorder)             (* the byte-order character alone *)
| FtCode (o : byteorder) (c : fcode).

Definition zeros (n : nat) : list Z := repeat 0 n.

Definition pad_to (n : nat) (l : list Z) : list Z :=
  firstn n l ++ zeros (n - List.length l).

(** How a call of [struct.pack_into] on the [bytearray] ends: it returns
    and the buffer holds the packed bytes, or it raises and leaves the
    buffer as it is then.  [pack_into] checks the number of values and the
    offset first, and raises [struct.error] with the buffer untouched when
    one of them is wrong; then it clears the [calcsize] bytes at the offset
    and packs the values into them, so a value that cannot be packed
    leaves these bytes zero. *)
Inductive packresult : Type :=
| Packed (dobj : list Z)
| PackError (e : exn) (dobj : list Z).

(** [struct.pack_into(singletype, dobj, addr, val)] for an integer [val]. *)
Definition pack_into_int (rt : runtime) (ft : formattype) (dobj : list Z)
    (addr : Z) (val : Z) : packresult :=
  match ft with
  | FtPrefix _ => PackError StructError dobj
  | FtCode o c =>
      let size := code_size rt o c in
      match buf_offset (Z.of_nat (List.length dobj)) addr size with
      | PyExc e => PackError e dobj
      | PyOk off =>
          let cleared := buf_write dobj off (zeros (Z.to_nat size)) in
          match pack_item rt o c val with
          | PyOk data =>
              Packed (buf_write cleared off (firstn (Z.to_nat size) data))
          | PyExc e => PackError e cleared
          end
      end
  end.

(** [struct.pack_into(format_, dobj, addr, value)] for a string format;
    a value that is no [bytes] object cannot be packed. *)
Definition pack_into_str (rt : runtime) (fmt : sformat) (dobj : list Z)
    (addr : Z) (value : pyval) : packresult :=
  let size := calcsize rt fmt in
  let n := Z.to_nat size in
  match buf_offset (Z.of_nat (List.length dobj)) addr size with
  | PyExc e => PackError e dobj
  | PyOk off =>
      match value with
      | VBytes b =>
          let data :=
            match f_code fmt with
            | Cp => match n with
                    | O => []
                    | S m =>
                        let k := Nat.min (List.length b) m in
                        Z.of_nat (Nat.min k 255) :: pad_to m b
                    end
            | _ => pad_to n b
            end in
          Packed (buf_write dobj off data)
      | _ => PackError StructError (buf_write dobj off (zeros n))
      end
  end.

(* ================================================================== *)
(** ** Messages and exit *)

(** [try: m  except Exception: h] ([sys.exit] passes through). *)
Definition catch_exception {A} (m : M A) (h : exn -> M A) : M A :=
  fun w =>
    match m w with
    | (Raise e, w') => h e w'
    | r => r
    end.

(** [try: m  except: h] (a bare [except] also stops [sys.exit]). *)
Definition catch_all {A} (m : M A) (h : M A) : M A :=
  fun w =>
    match m w with
    | (Ret a, w') => (Ret a, w')
    | (_, w') => h w'
    end.

(** [message(msg, type_, status)]: one line on stderr. *)
Definition message (msg : msgtext) (type_ : option LogType) (status : option Z)
  : M unit :=
  fun w => (Ret tt, mkworld (EXIT_CODE w) (mklog type_ status msg :: stderr w)).

Definition sys_exit {A} (status : Z) : M A := fun w => (SysExit status, w).

(** [exit_(status, msg, type_, doexit)]; [doexit] defaults to [True] in the
    script, so a call site that does not pass it is embedded with [true]. *)
Definition exit_ (status : Z) (msg : msgtext) (type_ : LogType) (doexit : bool)
  : M unit :=
  message msg (Some (if negb (status =? ExitCode.OK) then type_ else INFO))
          (Some status) ;;;
  (fun w => (Ret tt, mkworld status (stderr w))) ;;;
  if doexit
  then message (MsgPrematureExit status) None None ;;;
       (fun w => sys_exit (EXIT_CODE w) w)
  else ret tt.

(* ================================================================== *)
(** ** Settings helpers *)

Definition passwordread (ARGS : args) (value : pyval) : pyval :=
  if jsonhidepw ARGS then VStr HIDDEN_PASSWORD else value.

Definition passwordwrite (value : pyval) : pyval :=
  if py_eq_str value HIDDEN_PASSWORD then VNone else value.

Definition bitsread (value pos bits : Z) : Z :=
  let value := if pos >=? 0 then Z.shiftr value pos
               else Z.shiftl value (Z.abs pos) in
  if bits >? 0 then Z.land value (Z.shiftl 1 bits - 1) else value.

(** [converter is not None]. *)
Definition has_converter (fd : fielddef) : bool :=
  match converter fd with
  | NoConverter => false
  | Conv1 CvNone => false
  | _ => true
  end.

(** [c is False]. *)
Definition is_false (c : convitem) : bool :=
  match c with CvBool false => true | _ => false end.

Definition is_passwordread (c : convitem) : bool :=
  match c with CvPasswordRead => true | _ => false end.

Definition is_passwordwrite (c : convitem) : bool :=
  match c with CvPasswordWrite => true | _ => false end.

(** Applying a converter item to a value; [None] when the item is neither
    a string nor callable. *)
Definition apply_conv (ARGS : args) (conv : convitem) (value : pyval)
  : option (pyresult pyval) :=
  match conv with
  | CvEval f => Some (f value)
  | CvCall f => Some (f value)
  | CvPasswordRead => Some (PyOk (passwordread ARGS value))
  | CvPasswordWrite => Some (PyOk (passwordwrite value))
  | CvNone | CvBool _ => None
  end.

Definition readwrite_converter (ARGS : args) (value : pyval) (fd : fielddef)
    (read raw : bool) : M pyval :=
  let raw := if read && is_passwordread (readconverter fd) then false else raw in
  let raw := if negb read && is_passwordwrite (writeconverter fd) then false
             else raw in
  if negb raw && has_converter fd then
    let conv := if read then readconverter fd else writeconverter fd in
    match apply_conv ARGS conv value with
    | Some (PyOk v) => ret v
    | Some (PyExc _) =>
        exit_ ExitCode.INTERNAL_ERROR MsgConverterError WARNING true ;;;
        ret value
    | None => ret value
    end
  else ret value.

Definition validate_value (value : pyval) (fd : fielddef) : pyval :=
  if py_eq_int value 0 then VBool true
  else
    match validate fd with
    | Some (ValEval p) | Some (ValCall p) =>
        match p value with
        | PyOk valid => valid
        | PyExc _ => VBool false
        end
    | None => VBool true
    end.

Definition get_formatcount (fmt : sformat) : Z := count_of fmt.

Definition get_formattype (rt : runtime) (fmt : sformat) : formattype * Z :=
  match f_order fmt, f_count fmt with
  | NoPrefix, _ =>
      (FtCode NoPrefix (f_code fmt), code_size rt NoPrefix (f_code fmt) * 8)
  | o, None => (FtCode o (f_code fmt), code_size rt o (f_code fmt) * 8)
  | o, Some _ => (FtPrefix o, 0)
  end.

(** [get_fieldminmax]; the bounds of the float formats
    ([sys.float_info.min], [sys.float_info.max]) are only ever printed and
    are given as [0]. *)
Definition get_fieldminmax (fmt : sformat) : Z * Z :=
  let cnt := get_formatcount fmt in
  match f_code fmt with
  | Cc => (0, 0xff * cnt)
  | Cbool => (0, 1 * cnt)
  | Cb => (Z.lnot 0x7f, 0x7f * cnt)
  | CB => (0, 0xff * cnt)
  | Ch => (Z.lnot 0x7fff, 0x7fff * cnt)
  | CH => (0, 0xffff * cnt)
  | Ci | Cl => (Z.lnot 0x7fffffff, 0x7fffffff * cnt)
  | CI | CL => (0, 0xffffffff * cnt)
  | Cq => (Z.lnot 0x7fffffffffffffff, 0x7fffffffffffffff * cnt)
  | CQ => (0, 0x7fffffffffffffff * cnt)
  | Cf | Cd => (0, 0)
  | Cs | Cp => (0, cnt)
  end.

Definition get_subfielddef (fd : fielddef) : pyresult fielddef :=
  let '(FieldDef p f a b s i ad v g c) := fd in
  match ad with
  | [] => PyExc TypeError
  | _ :: dims => PyOk (FieldDef p f a b s i dims v g c)
  end.

(** The tuple [(platform_, format_, addrdef, None)] [get_fieldlength]
    builds for one array element. *)
Definition element_fielddef (fd : fielddef) : fielddef :=
  let '(FieldDef p f a b s i _ _ _ _) := fd in
  FieldDef p f a b s i [] None None NoConverter.

Fixpoint sum_repeat (n : nat) (r : pyresult Z) (acc : Z) : pyresult Z :=
  match n with
  | O => PyOk acc
  | S n' => l <~ r ;; sum_repeat n' r (acc + l)
  end.

Fixpoint get_fieldlength (rt : runtime) (depth : nat) (fd : fielddef)
  : pyresult Z :=
  match depth with
  | O => PyExc RecursionError
  | S d =>
      match arraydef fd with
      | n :: dims =>
          sum_repeat (Z.to_nat n)
            (_ <~ get_subfielddef fd ;;
             match dims with
             | _ :: _ => PyExc SyntaxError
             | [] => get_fieldlength rt d (element_fielddef fd)
             end) 0
      | [] =>
          match format_ fd with
          | FDict setting =>
              (fix children (l : list (string * fielddef)) (addr : option Z)
                   (length : Z) : pyresult Z :=
                 match l with
                 | [] => PyOk length
                 | (_, child) :: l' =>
                     _len <~ get_fieldlength rt d child ;;
                     if match addr with
                        | Some a => a =? baseaddr child
                        | None => false
                        end
                     then children l' addr length
                     else children l' (Some (baseaddr child)) (length + _len)
                 end) setting None 0
          | FStruct fmt => PyOk (calcsize rt fmt)
          end
      end
  end.

Definition is_filtergroup (ARGS : args) (rt : runtime) (group : option string)
  : bool :=
  match filter ARGS with
  | Some flt =>
      match group with
      | None => false
      | Some g =>
          if String.eqb g VIRTUAL then true
          else
            let titles := map (rt_title rt) flt in
            let has t := existsb (String.eqb t) titles in
            if (negb (has (rt_title rt INTERNAL))
                && String.eqb (rt_title rt g) (rt_title rt INTERNAL))
               || negb (has (rt_title rt g))
            then false else true
      end
  | None => true
  end.

(* ================================================================== *)
(** ** Field codec *)

(** The accumulation loop of [get_fieldvalue] over the unpacked values. *)
Fixpoint combine_values (bitsize : Z) (vals : list pyval) (value_ : Z)
  : pyresult Z :=
  match vals with
  | [] => PyOk value_
  | val :: vals' =>
      v <~ as_int val ;;
      combine_values bitsize vals' (Z.shiftl value_ bitsize + v)
  end.

Definition get_fieldvalue (rt : runtime) (depth : nat) (fd : fielddef)
    (dobj : list Z) (addr : Z) (idxoffset : Z) : pyresult pyval :=
  match format_ fd with
  | FDict _ => PyExc TypeError
  | FStruct fmt =>
      unpackedvalue <~ unpack_from rt fmt dobj addr ;;
      let bitsize := snd (get_formattype rt fmt) in
      if negb (is_strcode (f_code fmt)) then
        value_ <~ combine_values bitsize unpackedvalue 0 ;;
        PyOk (VInt (bitsread value_ (bitshift fd) (bits fd)))
      else
        maxlength <~ get_fieldlength rt depth fd ;;
        first <~ seq_index unpackedvalue 0 ;;
        match first with
        | VBytes b =>
            let str_ := rt_decode rt b in
            let sarray := map rstrip_nul
                              (split_nul (Some (Z.to_nat SET_MAX)) str_) in
            str_ <~ match strindex fd with
                    | None => seq_index sarray 0
                    | Some si => seq_index sarray (si + idxoffset)
                    end ;;
            if maxlength =? 0 then PyOk (VStr [])
            else PyOk (VStr (firstn (Z.to_nat maxlength)
                                    (List.filter (rt_isprintable rt) str_)))
        | _ => PyExc TypeError
        end
  end.

(** The loop of [set_fieldvalue] over the [formatcnt] items of a numeric
    format, last item first. *)
Fixpoint set_items (ARGS : args) (rt : runtime) (singletype : formattype)
    (bitsize : Z) (n : nat) (dobj : list Z) (addr : Z) (value : Z)
  : M (list Z) :=
  match n with
  | O => ret dobj
  | S n' =>
      let addr := addr - bitsize / 8 in
      let maxunsigned := 2 ^ bitsize - 1 in
      let maxsigned := Z.shiftr (2 ^ bitsize) 1 - 1 in
      let val := Z.land value maxunsigned in
      let val := if (value <? 0) && (val >? maxsigned)
                 then ((maxunsigned + 1) - val) * (-1) else val in
      dobj' <- match pack_into_int rt singletype dobj addr val with
               | Packed d => ret d
               | PackError StructError d =>
                   exit_ ExitCode.RESTORE_DATA_ERROR (MsgPackError addr) WARNING
                         (negb (ignorewarning ARGS)) ;;;
                   ret d
               | PackError e _ => raise e
               end ;;
      set_items ARGS rt singletype bitsize n' dobj' addr (Z.shiftr value bitsize)
  end.

Definition set_fieldvalue (ARGS : args) (rt : runtime) (fd : fielddef)
    (dobj : list Z) (addr : Z) (value : pyval) : M (list Z) :=
  match format_ fd with
  | FDict _ => raise TypeError
  | FStruct fmt =>
      let formatcnt := get_formatcount fmt in
      let '(singletype, bitsize) := get_formattype rt fmt in
      if negb (is_strcode (f_code fmt)) then
        let addr := addr + (bitsize / 8) * formatcnt in
        match Z.to_nat formatcnt with
        | O => ret dobj
        | n =>
            v <- lift (as_int value) ;;
            set_items ARGS rt singletype bitsize n dobj addr v
        end
      else
        match pack_into_str rt fmt dobj addr value with
        | Packed d => ret d
        | PackError StructError d =>
            exit_ ExitCode.RESTORE_DATA_ERROR (MsgPackError addr) WARNING
                  (negb (ignorewarning ARGS)) ;;;
            ret d
        | PackError e _ => raise e
        end
  end.

(** A [for] loop whose body threads a state and may [break]
    (the body returns [false] to break). *)
Fixpoint for_each {A S : Type} (l : list A) (body : A -> S -> M (bool * S))
    (s : S) : M S :=
  match l with
  | [] => ret s
  | a :: l' =>
      r <- body a s ;;
      if fst r then for_each l' body (snd r) else ret (snd r)
  end.

Fixpoint get_field (ARGS : args) (rt : runtime) (depth : nat) (dobj : list Z)
    (platform_bits : Z) (fieldname : option string) (fd : fielddef)
    (raw : bool) (addroffset : Z) (ignoregroup : bool) : M pyval :=
  match depth with
  | O => raise RecursionError
  | S d =>
      if Z.land (platform_ fd) platform_bits =? 0 then ret VNone
      else if negb ignoregroup && negb (is_filtergroup ARGS rt (group fd))
      then ret VNone
      else
        match arraydef fd with
        | n :: _ =>
            r <- for_each (range0 n)
                   (fun i st =>
                      let '(valuemapping, offset) := st in
                      subfielddef <- lift (get_subfielddef fd) ;;
                      length <- lift (get_fieldlength rt d subfielddef) ;;
                      if negb (length =? 0) then
                        value <- get_field ARGS rt d dobj platform_bits fieldname
                                   subfielddef raw
                                   (match strindex fd with
                                    | Some _ => i
                                    | None => addroffset + offset
                                    end) false ;;
                        ret (true, (valuemapping ++ [value], offset + length))
                      else ret (true, (valuemapping, offset + length)))
                   ([], 0) ;;
            ret (VList (fst r))
        | [] =>
            match format_ fd with
            | FDict setting =>
                mapping_value <-
                  for_each setting
                    (fun nf mapping_value =>
                       value <- get_field ARGS rt d dobj platform_bits
                                  (Some (fst nf)) (snd nf) raw addroffset false ;;
                       if negb (is_none value)
                       then ret (true, mapping_value ++ [(fst nf, value)])
                       else ret (true, mapping_value))
                    [] ;;
                ret (VDict mapping_value)
            | FStruct _ =>
                length <- lift (get_fieldlength rt d fd) ;;
                if negb (length =? 0) then
                  value <- lift (match strindex fd with
                                 | Some _ => get_fieldvalue rt d fd dobj
                                               (baseaddr fd) addroffset
                                 | None => get_fieldvalue rt d fd dobj
                                             (baseaddr fd + addroffset) 0
                                 end) ;;
                  readwrite_converter ARGS value fd true raw
                else ret VNone
            end
        end
  end.

(** The local variables of the simple-value branch of [set_field] after
    the conversion of the restore value. *)
Record prepared : Type := mkprepared {
  p_valid : pyval;
  p_value : pyval;
  p_skip : bool;
  p_min : Z;
  p_max : Z;
  p_err_text : string;
  p_prevcur : option (pyval * pyval) }.

Definition special_field (fieldname : string) : bool :=
  String.eqb fieldname "cfg_crc" || String.eqb fieldname "cfg_crc32"
  || String.eqb fieldname "cfg_timestamp" || String.eqb fieldname "_".

(** The integer branch of [set_field] for a bit-packed field
    ([bits != 0]): the new word merged from the stored one. *)
Definition prepare_bits (rt : runtime) (fd : fielddef) (fmt : sformat)
    (dobj : list Z) (addroffset : Z) (min_ max_ : Z) (bitvalue : Z)
  : pyresult prepared :=
  unpacked <~ unpack_from rt fmt dobj (baseaddr fd + addroffset) ;;
  value <~ seq_index unpacked 0 ;;
  let valid := validate_value (VInt bitvalue) fd in
  if negb (py_truthy valid) then
    PyOk (mkprepared valid (VInt bitvalue) false min_ max_
                     "valid bit range exceeding" None)
  else if bits fd <? 0 then PyExc ValueError
  else
    let mask := Z.shiftl 1 (bits fd) - 1 in
    if bitvalue >? mask then
      PyOk (mkprepared (VBool false) value false 0 mask "" None)
    else
      let bitvalue' := if bitshift fd >=? 0 then Z.shiftl bitvalue (bitshift fd)
                       else Z.shiftr bitvalue (Z.abs (bitshift fd)) in
      let mask' := if bitshift fd >=? 0 then Z.shiftl mask (bitshift fd)
                   else Z.shiftr mask (Z.abs (bitshift fd)) in
      word <~ as_int value ;;
      let value := Z.land word (Z.lxor 0xffffffff mask') in
      let value := Z.lor value bitvalue' in
      PyOk (mkprepared valid (VInt value) false min_ max_ "" None).

(** The conversion of the restore value, by format character. *)
Definition prepare_value (ARGS : args) (rt : runtime) (fd : fielddef)
    (fmt : sformat) (dobj : list Z) (restoremapping : pyval) (addroffset : Z)
  : M prepared :=
  let '(min_, max_) := get_fieldminmax fmt in
  let init := mkprepared (VBool true) VNone false min_ max_ "" None in
  let with_value v := mkprepared (VBool true) v false min_ max_ "" None in
  let invalid := mkprepared (VBool false) VNone false min_ max_ "" None in
  match f_code fmt with
  | Cc =>
      catch_exception
        (b <- lift (py_encode rt restoremapping) ;;
         c <- lift (seq_index b 0) ;;
         value <- readwrite_converter ARGS (VInt c) fd false false ;;
         ret (with_value value))
        (fun _ =>
           exit_ ExitCode.INTERNAL_ERROR MsgConverterError WARNING true ;;;
           ret invalid)
  | Cbool =>
      catch_exception
        (value <- readwrite_converter ARGS (VBool (py_truthy restoremapping))
                    fd false false ;;
         ret (with_value value))
        (fun _ =>
           exit_ ExitCode.INTERNAL_ERROR MsgConverterError WARNING true ;;;
           ret invalid)
  | Cb | CB | Ch | CH | Ci | CI | Cl | CL | Cq | CQ =>
      value <- readwrite_converter ARGS restoremapping fd false false ;;
      value <- lift (py_int rt value) ;;
      if negb (bits fd =? 0) then
        lift (prepare_bits rt fd fmt dobj addroffset min_ max_ value)
      else
        let valid := validate_value (VInt value) fd in
        ret (mkprepared valid (VInt value) false min_ max_
               (if negb (py_truthy valid) then "valid range exceeding" else "")
               None)
  | Cf | Cd =>
      catch_all
        (f <- lift (rt_float rt restoremapping) ;;
         value <- readwrite_converter ARGS (VFloat f) fd false false ;;
         ret (with_value value))
        (ret invalid)
  | Cs | Cp =>
      b <- lift (py_encode rt restoremapping) ;;
      value <- readwrite_converter ARGS (VBytes b) fd false false ;;
      p <- (if negb (is_none value) then
              n <- lift (py_len value) ;;
              let max_ := max_ - 1 in
              ret (mkprepared (VBool ((min_ <=? n) && (n <=? max_))) value false
                              min_ max_ "string length exceeding" None)
            else
              ret (mkprepared (VBool true) value true min_ max_
                              "string length exceeding" None)) ;;
      match strindex fd with
      | None => ret p
      | Some si =>
          unpacked <- lift (unpack_from rt fmt dobj (baseaddr fd)) ;;
          first <- lift (seq_index unpacked 0) ;;
          str_ <- match first with
                  | VBytes raw => ret (rt_decode rt raw)
                  | _ => raise TypeError
                  end ;;
          let sarray := split_nul None str_ in
          value <- match p_value p with
                   | VStr s => ret s
                   | VBytes raw => ret (rt_decode rt raw)
                   | _ => raise TypeError
                   end ;;
          prevvalue <- lift (seq_index sarray (si + addroffset)) ;;
          sarray <- lift (seq_setitem sarray (si + addroffset) value) ;;
          ret (mkprepared (p_valid p) (VBytes (rt_encode rt (join_nul sarray)))
                          (p_skip p) (p_min p) (p_max p) (p_err_text p)
                          (Some (VStr prevvalue, VStr value)))
      end
  end.

(** The simple-value branch of [set_field]. *)
Definition set_simple (ARGS : args) (rt : runtime) (depth : nat)
    (dobj : list Z) (fieldname : string) (fd : fielddef) (fmt : sformat)
    (restoremapping : pyval) (addroffset : Z) : M (list Z) :=
  p <- prepare_value ARGS rt fd fmt dobj restoremapping addroffset ;;
  let value := p_value p in
  let skip := p_skip p in
  let valid := if is_none value && negb skip then VBool false else p_valid p in
  vt <- (if is_none valid && negb skip then
           v <- lift (as_int value) ;;
           if (p_min p <=? v) && (v <=? p_max p)
           then ret (VBool true, p_err_text p)
           else ret (VBool false, "type range exceeding"%string)
         else ret (valid, p_err_text p)) ;;
  let '(valid, err_text) := vt in
  if py_truthy valid then
    if negb skip then
      if negb (special_field fieldname) then
        r <- match strindex fd with
             | Some _ =>
                 dobj' <- set_fieldvalue ARGS rt fd dobj (baseaddr fd) value ;;
                 match p_prevcur p with
                 | Some pc => ret (dobj', pc)
                 | None => raise NameError
                 end
             | None =>
                 prevvalue <- lift (get_fieldvalue rt depth fd dobj
                                      (baseaddr fd + addroffset) 0) ;;
                 dobj' <- set_fieldvalue ARGS rt fd dobj
                            (baseaddr fd + addroffset) value ;;
                 curvalue <- lift (get_fieldvalue rt depth fd dobj'
                                     (baseaddr fd + addroffset) 0) ;;
                 ret (dobj', (prevvalue, curvalue))
             end ;;
        let '(dobj', (prevvalue, curvalue)) := r in
        (if py_ne prevvalue curvalue && verbose ARGS
         then message (MsgValueChanged fieldname) (Some INFO) None
         else ret tt) ;;;
        ret dobj'
      else ret dobj
    else ret dobj
  else
    exit_ ExitCode.RESTORE_DATA_ERROR (MsgRestoreError fieldname err_text)
          WARNING (negb (ignorewarning ARGS)) ;;;
    ret dobj.

Fixpoint set_field (ARGS : args) (rt : runtime) (depth : nat) (dobj : list Z)
    (platform_bits : Z) (fieldname : string) (fd : fielddef)
    (restoremapping : pyval) (addroffset : Z) : M (list Z) :=
  match depth with
  | O => raise RecursionError
  | S d =>
      if Z.land (platform_ fd) platform_bits =? 0 then ret dobj
      else if negb (is_filtergroup ARGS rt (group fd)) then ret dobj
      else if is_false (writeconverter fd) then ret dobj
      else
        match arraydef fd with
        | n :: _ =>
            len <- lift (py_len restoremapping) ;;
            (if len >? n
             then exit_ ExitCode.RESTORE_DATA_ERROR
                        (MsgArrayExceeds fieldname len n) WARNING
                        (negb (ignorewarning ARGS))
             else ret tt) ;;;
            r <- for_each (range0 n)
                   (fun i st =>
                      let '(dobj, offset) := st in
                      subfielddef <- lift (get_subfielddef fd) ;;
                      length <- lift (get_fieldlength rt d subfielddef) ;;
                      if negb (length =? 0) then
                        len <- lift (py_len restoremapping) ;;
                        if i >=? len then ret (false, (dobj, offset))
                        else
                          subrestore <- lift (py_getitem restoremapping i) ;;
                          dobj' <- set_field ARGS rt d dobj platform_bits
                                     fieldname subfielddef subrestore
                                     (match strindex fd with
                                      | Some _ => i
                                      | None => addroffset + offset
                                      end) ;;
                          ret (true, (dobj', offset + length))
                      else ret (true, (dobj, offset + length)))
                   (dobj, 0) ;;
            ret (fst r)
        | [] =>
            match format_ fd with
            | FDict setting =>
                for_each setting
                  (fun nf dobj =>
                     restoremap <- lift (py_get restoremapping (fst nf)) ;;
                     if negb (is_none restoremap) then
                       dobj' <- set_field ARGS rt d dobj platform_bits (fst nf)
                                  (snd nf) restoremap addroffset ;;
                       ret (true, dobj')
                     else ret (true, dobj))
                  dobj
            | FStruct fmt =>
                set_simple ARGS rt d dobj fieldname fd fmt restoremapping
                           addroffset
            end
        end
  end.

(* ================================================================== *)
(** ** Integrity layer *)

(** The loop of [decrypt_encrypt] from index [i] on. *)
Fixpoint xor_from (i : Z) (obj : list Z) : list Z :=
  match obj with
  | [] => []
  | b :: obj' =>
      Z.land (Z.lxor b (CONFIG_FILE_XOR + i)) 0xff :: xor_from (i + 1) obj'
  end.

Definition decrypt_encrypt (obj : list Z) : list Z :=
  firstn 2 obj ++ xor_from 2 (skipn 2 obj).

Fixpoint crc32_bits (n : nat) (crc : Z) : Z :=
  match n with
  | O => crc
  | S n' =>
      crc32_bits n' (Z.lxor (Z.shiftr crc 1)
                            (Z.land (- (Z.land crc 1)) 0xEDB88320))
  end.

Definition get_settingcrc32 (dobj : list Z) : Z :=
  let n := (List.length dobj - 4)%nat in
  let crc := fold_left (fun crc b => crc32_bits 8 (Z.lxor crc b))
                       (firstn n dobj) 0 in
  Z.land (Z.lnot crc) 0xffffffff.

(* ================================================================== *)
(** ** Schema registry *)

Definition recursionlimit : nat := 1000.

Definition cfg_version (cfg : Z * Z * setting) : Z := fst (fst cfg).
Definition cfg_size (cfg : Z * Z * setting) : Z := snd (fst cfg).
Definition cfg_setting (cfg : Z * Z * setting) : setting := snd cfg.

(** [sorted(SETTINGS, key=lambda s: s[0], reverse=True)]: a stable sort,
    entries of equal version keep their order. *)
Fixpoint insert_desc (x : Z * Z * setting) (l : settings) : settings :=
  match l with
  | [] => [x]
  | y :: l' =>
      if cfg_version x <? cfg_version y then y :: insert_desc x l'
      else x :: l
  end.

Definition sorted_desc (l : settings) : settings := fold_right insert_desc [] l.

(** [list(set(sizes))] of [get_templatesizes], as a duplicate-free list. *)
Definition get_templatesizes (SETTINGS : settings) : list Z :=
  nodup Z.eq_dec (map cfg_size SETTINGS).

(** ['hex($)']. *)
Definition py_hex (v : pyval) : pyresult pyval :=
  z <~ as_int v ;;
  PyOk (VStr (pystr_of_string (HexString.of_Z z))).

(** [SETTING_6_2_1['version']]. *)
Definition version_fielddef : fielddef :=
  FieldDef Platform.ALL (FStruct (mkfmt LittleEndian None CL)) 0x008 0 0 None
           [] None (Some "System"%string) (Conv2 (CvEval py_hex) (CvBool false)).

Record config_info : Type := mkinfo {
  ci_platform : Z;
  ci_version : Z;
  ci_template_version : Z;
  ci_template_size : option Z;
  ci_template : option setting }.

(** The [for cfg in sorted(...): if version >= cfg[0]: ...; break] loops:
    the body runs on the first entry that matches, if any. *)
Definition first_supported (version : Z) (SETTINGS : settings)
  : option (Z * Z * setting) :=
  find (fun cfg => version >=? cfg_version cfg) (sorted_desc SETTINGS).

Definition get_config_info (ARGS : args) (rt : runtime) (SETTINGS : settings)
    (decode_cfg : list Z) : M config_info :=
  v <- get_field ARGS rt recursionlimit decode_cfg Platform.ALL
         (Some "version"%string) version_fielddef true 0 true ;;
  version <- lift (as_int v) ;;
  (* identify platform (config_version) *)
  config_version <-
    match first_supported version SETTINGS with
    | Some cfg =>
        match dict_get (cfg_setting cfg) "config_version" with
        | Some fielddef =>
            cv <- get_field ARGS rt recursionlimit decode_cfg Platform.ALL
                    (Some "config_version"%string) fielddef true 0 true ;;
            config_version <- lift (as_int cv) ;;
            if config_version >=? Z.of_nat (List.length PLATFORMS) then
              exit_ ExitCode.INVALID_DATA
                    (MsgInvalidConfigVersion config_version
                       (Z.of_nat (List.length PLATFORMS) - 1))
                    WARNING true ;;;
              ret 0
            else ret config_version
        | None => ret 0
        end
    | None => ret 0
    end ;;
  (* search setting definition for platform top-down *)
  let found := first_supported version SETTINGS in
  (match found with
   | None => exit_ ExitCode.UNSUPPORTED_VERSION (MsgUnsupportedVersion version)
                   ERROR true
   | Some _ => ret tt
   end) ;;;
  ret (mkinfo config_version version
              (match found with Some cfg => cfg_version cfg | None => version end)
              (option_map cfg_size found)
              (option_map cfg_setting found)).

(** The loop of [get_settingcrc] over [range(0, template_size)]. *)
Fixpoint settingcrc_from (dobj : list Z) (idx : list Z) (crc : Z) : pyresult Z :=
  match idx with
  | [] => PyOk crc
  | i :: idx' =>
      if (i =? 14) || (i =? 15) then settingcrc_from dobj idx' crc
      else
        byte_ <~ seq_index dobj i ;;
        settingcrc_from dobj idx' (crc + byte_ * (i + 1))
  end.

Definition get_settingcrc (ARGS : args) (rt : runtime) (SETTINGS : settings)
    (dobj : list Z) : M Z :=
  config_info <- get_config_info ARGS rt SETTINGS dobj ;;
  template_size <- match ci_template_size config_info with
                   | Some n => ret n
                   | None => raise TypeError
                   end ;;
  crc <- lift (settingcrc_from dobj (range0 template_size) 0) ;;
  ret (Z.land crc 0xffff).

(* ================================================================== *)
(** ** Mapping engine *)

(** The pruning loop of [bin2mapping]: keys whose value is an empty
    container are removed. *)
Definition empty_container (v : pyval) : bool :=
  match v with
  | VDict [] | VList [] => true
  | _ => false
  end.

Definition prune (valuemapping : pyval) : pyval :=
  match valuemapping with
  | VDict d => VDict (List.filter (fun kv => negb (empty_container (snd kv))) d)
  | v => v
  end.

(** [get_field] of a structural field of the template, in raw mode and
    without group filter, or the fallback when the template lacks it. *)
Definition read_structural (ARGS : args) (rt : runtime) (decode_cfg : list Z)
    (template : setting) (name : string) (fallback : M Z) : M Z :=
  match dict_get template name with
  | Some fielddef =>
      v <- get_field ARGS rt recursionlimit decode_cfg Platform.ALL (Some name)
             fielddef true 0 true ;;
      lift (as_int v)
  | None => fallback
  end.

(** [bin2mapping]; the [header] block it adds at the end (time stamps,
    host environment) is left out, the result is the pruned mapping. *)
Definition bin2mapping (ARGS : args) (rt : runtime) (SETTINGS : settings)
    (decode_cfg : list Z) : M pyval :=
  (* get binary header and template to use *)
  config_info <- get_config_info ARGS rt SETTINGS decode_cfg ;;
  template <- match ci_template config_info with
              | Some t => ret t
              | None => raise AttributeError
              end ;;
  template_size <- match ci_template_size config_info with
                   | Some n => ret n
                   | None => raise TypeError
                   end ;;
  (* check size if exists *)
  match dict_get template "cfg_size" with
  | Some cfg_size_fielddef =>
      v <- get_field ARGS rt recursionlimit decode_cfg Platform.ALL
             (Some "cfg_size"%string) cfg_size_fielddef true 0 true ;;
      cfg_size <- lift (as_int v) ;;
      (* read size should be same as definied in setting *)
      if cfg_size >? template_size then
        (* may be processed *)
        exit_ ExitCode.DATA_SIZE_MISMATCH
              (MsgSizeNotMatch cfg_size template_size) ERROR true
      else if cfg_size <? template_size then
        (* less number of bytes can not be processed *)
        exit_ ExitCode.DATA_SIZE_MISMATCH
              (MsgSizeTooSmall cfg_size template_size) ERROR true
      else ret tt
  | None => ret tt
  end ;;;
  (* check crc if exists *)
  cfg_crc <- read_structural ARGS rt decode_cfg template "cfg_crc"
               (get_settingcrc ARGS rt SETTINGS decode_cfg) ;;
  cfg_crc32 <- read_structural ARGS rt decode_cfg template "cfg_crc32"
                 (ret (get_settingcrc32 decode_cfg)) ;;
  _ <- read_structural ARGS rt decode_cfg template "cfg_timestamp" (ret 0) ;;
  (if ci_version config_info <? 0x0606000B then
     crc <- get_settingcrc ARGS rt SETTINGS decode_cfg ;;
     if negb (cfg_crc =? crc) then
       crc' <- get_settingcrc ARGS rt SETTINGS decode_cfg ;;
       exit_ ExitCode.DATA_CRC_ERROR (MsgCrcError cfg_crc crc') WARNING
             (negb (ignorewarning ARGS))
     else ret tt
   else
     if negb (cfg_crc32 =? get_settingcrc32 decode_cfg) then
       exit_ ExitCode.DATA_CRC_ERROR
             (MsgCrc32Error cfg_crc32 (get_settingcrc32 decode_cfg)) WARNING
             (negb (ignorewarning ARGS))
     else ret tt) ;;;
  (* get valuemapping *)
  valuemapping <- get_field ARGS rt recursionlimit decode_cfg
                    (Z.shiftl 1 (ci_platform config_info)) None
                    (FieldDef Platform.ALL (FDict template) 0 0 0 None [] None
                              (Some "System"%string) NoConverter)
                    false 0 true ;;
  (* remove keys having empty object *)
  ret (prune valuemapping).

(* ================================================================== *)
(** ** Restore: [mapping2bin]

    [struct.pack_into(fielddef[1], _buffer, fielddef[2], value)]: the
    format and the address are taken from the tuple as the table has it.
    A dict in place of the format is a [TypeError]; a format that does not
    take exactly one value is a [struct.error]; a tuple in place of the
    address (which is what a field with a bit range or a string index has)
    is a [TypeError]. *)
Definition pack_into_raw (rt : runtime) (fd : fielddef) (dobj : list Z)
    (val : Z) : pyresult (list Z) :=
  match format_ fd with
  | FDict _ => PyExc TypeError
  | FStruct fmt =>
      let items := match f_code fmt with
                   | Cs | Cp => 1
                   | _ => count_of fmt
                   end in
      let tuple_address :=
        negb (bits fd =? 0) || negb (bitshift fd =? 0)
        || match strindex fd with Some _ => true | None => false end in
      if negb (items =? 1) then PyExc StructError
      else if tuple_address then PyExc TypeError
      else
        match pack_into_int rt (FtCode (f_order fmt) (f_code fmt)) dobj
                            (baseaddr fd) val with
        | Packed d => PyOk d
        | PackError e _ => PyExc e
        end
  end.

(** [mapping2bin(config, jsonconfig)], with [config['decode']] and
    [config['info']] as arguments.  [set_field] changes [_buffer] in
    place; here the buffer it returns is passed on.  The message for a
    name the template does not have is recorded as a restore error of that
    name.  The result is [None] where the script returns [None]. *)
Definition mapping2bin (ARGS : args) (rt : runtime) (SETTINGS : settings)
    (decode : list Z) (info : config_info) (jsonconfig : pyval)
  : M (option (list Z)) :=
  let _buffer := decode in
  match ci_template info with
  | Some template =>
      (* iterate through restore data mapping *)
      items <- match jsonconfig with
               | VDict d => ret d
               | _ => raise AttributeError
               end ;;
      _buffer <-
        for_each items
          (fun nd _buffer =>
             let '(name, data) := nd in
             (* key must exist in both dict *)
             match dict_get template name with
             | Some setting_fielddef =>
                 platform_bits <- (if ci_platform info <? 0
                                   then raise ValueError
                                   else ret (Z.shiftl 1 (ci_platform info))) ;;
                 _buffer' <- set_field ARGS rt recursionlimit _buffer
                               platform_bits name setting_fielddef data 0 ;;
                 ret (true, _buffer')
             | None =>
                 (if negb (String.eqb name "header") then
                    exit_ ExitCode.RESTORE_DATA_ERROR
                          (MsgRestoreError name "obsolete name, skipped")
                          WARNING (negb (ignorewarning ARGS))
                  else ret tt) ;;;
                 ret (true, _buffer)
             end)
          _buffer ;;
      (* CRC32 calc takes precedence over CRC *)
      match dict_get template "cfg_crc32" with
      | Some cfg_crc32_setting =>
          let crc32 := get_settingcrc32 _buffer in
          _buffer' <- lift (pack_into_raw rt cfg_crc32_setting _buffer crc32) ;;
          ret (Some _buffer')
      | None =>
          match dict_get template "cfg_crc" with
          | Some cfg_crc_setting =>
              crc <- get_settingcrc ARGS rt SETTINGS _buffer ;;
              _buffer' <- lift (pack_into_raw rt cfg_crc_setting _buffer crc) ;;
              ret (Some _buffer')
          | None => ret (Some _buffer)
          end
      end
  | None =>
      exit_ ExitCode.UNSUPPORTED_VERSION (MsgUnsupportedVersion (ci_version info))
            WARNING (negb (ignorewarning ARGS)) ;;;
      ret None
  end.

(* ================================================================== *)
(** ** File classifier *)

Inductive FileType : Type :=
| FILE_NOT_FOUND | DMP | JSON | BIN | UNKNOWN
| INCOMPLETE_JSON | INVALID_JSON | INVALID_BIN.

(** What the file system answers for one file name: the content when the
    file can be opened and read, and the size [os.path.getsize] reports
    when it succeeds. *)
Record fileprobe : Type := mkprobe {
  fp_content : option (list Z);
  fp_getsize : option Z }.

(** [struct.unpack_from('<L', inputbin, offset)[0]]. *)
Definition unpack_header (rt : runtime) (inputbin : list Z) (offset : Z)
  : pyresult pyval :=
  t <~ unpack_from rt (mkfmt LittleEndian None CL) inputbin offset ;;
  seq_index t 0.

(** [get_filetype]; an exception inside the outer [try] gives
    [FILE_NOT_FOUND], written here as the [PyExc] cases. *)
Definition get_filetype (rt : runtime) (SETTINGS : settings) (file : fileprobe)
  : FileType :=
  match fp_content file with
  | None => FILE_NOT_FOUND
  | Some content =>
      match rt_json_load rt content with
      | PyOk _ => JSON
      | PyExc ValueError =>
          (* not a valid json, get filesize and compare it with all
             possible sizes *)
          match fp_getsize file with
          | None => FILE_NOT_FOUND          (* [size] is unbound: NameError *)
          | Some size =>
              let header_size := calcsize rt (mkfmt LittleEndian None CL) in
              let sizes := get_templatesizes SETTINGS in
              if existsb (Z.eqb size) sizes then DMP
              else if existsb (Z.eqb (size - header_size)) sizes then
                let inputbin := content in
                match unpack_header rt inputbin 0 with
                | PyExc _ => FILE_NOT_FOUND
                | PyOk first =>
                    if py_eq_int first BINARYFILE_MAGIC then BIN
                    else
                      match unpack_header rt inputbin
                              (Z.of_nat (List.length inputbin) - header_size) with
                      | PyExc _ => FILE_NOT_FOUND
                      | PyOk last =>
                          if py_eq_int last BINARYFILE_MAGIC then BIN
                          else INVALID_BIN
                      end
                end
              else INVALID_JSON
          end
      | PyExc _ => FILE_NOT_FOUND
      end
  end.

(* ================================================================== *)
(** ** Excerpts of the settings tables and sample data

    Used by the examples; the theorems do not depend on them. *)

Local Open Scope string_scope.
Local Open Scope list_scope.
Local Open Scope Z_scope.

Definition fmt_B : sformat := mkfmt NoPrefix None CB.
Definition fmt_H : sformat := mkfmt LittleEndian None CH.
Definition fmt_L : sformat := mkfmt LittleEndian None CL.
Definition fmt_s (n : Z) : sformat := mkfmt NoPrefix (Some n) Cs.

(** A validator string of the form ['lo <= $ <= hi']. *)
Definition between (lo hi : Z) : validator :=
  ValEval (fun v => z <~ as_int v ;; PyOk (VBool ((lo <=? z) && (z <=? hi)))).

(** ['"0x{:0Nx}".format($)']: the hexadecimal digits of an [int] (or
    [bool]), filled with zeros to [N] characters; the sign of a negative
    number counts as one of them and stands before the zeros.  The format
    code [x] is a [ValueError] for a [float] or a [str], and a format
    string is a [TypeError] for the other types. *)
Definition format_hex (width : nat) (v : pyval) : pyresult pyval :=
  match v with
  | VInt _ | VBool _ =>
      z <~ as_int v ;;
      let digits :=
        List.skipn 2 (list_ascii_of_string (HexString.of_Z (Z.abs z))) in
      let sign := if z <? 0 then ["-"%char] else [] in
      let padding :=
        repeat "0"%char (width - List.length sign - List.length digits) in
      PyOk (VStr (map N_of_ascii
                      (list_ascii_of_string "0x" ++ sign ++ padding ++ digits)))
  | VFloat _ | VStr _ => PyExc ValueError
  | _ => PyExc TypeError
  end.

Definition field (fmt : sformat) (addr : Z) (validate : option validator)
    (group : string) (converter : convdef) : fielddef :=
  FieldDef Platform.ALL (FStruct fmt) addr 0 0 None [] validate (Some group)
           converter.

Definition bitfield (fmt : sformat) (addr bits bitshift : Z) (group : string)
  : fielddef :=
  FieldDef Platform.ALL (FStruct fmt) addr bits bitshift None [] None
           (Some group) NoConverter.

Definition readonly : convdef := Conv2 CvNone (CvBool false).

(** The structural fields of the table of one version: the fields
    [get_config_info] and [bin2mapping] look up by name and their
    neighbours at the start of the image, in the order the table has them. *)
Definition structural_fields (version : Z) : setting :=
  ((if version <? 0x6000000
    then [("cfg_holder", field fmt_L 0x000 None INTERNAL
                               (Conv1 (CvEval (format_hex 8))))]
    else [("cfg_holder", field fmt_H 0x000 None "System" NoConverter)])
   ++ [("save_flag", field fmt_L 0x004 None INTERNAL readonly);
       ("version", version_fielddef);
       ("bootcount", field (if version <? 0x6000000 then fmt_L else fmt_H)
                           0x00C None "System" readonly)]
   ++ (if version <? 0x6000000 then []
       else [("cfg_size", field fmt_H 0x002 None "System" readonly);
             ("cfg_crc", field fmt_H 0x00E None "System"
                               (Conv1 (CvEval (format_hex 4))))])
   ++ (if version <? 0x606000A then []
       else [("cfg_timestamp", field fmt_L 0xFF8 None "System" NoConverter);
             ("cfg_crc32", field fmt_L 0xFFC None "System"
                                 (Conv1 (CvEval (format_hex 8))))])
   ++ (if version <? 0x8020004 then []
       else [("config_version", field fmt_B 0xF36 None INTERNAL readonly)])).

(** The [(version, size)] columns of [SETTINGS]. *)
Definition SETTINGS_versions : list (Z * Z) :=
  [ (0x8020004, 0x1000); (0x8020003, 0x1000); (0x8020000, 0x1000);
    (0x801000b, 0x1000); (0x801000a, 0x1000); (0x8010009, 0x1000);
    (0x8010006, 0x1000); (0x8010005, 0x1000); (0x8010004, 0x1000);
    (0x8010003, 0x1000); (0x8010002, 0x1000); (0x8010001, 0x1000);
    (0x8010000, 0x1000); (0x8000001, 0x1000); (0x7010206, 0x1000);
    (0x7010205, 0x1000); (0x7010203, 0x1000); (0x7010202, 0x1000);
    (0x7000006, 0x1000); (0x7000005, 0x1000); (0x7000004, 0x1000);
    (0x7000003, 0x1000); (0x7000002, 0x1000); (0x7000001, 0x1000);
    (0x6060015, 0x1000); (0x6060014, 0x1000); (0x6060012, 0x1000);
    (0x606000f, 0x1000); (0x606000e, 0x1000); (0x606000d, 0x1000);
    (0x606000c, 0x1000); (0x606000b, 0x1000); (0x606000a, 0x1000);
    (0x6060009, 0x1000); (0x6060008, 0x1000); (0x6060007, 0x1000);
    (0x6060006, 0xe00); (0x6060005, 0xe00); (0x6060003, 0xe00); (0x6060002,
    0xe00); (0x6060001, 0xe00); (0x605000f, 0xe00); (0x605000c, 0xe00);
    (0x605000b, 0xe00); (0x605000a, 0xe00); (0x6050009, 0xe00); (0x6050007,
    0xe00); (0x6050006, 0xe00); (0x6050003, 0xe00); (0x6040112, 0xe00);
    (0x6040111, 0xe00); (0x6040110, 0xe00); (0x604010d, 0xe00); (0x604010b,
    0xe00); (0x6040108, 0xe00); (0x6040107, 0xe00); (0x6040104, 0xe00);
    (0x6040002, 0xe00); (0x6030010, 0xe00); (0x603000f, 0xe00); (0x603000e,
    0xe00); (0x603000d, 0xe00); (0x603000b, 0xe00); (0x603000a, 0xe00);
    (0x6030008, 0xe00); (0x6030004, 0xe00); (0x6030002, 0xe00); (0x6030000,
    0xe00); (0x6020114, 0xe00); (0x6020113, 0xe00); (0x602010e, 0xe00);
    (0x602010a, 0xe00); (0x6020106, 0xe00); (0x6020103, 0xe00); (0x6020102,
    0xe00); (0x6020100, 0xe00); (0x6010100, 0xe00); (0x6000000, 0xe00);
    (0x50e0000, 0xa00); (0x50d0100, 0xa00); (0x50c0000, 0x670); (0x50b0000,
    0x670); (0x50a0000, 0x670) ].

(** [SETTINGS] with every table cut down to its structural fields. *)
Definition SETTINGS_structural : settings :=
  map (fun vs => (fst vs, snd vs, structural_fields (fst vs))) SETTINGS_versions.

(** Fields of the tables used in the examples. *)

(** [flag.save_state] and [flag.button_restrict] of [SETTING_5_10_0]. *)
Definition save_state : fielddef := bitfield fmt_L 0x010 1 0 "SetOption".
Definition button_restrict : fielddef := bitfield fmt_L 0x010 1 1 "SetOption".

(** [light_speed] of [SETTING_5_10_0], validator ['1 <= $ <= 20']. *)
Definition light_speed : fielddef :=
  field fmt_B 0x4A2 (Some (between 1 20)) "Light" NoConverter.

(** [mqtt_pwd] of [SETTING_5_10_0]. *)
Definition mqtt_pwd : fielddef :=
  field (fmt_s 33) 0x24E None "MQTT" (Conv2 CvPasswordRead CvPasswordWrite).

(** [mqtt_pwd] of [SETTING_8_0_0_1], slot [SET_MQTT_PWD] of the text blob. *)
Definition mqtt_pwd_indexed : fielddef :=
  FieldDef Platform.ALL (FStruct (fmt_s 699)) 0x017 0 0 (Some 15) [] None
           (Some "MQTT"%string) (Conv2 CvPasswordRead CvPasswordWrite).

(** [my_gp] of [SETTING_5_10_0]: an array of 18 bytes. *)
Definition my_gp : fielddef :=
  FieldDef Platform.ALL (FStruct fmt_B) 0x484 0 0 None [18] None
           (Some "Management"%string) NoConverter.

(** [str.title()] on ASCII text: a letter that follows a letter is put in
    lower case, every other letter in upper case. *)
Definition ascii_is_upper (c : ascii) : bool :=
  (65 <=? nat_of_ascii c)%nat && (nat_of_ascii c <=? 90)%nat.

Definition ascii_is_lower (c : ascii) : bool :=
  (97 <=? nat_of_ascii c)%nat && (nat_of_ascii c <=? 122)%nat.

Definition ascii_upper (c : ascii) : ascii :=
  if ascii_is_lower c then ascii_of_nat (nat_of_ascii c - 32) else c.

Definition ascii_lower (c : ascii) : ascii :=
  if ascii_is_upper c then ascii_of_nat (nat_of_ascii c + 32) else c.

Fixpoint title_from (previous_is_cased : bool) (s : string) : string :=
  match s with
  | EmptyString => EmptyString
  | String c s' =>
      String (if previous_is_cased then ascii_lower c else ascii_upper c)
             (title_from (ascii_is_upper c || ascii_is_lower c) s')
  end.

Definition ascii_title (s : string) : string := title_from false s.

(** [int(s, 0)] and [int(b)] on ASCII text.  White space around the
    literal is skipped, a sign may precede it; with base 0 the prefixes
    [0x], [0o] and [0b] select the base and a decimal literal with a
    leading zero must be zero.  Digits may be separated by single
    underscores; a decimal literal of more than 4300 digits is refused. *)
Definition digit_value (c : N) : option Z :=
  if ((48 <=? c) && (c <=? 57))%N then Some (Z.of_N c - 48)
  else if ((97 <=? c) && (c <=? 122))%N then Some (Z.of_N c - 87)
  else if ((65 <=? c) && (c <=? 90))%N then Some (Z.of_N c - 55)
  else None.

Definition is_space (c : N) : bool :=
  (((9 <=? c) && (c <=? 13)) || (c =? 32))%N.

Fixpoint skip_space (s : pystr) : pystr :=
  match s with
  | c :: s' => if is_space c then skip_space s' else s
  | [] => []
  end.

(** The digits at the start of [s]: their value, their number and the
    rest of [s]; nothing for a doubled or a trailing underscore. *)
Fixpoint scan_digits (base : Z) (s : pystr) (after_underscore : bool)
    (acc : Z) (digits : nat) : option (Z * nat * pystr) :=
  let stop := if after_underscore then None else Some (acc, digits, s) in
  match s with
  | [] => stop
  | c :: s' =>
      if (c =? 95)%N then
        if after_underscore then None
        else scan_digits base s' true acc digits
      else
        match digit_value c with
        | Some d =>
            if d <? base
            then scan_digits base s' false (acc * base + d) (S digits)
            else stop
        | None => stop
        end
  end.

Definition int_max_str_digits : nat := 4300.

Definition int_literal (base0 : bool) (s : pystr) : pyresult Z :=
  let s := skip_space s in
  let '(negative, s) :=
    match s with
    | 43%N :: t => (false, t)
    | 45%N :: t => (true, t)
    | _ => (false, s)
    end in
  let skip_underscore t :=
    match t with 95%N :: t' => t' | _ => t end in
  let '(base, must_be_zero, s) :=
    match base0, s with
    | true, 48%N :: c :: t =>
        if ((c =? 120) || (c =? 88))%N then (16, false, skip_underscore t)
        else if ((c =? 111) || (c =? 79))%N then (8, false, skip_underscore t)
        else if ((c =? 98) || (c =? 66))%N then (2, false, skip_underscore t)
        else (10, true, s)
    | true, [48%N] => (10, true, s)
    | _, _ => (10, false, s)
    end in
  match s with
  | 95%N :: _ => PyExc ValueError
  | _ =>
      match scan_digits base s false 0 0 with
      | None => PyExc ValueError
      | Some (z, digits, rest) =>
          if Nat.eqb digits 0 then PyExc ValueError
          else if (base =? 10) && Nat.ltb int_max_str_digits digits
          then PyExc ValueError
          else if must_be_zero && negb (z =? 0) then PyExc ValueError
          else
            match skip_space rest with
            | [] => PyOk (if negative then - z else z)
            | _ => PyExc ValueError
            end
      end
  end.

(** [int(x)] of a [float], given by its bit pattern: the value cut off
    towards zero. *)
Definition int_of_double (fb : Z) : pyresult Z :=
  let exponent := Z.land (Z.shiftr fb 52) 0x7ff in
  let fraction := Z.land fb (2 ^ 52 - 1) in
  if exponent =? 0x7ff then
    PyExc (if fraction =? 0 then OverflowError else ValueError)
  else
    let magnitude :=
      if exponent =? 0 then 0
      else Z.shiftl (2 ^ 52 + fraction) (exponent - 1075) in
    PyOk (if Z.testbit fb 63 then - magnitude else magnitude).

(** Floating-point numbers, by their bit patterns.

    The IEEE-754 binary number nearest to [num / den] (both positive, or
    [num] zero), ties to even: its exponent field and fraction as one
    number, for a format of [p] significant bits and exponent bias [bias];
    a value too large for the format gives the pattern of infinity. *)
Definition round_binary (p bias num den : Z) : Z :=
  if num =? 0 then 0
  else
    let e0 := Z.log2 num - Z.log2 den in
    let e := if num * 2 ^ Z.max 0 (- e0) <? den * 2 ^ Z.max 0 e0
             then e0 - 1 else e0 in
    let e := Z.max e (1 - bias) in
    let q := e - (p - 1) in
    let n := num * 2 ^ Z.max 0 (- q) in
    let d := den * 2 ^ Z.max 0 q in
    let m := n / d in
    let r := n mod d in
    let m := if (d <? 2 * r) || ((2 * r =? d) && Z.odd m) then m + 1 else m in
    Z.min ((e + bias - 1) * 2 ^ (p - 1) + m) ((2 * bias + 1) * 2 ^ (p - 1)).

Definition double_infinity : Z := 0x7ff0000000000000.
Definition double_nan : Z := 0x7ff8000000000000.
Definition single_infinity : Z := 0x7f800000.

Definition signed_bits (width : Z) (negative : bool) (magnitude : Z) : Z :=
  if negative then 2 ^ (width - 1) + magnitude else magnitude.

(** [float(z)] of an [int]. *)
Definition double_of_int (z : Z) : pyresult Z :=
  let magnitude := round_binary 53 1023 (Z.abs z) 1 in
  if magnitude =? double_infinity then PyExc OverflowError
  else PyOk (signed_bits 64 (z <? 0) magnitude).

(** The value of a finite binary number, as a fraction. *)
Definition binary_value (p bias bits : Z) : Z * Z :=
  let exponent := Z.shiftr bits (p - 1) in
  let fraction := Z.land bits (2 ^ (p - 1) - 1) in
  let mantissa := if exponent =? 0 then fraction else 2 ^ (p - 1) + fraction in
  let e := Z.max exponent 1 - bias - (p - 1) in
  (mantissa * 2 ^ Z.max 0 e, 2 ^ Z.max 0 (- e)).

Fixpoint strip_right (s : pystr) : pystr :=
  match s with
  | [] => []
  | c :: s' =>
      match strip_right s' with
      | [] => if is_space c then [] else [c]
      | r => c :: r
      end
  end.

Definition is_digit (c : N) : bool := ((48 <=? c) && (c <=? 57))%N.

(** The underscores of a numeric literal may only stand between two
    digits; they are dropped. *)
Fixpoint drop_underscores (prev : N) (s : pystr) : option pystr :=
  match s with
  | [] => if (prev =? 95)%N then None else Some []
  | c :: s' =>
      if (c =? 95)%N then
        if is_digit prev then drop_underscores c s' else None
      else if (prev =? 95)%N && negb (is_digit c) then None
      else option_map (cons c) (drop_underscores c s')
  end.

(** The decimal digits at the start of [s]: their value, their number and
    the rest. *)
Fixpoint decimal_digits (s : pystr) (acc : Z) (n : Z) : Z * Z * pystr :=
  match s with
  | c :: s' =>
      if is_digit c then decimal_digits s' (acc * 10 + (Z.of_N c - 48)) (n + 1)
      else (acc, n, s)
  | [] => (acc, n, [])
  end.

Definition to_lower (c : N) : N :=
  if ((65 <=? c) && (c <=? 90))%N then (c + 32)%N else c.

Definition split_sign (s : pystr) : bool * pystr :=
  match s with
  | 43%N :: t => (false, t)
  | 45%N :: t => (true, t)
  | _ => (false, s)
  end.

(** [float(s)] on ASCII text. *)
Definition float_literal (s : pystr) : pyresult Z :=
  match drop_underscores 0 (strip_right (skip_space s)) with
  | None => PyExc ValueError
  | Some s =>
      let '(negative, s) := split_sign s in
      let name := map to_lower s in
      if pystr_eqb name (pystr_of_string "inf")
         || pystr_eqb name (pystr_of_string "infinity")
      then PyOk (signed_bits 64 negative double_infinity)
      else if pystr_eqb name (pystr_of_string "nan")
      then PyOk (signed_bits 64 negative double_nan)
      else
        let '(int_part, int_digits, s) := decimal_digits s 0 0 in
        let '(mantissa, frac_digits, s) :=
          match s with
          | 46%N :: t => decimal_digits t int_part 0
          | _ => (int_part, 0, s)
          end in
        if int_digits + frac_digits =? 0 then PyExc ValueError
        else
          let exponent :=
            match s with
            | c :: t =>
                if ((c =? 101) || (c =? 69))%N then
                  let '(exp_negative, t) := split_sign t in
                  let '(e, exp_digits, rest) := decimal_digits t 0 0 in
                  match rest with
                  | [] => if exp_digits =? 0 then None
                          else Some (if exp_negative then - e else e)
                  | _ => None
                  end
                else None
            | [] => Some 0
            end in
          match exponent with
          | None => PyExc ValueError
          | Some e =>
              let x := e - frac_digits in
              PyOk (signed_bits 64 negative
                      (round_binary 53 1023 (mantissa * 10 ^ Z.max 0 x)
                                    (10 ^ Z.max 0 (- x))))
          end
  end.

(** [float(x)]. *)
Definition py_float (v : pyval) : pyresult Z :=
  match v with
  | VFloat fb => PyOk fb
  | VInt z => double_of_int z
  | VBool b => double_of_int (if b then 1 else 0)
  | VStr s => float_literal s
  | VBytes b => float_literal (map Z.to_N b)
  | _ => PyExc TypeError
  end.

(** [struct.pack] of an [int] with the format [f] or [d], little-endian:
    the number is converted to a [float] first; one that is too large is a
    [struct.error]. *)
Definition pack_float (c : fcode) (val : Z) : pyresult (list Z) :=
  let double := round_binary 53 1023 (Z.abs val) 1 in
  if double =? double_infinity then PyExc StructError
  else
    match c with
    | Cd => PyOk (le_bytes 8 (signed_bits 64 (val <? 0) double))
    | Cf =>
        let '(num, den) := binary_value 53 1023 double in
        let single := round_binary 24 127 num den in
        if single =? single_infinity then PyExc StructError
        else PyOk (le_bytes 4 (signed_bits 32 (val <? 0) single))
    | _ => PyExc StructError
    end.

(** [struct.unpack] of the format [f] or [d], little-endian: the bit
    pattern of the [float]. *)
Definition unpack_float (c : fcode) (chunk : list Z) : Z :=
  match c with
  | Cf =>
      let bits := le_value chunk in
      let magnitude := Z.land bits (2 ^ 31 - 1) in
      signed_bits 64 (Z.testbit bits 31)
        (if magnitude <? single_infinity then
           let '(num, den) := binary_value 24 127 magnitude in
           round_binary 53 1023 num den
         else if magnitude =? single_infinity then double_infinity
         else Z.lor double_nan
                    (Z.shiftl (Z.land magnitude (2 ^ 23 - 1)) 29))
  | _ => le_value chunk
  end.

(** [json.load] on an ASCII document, as [get_filetype] calls it.  The
    decoder of the standard library: white space is blank, tab, line feed
    and carriage return; a number without fraction and exponent is an
    [int], any other a [float]; the names [NaN], [Infinity] and
    [-Infinity] are accepted; a control character in a string is an
    error; in an object the last value of a repeated name counts.

    Every array and object is one level of recursion.  In CPython 3.11,
    with the recursion limit of 1000 and [get_filetype] called by
    [restore] from the top level of the script, there is room for 992 of
    them; one more is a [RecursionError].  An error that the decoder
    reports from inside (all but a missing value and a number that is too
    long) is a [JSONDecodeError] whose construction takes three more
    levels, and is a [RecursionError] as well when they are not left. *)
Definition json_max_depth : nat := 992.

Definition json_error (depth : nat) : exn :=
  if Nat.ltb json_max_depth (depth + 3) then RecursionError else ValueError.

Definition is_json_space (c : N) : bool :=
  ((c =? 32) || (c =? 9) || (c =? 10) || (c =? 13))%N.

Fixpoint skip_json_space (s : pystr) : pystr :=
  match s with
  | c :: s' => if is_json_space c then skip_json_space s' else s
  | [] => []
  end.

(** [s] without the prefix [p], when it starts with it. *)
Fixpoint after_prefix (p s : pystr) : option pystr :=
  match p, s with
  | [], _ => Some s
  | a :: p', b :: s' => if (a =? b)%N then after_prefix p' s' else None
  | _ :: _, [] => None
  end.

(** The four hexadecimal digits of a [\u] escape. *)
Definition json_hex4 (s : pystr) : option (N * pystr) :=
  match s with
  | a :: b :: c :: d :: s' =>
      match digit_value a, digit_value b, digit_value c, digit_value d with
      | Some x, Some y, Some z, Some w =>
          if (x <? 16) && (y <? 16) && (z <? 16) && (w <? 16)
          then Some (Z.to_N (((x * 16 + y) * 16 + z) * 16 + w), s')
          else None
      | _, _, _, _ => None
      end
  | _ => None
  end.

(** The rest of a string literal after the opening quote: its characters
    and what follows the closing quote. *)
Fixpoint json_string (fuel : nat) (s : pystr) (acc : pystr)
  : option (pystr * pystr) :=
  match fuel with
  | O => None
  | S fuel' =>
      match s with
      | [] => None
      | 34%N :: s' => Some (rev acc, s')
      | 92%N :: e :: s' =>
          if (e =? 117)%N then
            match json_hex4 s' with
            | None => None
            | Some (c, s1) =>
                let joined :=
                  if ((0xD800 <=? c) && (c <=? 0xDBFF))%N then
                    match s1 with
                    | 92%N :: 117%N :: s2 =>
                        match json_hex4 s2 with
                        | Some (c2, s3) =>
                            if ((0xDC00 <=? c2) && (c2 <=? 0xDFFF))%N
                            then Some (Some (0x10000 + (c - 0xD800) * 0x400
                                             + (c2 - 0xDC00), s3))%N
                            else Some None
                        | None => None
                        end
                    | _ => Some None
                    end
                  else Some None in
                match joined with
                | None => None
                | Some (Some (c', s3)) => json_string fuel' s3 (c' :: acc)
                | Some None => json_string fuel' s1 (c :: acc)
                end
            end
          else
            let plain c := json_string fuel' s' (c :: acc) in
            if ((e =? 34) || (e =? 92) || (e =? 47))%N then plain e
            else if (e =? 98)%N then plain 8%N
            else if (e =? 102)%N then plain 12%N
            else if (e =? 110)%N then plain 10%N
            else if (e =? 114)%N then plain 13%N
            else if (e =? 116)%N then plain 9%N
            else None
      | 92%N :: [] => None
      | c :: s' =>
          if (c <? 32)%N then None else json_string fuel' s' (c :: acc)
      end
  end.

(** The digits at the start of [s] and the rest. *)
Fixpoint span_digits (s : pystr) : pystr * pystr :=
  match s with
  | c :: s' =>
      if is_digit c
      then let '(d, r) := span_digits s' in (c :: d, r)
      else ([], s)
  | [] => ([], [])
  end.

(** A number at the start of [s]: its text, whether it is a [float], and
    the rest. *)
Definition json_number (s : pystr) : option (pystr * bool * pystr) :=
  let '(sign, s) :=
    match s with
    | 45%N :: t => ([45%N], t)
    | _ => ([], s)
    end in
  let integer :=
    match s with
    | 48%N :: t => Some ([48%N], t)
    | c :: _ => if is_digit c then Some (span_digits s) else None
    | [] => None
    end in
  match integer with
  | None => None
  | Some (digits, s) =>
      let '(fraction, s) :=
        match s with
        | 46%N :: c :: t =>
            if is_digit c
            then let '(d, r) := span_digits (c :: t) in (46%N :: d, r)
            else ([], s)
        | _ => ([], s)
        end in
      let '(exponent, s) :=
        match s with
        | e :: t =>
            if ((e =? 101) || (e =? 69))%N then
              let '(esign, t') :=
                match t with
                | c :: u => if ((c =? 43) || (c =? 45))%N then ([c], u)
                            else ([], t)
                | [] => ([], t)
                end in
              match span_digits t' with
              | ([], _) => ([], s)
              | (d, r) => (e :: esign ++ d, r)
              end
            else ([], s)
        | [] => ([], s)
        end in
      Some (sign ++ digits ++ fraction ++ exponent,
            negb (Nat.eqb (List.length fraction + List.length exponent) 0), s)
  end.

(** A code point as UTF-8, for the names of an object. *)
Definition utf8_char (c : N) : list ascii :=
  let byte n := ascii_of_N n in
  let cont n := byte (128 + N.land n 63)%N in
  if (c <? 0x80)%N then [byte c]
  else if (c <? 0x800)%N then [byte (192 + N.shiftr c 6)%N; cont c]
  else if (c <? 0x10000)%N
  then [byte (224 + N.shiftr c 12)%N; cont (N.shiftr c 6); cont c]
  else [byte (240 + N.shiftr c 18)%N; cont (N.shiftr c 12);
        cont (N.shiftr c 6); cont c].

Definition json_name (s : pystr) : string :=
  string_of_list_ascii (flat_map utf8_char s).

(** [d[name] = value] on a [dict]. *)
Fixpoint dict_set (d : list (string * pyval)) (name : string) (value : pyval)
  : list (string * pyval) :=
  match d with
  | [] => [(name, value)]
  | (k, v) :: d' =>
      if String.eqb k name then (k, value) :: d'
      else (k, v) :: dict_set d' name value
  end.

Definition json_names : list (string * pyval) :=
  [ ("null"%string, VNone); ("true"%string, VBool true);
    ("false"%string, VBool false); ("NaN"%string, VFloat double_nan);
    ("Infinity"%string, VFloat double_infinity);
    ("-Infinity"%string, VFloat (signed_bits 64 true double_infinity)) ].

Fixpoint json_named (names : list (string * pyval)) (s : pystr)
  : option (pyval * pystr) :=
  match names with
  | [] => None
  | (name, v) :: names' =>
      match after_prefix (pystr_of_string name) s with
      | Some rest => Some (v, rest)
      | None => json_named names' s
      end
  end.

(** One value at the start of [s], inside [depth] arrays and objects, and
    what follows it. *)
Fixpoint json_value (fuel depth : nat) (s : pystr) : pyresult (pyval * pystr) :=
  match fuel with
  | O => PyExc RecursionError
  | S fuel' =>
      match s with
      | 34%N :: t =>
          match json_string (S (List.length t)) t [] with
          | Some (str, rest) => PyOk (VStr str, rest)
          | None => PyExc (json_error depth)
          end
      | 123%N :: t =>
          if Nat.ltb json_max_depth (S depth) then PyExc RecursionError
          else
            match skip_json_space t with
            | 125%N :: rest => PyOk (VDict [], rest)
            | t' => json_members fuel' (S depth) t' []
            end
      | 91%N :: t =>
          if Nat.ltb json_max_depth (S depth) then PyExc RecursionError
          else
            match skip_json_space t with
            | 93%N :: rest => PyOk (VList [], rest)
            | t' => json_elements fuel' (S depth) t' []
            end
      | _ =>
          match json_named json_names s with
          | Some r => PyOk r
          | None =>
              match json_number s with
              | None => PyExc ValueError
              | Some (text, is_float, rest) =>
                  if is_float then
                    match float_literal text with
                    | PyOk fb => PyOk (VFloat fb, rest)
                    | PyExc e => PyExc e
                    end
                  else
                    match int_literal false text with
                    | PyOk z => PyOk (VInt z, rest)
                    | PyExc e => PyExc e
                    end
              end
          end
      end
  end

with json_elements (fuel depth : nat) (s : pystr) (acc : list pyval)
  : pyresult (pyval * pystr) :=
  match fuel with
  | O => PyExc RecursionError
  | S fuel' =>
      match json_value fuel' depth s with
      | PyExc e => PyExc e
      | PyOk (v, rest) =>
          match skip_json_space rest with
          | 93%N :: rest' => PyOk (VList (rev (v :: acc)), rest')
          | 44%N :: rest' =>
              json_elements fuel' depth (skip_json_space rest') (v :: acc)
          | _ => PyExc (json_error depth)
          end
      end
  end

with json_members (fuel depth : nat) (s : pystr) (acc : list (string * pyval))
  : pyresult (pyval * pystr) :=
  match fuel with
  | O => PyExc RecursionError
  | S fuel' =>
      match s with
      | 34%N :: t =>
          match json_string (S (List.length t)) t [] with
          | None => PyExc (json_error depth)
          | Some (name, rest) =>
              match skip_json_space rest with
              | 58%N :: rest' =>
                  match json_value fuel' depth (skip_json_space rest') with
                  | PyExc e => PyExc e
                  | PyOk (v, rest'') =>
                      let acc := dict_set acc (json_name name) v in
                      match skip_json_space rest'' with
                      | 125%N :: r => PyOk (VDict acc, r)
                      | 44%N :: r =>
                          json_members fuel' depth (skip_json_space r) acc
                      | _ => PyExc (json_error depth)
                      end
                  end
              | _ => PyExc (json_error depth)
              end
          end
      | _ => PyExc (json_error depth)
      end
  end.

Definition json_load (content : list Z) : pyresult pyval :=
  if existsb (fun b => (b <? 0) || (127 <? b)) content then PyExc ValueError
  else
    let s := map Z.to_N content in
    match json_value (2 * List.length s + 2) 0 (skip_json_space s) with
    | PyExc e => PyExc e
    | PyOk (v, rest) =>
        match skip_json_space rest with
        | [] => PyOk v
        | _ => PyExc ValueError
        end
    end.

(** A stand-in for the interpreter on ASCII data: text is coded one byte
    a character, and a byte above 127 in a document is taken for one that
    cannot be decoded ([UnicodeDecodeError], a [ValueError]). *)
Definition ascii_runtime : runtime :=
  {| rt_encode := map Z.of_N;
     rt_decode := map Z.to_N;
     rt_isprintable := fun c => (32 <=? c)%N && (c <? 127)%N;
     rt_title := ascii_title;
     rt_int_of_str := int_literal true;
     rt_int_of_float := int_of_double;
     rt_int_of_bytes := fun b => int_literal false (map Z.to_N b);
     rt_float := py_float;
     rt_pack_float := pack_float;
     rt_unpack_float := unpack_float;
     rt_native_long := 8;
     rt_json_load := json_load |}.

Definition strict : args := mkargs false false false None.
Definition lenient : args := mkargs true false false None.

Definition world0 : world := mkworld 0 [].

(** A decoded image of [size] zero bytes with the version, the declared
    size and the platform index ([config_version]) filled in. *)
Definition sample_image (size version cfgsize platform : Z) : list Z :=
  let img := zeros (Z.to_nat size) in
  let img := buf_write img 0x008 (le_bytes 4 version) in
  let img := buf_write img 0x002 (le_bytes 2 cfgsize) in
  buf_write img 0xF36 [platform].

(** A text file that is not JSON and whose size is no table size. *)
Definition text_file : fileprobe :=
  mkprobe (Some [0x61; 0x62; 0x63; 0x0a]) (Some 4).

(** A 4096-byte image that stores the MQTT password "secret". *)
Definition image_with_password : list Z :=
  buf_write (zeros 0x1000) 0x24E (map Z.of_N (pystr_of_string "secret")).

(** Decoded images of version 8.2.0.4 (table size 0x1000): a regular one,
    one that declares a size of 0x1001 bytes, one that declares 0x0fff
    bytes and one whose platform index is 2. *)
Definition image_regular : list Z := sample_image 0x1000 0x8020004 0x1000 0.
Definition image_declared_larger : list Z :=
  sample_image 0x1000 0x8020004 0x1001 0.
Definition image_declared_smaller : list Z :=
  sample_image 0x1000 0x8020004 0x0fff 0.
Definition image_platform_2 : list Z := sample_image 0x1000 0x8020004 0x1000 2.

(** A 4096-byte image of an 8.x layout whose text blob stores the MQTT
    password "secret" in slot [SET_MQTT_PWD] (all other slots empty). *)
Definition image_with_text_password : list Z :=
  buf_write (zeros 0x1000) (0x017 + 15) (map Z.of_N (pystr_of_string "secret")).

(** Whether a run ended by returning. *)
Definition returns {A} (r : outcome A * world) : bool :=
  match fst r with Ret _ => true | _ => false end.

(** A registry in descending order of version. *)
Definition descending (l : settings) : Prop :=
  StronglySorted (fun a b => cfg_version b <= cfg_version a) l.

(** [m] can only end in [sys.exit] with a status that satisfies [P]. *)
Definition exits_only {A} (P : Z -> Prop) (m : M A) : Prop :=
  forall w s w', m w = (SysExit s, w') -> P s.

(** A decoded image of version 8.2.0.1, which has no table of its own. *)
Definition image_8_2_0_1 : list Z := sample_image 0x1000 0x8020001 0x1000 0.

(** Restoring the values [elems] one after the other into the array
    elements [i], [i + 1], ... of a field whose elements are described by
    [subfielddef] and take [length] bytes each ([indexed] for the slots of a
    text blob, which are addressed by their index). *)
Fixpoint restore_elements (ARGS : args) (rt : runtime) (depth : nat)
    (platform_bits : Z) (fieldname : string) (subfielddef : fielddef)
    (indexed : bool) (addroffset length : Z) (elems : list pyval) (i : Z)
    (dobj : list Z) : M (list Z) :=
  match elems with
  | [] => ret dobj
  | e :: elems' =>
      dobj' <- set_field ARGS rt depth dobj platform_bits fieldname subfielddef
                 e (if indexed then i else addroffset + i * length) ;;
      restore_elements ARGS rt depth platform_bits fieldname subfielddef
                       indexed addroffset length elems' (i + 1) dobj'
  end.

Definition is_some {A} (o : option A) : bool :=
  match o with Some _ => true | None => false end.

(** Restore lists for [my_gp] (capacity 18): three values and nineteen. *)
Definition values_3 : list pyval := map VInt [1; 2; 3].
Definition values_19 : list pyval := map VInt (range0 19).

(** One element of [my_gp]. *)
Definition my_gp_element : fielddef :=
  FieldDef Platform.ALL (FStruct fmt_B) 0x484 0 0 None [] None
           (Some "Management"%string) NoConverter.

(** The content of the word a field of format [fmt] occupies at [addr],
    as an unsigned integer. *)
Definition raw_word (rt : runtime) (fmt : sformat) (dobj : list Z) (addr : Z)
  : Z :=
  le_value (ordered (f_order fmt) (buf_read dobj addr (calcsize rt fmt))).

(** How [struct] reads the unsigned content [v] of a [w]-bit word of
    format character [c]. *)
Definition signed_view (c : fcode) (w v : Z) : Z :=
  if is_signed c && (2 ^ (w - 1) <=? v) then v - 2 ^ w else v.

(** A 32-byte image whose flag word at 0x010 has [button_restrict] (bit 1)
    set, and one whose flag word is clear. *)
Definition image_flags : list Z := buf_write (zeros 0x20) 0x010 [2; 0; 0; 0].
Definition image_flags_clear : list Z := zeros 0x20.

(** A binary backup: the marker [BINARYFILE_MAGIC] followed by a 4096-byte
    image. *)
Definition bin_file : fileprobe :=
  mkprobe (Some (le_bytes 4 BINARYFILE_MAGIC ++ zeros 0x1000)) (Some 0x1004).

(** Command-line switches with [--group Wifi]. *)
Definition only_wifi : args := mkargs false false false (Some ["Wifi"]).

(** Every value [m] can return satisfies [P]. *)
Definition yields {A} (P : A -> Prop) (m : M A) : Prop :=
  forall w a w', m w = (Ret a, w') -> P a.

(** [cfg_crc] of the 6.x tables. *)
Definition cfg_crc_field : fielddef :=
  field fmt_H 0x00E None "System" (Conv1 (CvEval (format_hex 4))).

(** The values a [w]-bit word of format character [c] can hold. *)
Definition in_code_range (c : fcode) (w v : Z) : Prop :=
  if is_signed c then - 2 ^ (w - 1) <= v < 2 ^ (w - 1) else 0 <= v < 2 ^ w.

(** The value [set_fieldvalue] hands to [struct.pack_into] for one item of
    [bitsize] bits of the integer [value]. *)
Definition item_value (bitsize value : Z) : Z :=
  let maxunsigned := 2 ^ bitsize - 1 in
  let maxsigned := Z.shiftr (2 ^ bitsize) 1 - 1 in
  let val := Z.land value maxunsigned in
  if (value <? 0) && (val >? maxsigned)
  then ((maxunsigned + 1) - val) * (-1) else val.

(** [adc_param3] of [SETTING_6_5_0_12]: a signed 32-bit word. *)
Definition adc_param3 : fielddef :=
  field (mkfmt LittleEndian None Cl) 0x79C None "Sensor" NoConverter.

(** [hostname] of [SETTING_5_10_0]: a text of at most 32 bytes. *)
Definition hostname : fielddef :=
  field (fmt_s 33) 0x165 None "Wifi" NoConverter.

(** A text without NUL characters. *)
Definition no_nul (s : pystr) : bool := forallb (fun c => negb (N.eqb c 0)) s.

(** The text [get_fieldvalue] makes of the [n] bytes of a string field:
    the part before the first NUL, without unprintable characters. *)
Definition stored_text (rt : runtime) (n : Z) (data : list Z) : pystr :=
  firstn (Z.to_nat n)
    (List.filter (rt_isprintable rt)
       (rstrip_nul (hd [] (split_nul (Some (Z.to_nat SET_MAX))
                                     (rt_decode rt data))))).

(** Command-line switches with [--json-hide-pw]. *)
Definition hide_pw : args := mkargs false true false None.

(** The statuses [set_field] can call [sys.exit] with. *)
Definition restore_status (ARGS : args) (s : Z) : Prop :=
  s = ExitCode.INTERNAL_ERROR
  \/ (s = ExitCode.RESTORE_DATA_ERROR /\ ignorewarning ARGS = false).

(** The statuses [bin2mapping] can call [sys.exit] with. *)
Definition decode_status (ARGS : args) (s : Z) : Prop :=
  s = ExitCode.INTERNAL_ERROR \/ s = ExitCode.INVALID_DATA
  \/ s = ExitCode.UNSUPPORTED_VERSION \/ s = ExitCode.DATA_SIZE_MISMATCH
  \/ (s = ExitCode.DATA_CRC_ERROR /\ ignorewarning ARGS = false).

(** What [get_config_info] finds for [image_regular]: the 8.2.0.4 table
    (here its structural fields); and a restore file that sets nothing. *)
Definition info_8_2_0_4 : config_info :=
  mkinfo 0 0x8020004 0x8020004 (Some 0x1000)
         (Some (structural_fields 0x8020004)).

Definition restore_nothing : pyval := VDict [("header", VDict [])].

(** A 16-byte image of version 5.10.0, too short for its table, and two
    complete images of that version that differ in the checksum bytes. *)
Definition image_5_10_short : list Z :=
  buf_write (zeros 16) 0x008 (le_bytes 4 0x50a0000).

Definition image_5_10 : list Z :=
  buf_write (zeros 0x670) 0x008 (le_bytes 4 0x50a0000).

Definition image_5_10_crc : list Z := buf_write image_5_10 14 [0x12; 0x34].

(** [m] prints nothing and leaves [EXIT_CODE] alone when it returns. *)
Definition silent {A} (m : M A) : Prop :=
  forall w a w', m w = (Ret a, w') -> w' = w.

(** [flag] of [SETTING_5_10_0], cut down to its first two members. *)
Definition flag : fielddef :=
  FieldDef Platform.ALL
           (FDict [("save_state", save_state);
                   ("button_restrict", button_restrict)])
           0x010 0 0 None [] None (Some VIRTUAL) (Conv2 CvNone CvNone).



(** A well-formed buffer element. *)
Definition is_byte (b : Z) : Prop := 0 <= b < 256.

(* ================================================================== *)
(** * Properties *)

(** ** Integrity layer: the XOR stream *)

Lemma land_255_byte (b : Z) : is_byte b -> Z.land b 0xff = b.
Proof.
  intros Hb. change 0xff with (Z.ones 8).
  rewrite Z.land_ones by lia. apply Z.mod_small. exact Hb.
Qed.

Lemma xor_byte_mask (b k : Z) :
  is_byte b -> Z.land (Z.lxor b k) 0xff = Z.lxor b (k mod 256).
Proof.
  intros Hb. rewrite <- (land_255_byte b Hb).
  change 256 with (2 ^ 8). rewrite <- (Z.land_ones k 8) by lia.
  change 0xff with (Z.ones 8).
  apply Z.bits_inj'. intros n Hn.
  rewrite !Z.land_spec, !Z.lxor_spec, !Z.land_spec.
  destruct (Z.testbit b n), (Z.testbit k n), (Z.testbit (Z.ones 8) n);
    reflexivity.
Qed.

Lemma xor_byte_is_byte (b k : Z) : is_byte (Z.land (Z.lxor b k) 0xff).
Proof.
  unfold is_byte. change 0xff with (Z.ones 8). rewrite Z.land_ones by lia.
  apply Z.mod_pos_bound. lia.
Qed.

Lemma xor_byte_twice (b k : Z) :
  is_byte b -> Z.land (Z.lxor (Z.land (Z.lxor b k) 0xff) k) 0xff = b.
Proof.
  intros Hb.
  rewrite (xor_byte_mask _ k (xor_byte_is_byte b k)), (xor_byte_mask b k Hb).
  rewrite Z.lxor_assoc, Z.lxor_nilpotent, Z.lxor_0_r. reflexivity.
Qed.

Lemma xor_from_twice (obj : list Z) :
  Forall is_byte obj -> forall i, xor_from i (xor_from i obj) = obj.
Proof.
  induction 1 as [|b obj Hb _ IH]; intros i; simpl.
  - reflexivity.
  - rewrite xor_byte_twice by assumption. f_equal. apply IH.
Qed.

Lemma xor_from_length (obj : list Z) :
  forall i, List.length (xor_from i obj) = List.length obj.
Proof. induction obj as [|b obj IH]; intros i; simpl; auto. Qed.

Lemma xor_from_nth (obj : list Z) :
  forall (i : Z) (n : nat), (n < List.length obj)%nat ->
    nth n (xor_from i obj) 0
    = Z.land (Z.lxor (nth n obj 0) (CONFIG_FILE_XOR + (i + Z.of_nat n))) 0xff.
Proof.
  induction obj as [|b obj IH]; intros i n Hn; simpl in Hn.
  - lia.
  - destruct n as [|n]; cbn [xor_from nth].
    + rewrite Z.add_0_r. reflexivity.
    + rewrite IH by lia. do 3 f_equal. lia.
Qed.

(** C3. [decrypt_encrypt] is its own inverse on byte sequences of length
    at least 2; it keeps the first two bytes and replaces the byte at every
    index [i >= 2] by [b[i] XOR ((0x5A + i) mod 256)]. *)
Theorem decrypt_encrypt_self_inverse (b : list Z) :
  Forall is_byte b ->
  (2 <= List.length b)%nat ->
  decrypt_encrypt (decrypt_encrypt b) = b
  /\ firstn 2 (decrypt_encrypt b) = firstn 2 b
  /\ forall i : nat, (2 <= i < List.length b)%nat ->
       nth i (decrypt_encrypt b) 0
       = Z.lxor (nth i b 0) ((0x5A + Z.of_nat i) mod 256).
Proof.
  intros Hb Hlen.
  destruct b as [|b0 [|b1 rest]]; simpl in Hlen; try lia.
  assert (Hrest : Forall is_byte rest).
  { inversion Hb as [|? ? _ Hb']; inversion Hb'; assumption. }
  unfold decrypt_encrypt; simpl firstn; simpl skipn. simpl app.
  repeat split.
  - simpl. rewrite xor_from_twice by assumption. reflexivity.
  - intros i [Hi Hi']. simpl in Hi'.
    destruct i as [|[|n]]; try lia. simpl nth.
    rewrite xor_from_nth by lia.
    rewrite xor_byte_mask.
    + do 2 f_equal. unfold CONFIG_FILE_XOR. lia.
    + rewrite Forall_forall in Hrest. apply Hrest. apply nth_In. lia.
Qed.

Lemma decrypt_encrypt_self_inverse_witness :
  decrypt_encrypt (decrypt_encrypt [0x12; 0x34; 0x56; 0x78; 0xff]) = [0x12; 0x34; 0x56; 0x78; 0xff]
  /\ decrypt_encrypt [0x12; 0x34; 0x56; 0x78; 0xff] = [0x12; 0x34; 0x0a; 0x25; 0xa1].
Proof.
  split.
  - apply (decrypt_encrypt_self_inverse [0x12; 0x34; 0x56; 0x78; 0xff]).
    + repeat constructor; unfold is_byte; lia.
    + simpl; lia.
  - reflexivity.
Defined.

(** ** Validation *)

(** C8. [validate_value] returns [True] for a value equal to 0, whatever
    the validator of the field definition says about 0. *)
Theorem validate_value_zero (value : pyval) (fd : fielddef) :
  py_eq_int value 0 = true ->
  validate_value value fd = VBool true.
Proof.
  intros Hzero. unfold validate_value. rewrite Hzero. reflexivity.
Qed.

(** The validator ['1 <= $ <= 20'] of [light_speed] rejects 0, and
    [validate_value] accepts it all the same. *)
Lemma validate_value_zero_witness :
  (forall p, validate light_speed = Some (ValEval p) ->
             p (VInt 0) = PyOk (VBool false))
  /\ validate_value (VInt 0) light_speed = VBool true.
Proof.
  split.
  - intros p Hp. injection Hp as <-. reflexivity.
  - apply (validate_value_zero (VInt 0) light_speed). reflexivity.
Defined.

(** C10. When the validator raises on a nonzero value, [validate_value]
    returns [False]; the exception does not reach the caller. *)
Theorem validate_value_raising (value : pyval) (fd : fielddef)
    (p : pyval -> pyresult pyval) (e : exn) :
  py_eq_int value 0 = false ->
  validate fd = Some (ValEval p) \/ validate fd = Some (ValCall p) ->
  p value = PyExc e ->
  validate_value value fd = VBool false.
Proof.
  intros Hnz Hval Hraise. unfold validate_value. rewrite Hnz.
  destruct Hval as [-> | ->]; rewrite Hraise; reflexivity.
Qed.

Lemma validate_value_raising_witness :
  validate_value (VStr (pystr_of_string "fast")) light_speed = VBool false.
Proof.
  apply (validate_value_raising _ light_speed
           (fun v => z <~ as_int v ;; PyOk (VBool ((1 <=? z) && (z <=? 20))))
           TypeError).
  - reflexivity.
  - left. reflexivity.
  - reflexivity.
Defined.

(** ** File classifier *)

Lemma existsb_eqb_templatesizes (SETTINGS : settings) (size : Z) :
  ~ In size (map cfg_size SETTINGS) ->
  existsb (Z.eqb size) (get_templatesizes SETTINGS) = false.
Proof.
  intros Hnot. destruct (existsb _ _) eqn:E; [|reflexivity].
  apply existsb_exists in E. destruct E as [x [Hin Heq]].
  apply Z.eqb_eq in Heq. subst x.
  unfold get_templatesizes in Hin. apply nodup_In in Hin. contradiction.
Qed.

(** C2, as the code has it.  For a file that opens, on which [json.load]
    fails and whose size matches no table size, neither exactly nor less
    the 4-byte marker: when [json.load] raised [ValueError] (the error of
    the JSON decoder and of the text decoding) the file is classified
    [INVALID_JSON]; when it raised anything else (a [RecursionError] for
    deeply nested brackets, say) the outer handler makes it
    [FILE_NOT_FOUND].  It is never [DMP] and never [UNKNOWN]. *)
Theorem get_filetype_unmatched_size (rt : runtime) (SETTINGS : settings)
    (file : fileprobe) (content : list Z) (size : Z) (e : exn) :
  fp_content file = Some content ->
  rt_json_load rt content = PyExc e ->
  fp_getsize file = Some size ->
  ~ In size (map cfg_size SETTINGS) ->
  ~ In (size - 4) (map cfg_size SETTINGS) ->
  get_filetype rt SETTINGS file
  = match e with
    | ValueError => INVALID_JSON
    | _ => FILE_NOT_FOUND
    end
  /\ get_filetype rt SETTINGS file <> DMP
  /\ get_filetype rt SETTINGS file <> UNKNOWN.
Proof.
  intros Hopen Hjson Hsize Hexact Hmarker.
  assert (H : get_filetype rt SETTINGS file
              = match e with
                | ValueError => INVALID_JSON
                | _ => FILE_NOT_FOUND
                end).
  { unfold get_filetype. rewrite Hopen, Hjson.
    destruct e; try reflexivity.
    rewrite Hsize.
    rewrite (existsb_eqb_templatesizes SETTINGS size Hexact).
    change (calcsize rt (mkfmt LittleEndian None CL)) with 4.
    rewrite (existsb_eqb_templatesizes SETTINGS (size - 4) Hmarker).
    reflexivity. }
  split; [exact H|]. rewrite H. split; destruct e; discriminate.
Qed.

Lemma not_in_sizes (size : Z) :
  existsb (Z.eqb size) (map cfg_size SETTINGS_structural) = false ->
  ~ In size (map cfg_size SETTINGS_structural).
Proof.
  intros E Hin.
  assert (existsb (Z.eqb size) (map cfg_size SETTINGS_structural) = true).
  { apply existsb_exists. exists size. split; [exact Hin | apply Z.eqb_refl]. }
  congruence.
Qed.

Lemma get_filetype_unmatched_size_witness :
  get_filetype ascii_runtime SETTINGS_structural text_file
  = match ValueError with
    | ValueError => INVALID_JSON
    | _ => FILE_NOT_FOUND
    end
  /\ get_filetype ascii_runtime SETTINGS_structural text_file <> DMP
  /\ get_filetype ascii_runtime SETTINGS_structural text_file <> UNKNOWN.
Proof.
  apply (get_filetype_unmatched_size ascii_runtime SETTINGS_structural
           text_file [0x61; 0x62; 0x63; 0x0a] 4 ValueError).
  - reflexivity.
  - reflexivity.
  - reflexivity.
  - apply not_in_sizes. vm_compute. reflexivity.
  - apply not_in_sizes. vm_compute. reflexivity.
Defined.

(** C2 as stated fails: the text file "abc\n" is not valid JSON, its size 4
    is no table size (nor is 0), yet it is not classified [UNKNOWN]. *)
Lemma get_filetype_not_unknown :
  fp_content text_file = Some [0x61; 0x62; 0x63; 0x0a]
  /\ rt_json_load ascii_runtime [0x61; 0x62; 0x63; 0x0a] = PyExc ValueError
  /\ fp_getsize text_file = Some 4
  /\ ~ In 4 (map cfg_size SETTINGS_structural)
  /\ ~ In (4 - 4) (map cfg_size SETTINGS_structural)
  /\ get_filetype ascii_runtime SETTINGS_structural text_file <> UNKNOWN.
Proof.
  repeat split; try reflexivity.
  - apply not_in_sizes. vm_compute. reflexivity.
  - apply not_in_sizes. vm_compute. reflexivity.
  - vm_compute. discriminate.
Qed.

(** ** Mapping engine: the declared size *)

(** C1, the code at the failing input. An image of the 8.2.0.4 layout that
    declares 0x1001 bytes where the table has 0x1000 makes [bin2mapping]
    exit with [DATA_SIZE_MISMATCH], with and without [ignorewarning], just
    like one that declares 0x0fff bytes; the image that declares 0x1000
    bytes is decoded. *)
Theorem bin2mapping_larger_size_exits :
  fst (bin2mapping strict ascii_runtime SETTINGS_structural
         image_declared_larger world0) = SysExit ExitCode.DATA_SIZE_MISMATCH
  /\ fst (bin2mapping lenient ascii_runtime SETTINGS_structural
            image_declared_larger world0) = SysExit ExitCode.DATA_SIZE_MISMATCH
  /\ fst (bin2mapping lenient ascii_runtime SETTINGS_structural
            image_declared_smaller world0) = SysExit ExitCode.DATA_SIZE_MISMATCH
  /\ returns (bin2mapping lenient ascii_runtime SETTINGS_structural
                image_regular world0) = true.
Proof. repeat split; vm_compute; reflexivity. Qed.

(** ** Schema registry: the platform index *)

(** C4, the code at the failing input. An image of the 8.2.0.4 layout
    whose [config_version] byte is 2 makes [get_config_info] exit with
    [INVALID_DATA], with and without [ignorewarning]; the platform is not
    clamped and nothing is returned. *)
Theorem get_config_info_platform_2_exits :
  fst (get_config_info strict ascii_runtime SETTINGS_structural
         image_platform_2 world0) = SysExit ExitCode.INVALID_DATA
  /\ fst (get_config_info lenient ascii_runtime SETTINGS_structural
            image_platform_2 world0) = SysExit ExitCode.INVALID_DATA
  /\ returns (get_config_info lenient ascii_runtime SETTINGS_structural
                image_regular world0) = true.
Proof. repeat split; vm_compute; reflexivity. Qed.

(** ** Field codec: the masked password *)

(** [set_field] hands [passwordwrite] the encoded restore value, a [bytes]
    object, which never equals the [str] constant [HIDDEN_PASSWORD]. *)
Lemma passwordwrite_bytes (b : list Z) : passwordwrite (VBytes b) = VBytes b.
Proof. reflexivity. Qed.

Lemma passwordwrite_mask : passwordwrite (VStr HIDDEN_PASSWORD) = VNone.
Proof. reflexivity. Qed.

(** C9, the code at the failing input. Restoring the mask ['********'] into
    [mqtt_pwd] (the 33-byte field of the older layouts and the text slot of
    the 8.x layouts) overwrites the stored password "secret" with eight
    asterisks. *)
Theorem set_field_mask_overwrites_password :
  buf_read image_with_password 0x24E 9 = [115; 101; 99; 114; 101; 116; 0; 0; 0]
  /\ (exists dobj',
        set_field strict ascii_runtime recursionlimit image_with_password
          Platform.ESP82 "mqtt_pwd" mqtt_pwd (VStr HIDDEN_PASSWORD) 0 world0
        = (Ret dobj', world0)
        /\ buf_read dobj' 0x24E 9 = [42; 42; 42; 42; 42; 42; 42; 42; 0])
  /\ buf_read image_with_text_password (0x017 + 15) 9
     = [115; 101; 99; 114; 101; 116; 0; 0; 0]
  /\ (exists dobj',
        set_field strict ascii_runtime recursionlimit image_with_text_password
          Platform.ESP82 "mqtt_pwd" mqtt_pwd_indexed (VStr HIDDEN_PASSWORD) 0
          world0
        = (Ret dobj', world0)
        /\ buf_read dobj' (0x017 + 15) 9 = [42; 42; 42; 42; 42; 42; 42; 42; 0]).
Proof.
  split; [vm_compute; reflexivity|].
  split.
  { eexists. split; [vm_compute; reflexivity | vm_compute; reflexivity]. }
  split; [vm_compute; reflexivity|].
  eexists. split; [vm_compute; reflexivity | vm_compute; reflexivity].
Qed.

(** ** Schema registry: resolution *)

Lemma insert_desc_In (x y : Z * Z * setting) (l : settings) :
  In y (insert_desc x l) <-> y = x \/ In y l.
Proof.
  induction l as [|h l IH]; simpl.
  - intuition congruence.
  - destruct (cfg_version x <? cfg_version h); simpl; rewrite ?IH;
      intuition congruence.
Qed.

Lemma sorted_desc_In (y : Z * Z * setting) (l : settings) :
  In y (sorted_desc l) <-> In y l.
Proof.
  induction l as [|h l IH]; simpl.
  - tauto.
  - rewrite insert_desc_In, IH. intuition congruence.
Qed.

Lemma insert_desc_descending (x : Z * Z * setting) (l : settings) :
  descending l -> descending (insert_desc x l).
Proof.
  unfold descending. induction 1 as [|h l Hs IH Hall]; simpl.
  - constructor; constructor.
  - destruct (cfg_version x <? cfg_version h) eqn:E.
    + apply Z.ltb_lt in E. constructor; [exact IH|].
      apply Forall_forall. intros b Hb. apply insert_desc_In in Hb.
      destruct Hb as [-> | Hb]; [lia|].
      rewrite Forall_forall in Hall. auto.
    + apply Z.ltb_ge in E. constructor.
      * constructor; assumption.
      * constructor; [exact E|].
        rewrite Forall_forall in Hall. apply Forall_forall. intros b Hb.
        specialize (Hall b Hb). lia.
Qed.

Lemma sorted_desc_descending (l : settings) : descending (sorted_desc l).
Proof.
  induction l as [|h l IH]; simpl.
  - constructor.
  - apply insert_desc_descending. exact IH.
Qed.

Lemma find_descending_greatest (v : Z) (l : settings) (c : Z * Z * setting) :
  descending l ->
  find (fun cfg => v >=? cfg_version cfg) l = Some c ->
  forall c', In c' l -> cfg_version c' <= v -> cfg_version c' <= cfg_version c.
Proof.
  unfold descending. induction 1 as [|h l Hs IH Hall]; simpl; intros Hfind.
  - discriminate.
  - destruct (v >=? cfg_version h) eqn:E.
    + injection Hfind as <-. intros c' [<- | Hin] _; [lia|].
      rewrite Forall_forall in Hall. auto.
    + intros c' [<- | Hin] Hle.
      * rewrite Z.geb_leb in E. apply Z.leb_gt in E. lia.
      * apply IH; assumption.
Qed.

(** What the two loops of [get_config_info] find: the entry of greatest
    version not above [v], or nothing when all entries are above [v]. *)
Lemma first_supported_some (v : Z) (SETTINGS : settings) (c : Z * Z * setting) :
  first_supported v SETTINGS = Some c ->
  In c SETTINGS /\ cfg_version c <= v
  /\ forall c', In c' SETTINGS -> cfg_version c' <= v ->
                cfg_version c' <= cfg_version c.
Proof.
  unfold first_supported. intros Hfind.
  pose proof (find_some _ _ Hfind) as [Hin Hge].
  rewrite Z.geb_leb in Hge. apply Z.leb_le in Hge.
  split; [apply (proj1 (sorted_desc_In c SETTINGS)); exact Hin|].
  split; [exact Hge|].
  intros c' Hin' Hle.
  apply (find_descending_greatest v (sorted_desc SETTINGS) c
           (sorted_desc_descending SETTINGS) Hfind c');
    [apply (proj2 (sorted_desc_In c' SETTINGS)); exact Hin' | exact Hle].
Qed.

Lemma first_supported_none (v : Z) (SETTINGS : settings) :
  first_supported v SETTINGS = None <->
  forall c, In c SETTINGS -> v < cfg_version c.
Proof.
  unfold first_supported. split.
  - intros Hnone c Hin. apply (proj2 (sorted_desc_In c SETTINGS)) in Hin.
    pose proof (find_none _ _ Hnone c Hin) as Hc. cbv beta in Hc.
    rewrite Z.geb_leb in Hc. apply Z.leb_gt in Hc. exact Hc.
  - intros Hall. destruct (find _ _) as [c|] eqn:Hfind; [|reflexivity].
    pose proof (find_some _ _ Hfind) as [Hin Hge].
    apply (proj1 (sorted_desc_In c SETTINGS)) in Hin. specialize (Hall c Hin).
    rewrite Z.geb_leb in Hge. apply Z.leb_le in Hge. lia.
Qed.

(** *** Reading the version *)

Lemma buf_offset_inside (len off size : Z) :
  0 <= off -> off + size <= len -> buf_offset len off size = PyOk off.
Proof.
  intros H0 H1. unfold buf_offset.
  assert (E : (off <? 0) = false) by (apply Z.ltb_ge; lia).
  assert (E2 : (len - off <? size) = false) by (apply Z.ltb_ge; lia).
  cbv zeta. rewrite E. cbv iota. rewrite E, E2. reflexivity.
Qed.

Lemma buf_read_firstn (dobj : list Z) (off size : Z) :
  firstn (Z.to_nat size) (buf_read dobj off size) = buf_read dobj off size.
Proof.
  unfold buf_read. rewrite firstn_firstn, Nat.min_id. reflexivity.
Qed.



(** *** Exit statuses *)

Lemma exits_only_ret {A} (P : Z -> Prop) (a : A) : exits_only P (ret a).
Proof. intros w s w' H. discriminate H. Qed.

Lemma exits_only_raise {A} (P : Z -> Prop) (e : exn) :
  exits_only P (@raise A e).
Proof. intros w s w' H. discriminate H. Qed.

Lemma exits_only_lift {A} (P : Z -> Prop) (r : pyresult A) :
  exits_only P (lift r).
Proof. destruct r; [apply exits_only_ret | apply exits_only_raise]. Qed.

Lemma exits_only_bind {A B} (P : Z -> Prop) (m : M A) (k : A -> M B) :
  exits_only P m -> (forall a, exits_only P (k a)) -> exits_only P (bind m k).
Proof.
  intros Hm Hk w s w' H. unfold bind in H.
  destruct (m w) as [[a|s0|e] w0] eqn:E.
  - exact (Hk a w0 s w' H).
  - injection H as <- <-. exact (Hm w s0 w0 E).
  - discriminate H.
Qed.

Lemma exits_only_for_each {A S} (P : Z -> Prop) (l : list A)
    (body : A -> S -> M (bool * S)) :
  (forall a s, exits_only P (body a s)) ->
  forall s, exits_only P (for_each l body s).
Proof.
  intros Hbody. induction l as [|a l IH]; intros s; simpl.
  - apply exits_only_ret.
  - apply exits_only_bind; [apply Hbody|].
    intros [go s']; simpl. destruct go; [apply IH | apply exits_only_ret].
Qed.

Lemma exits_only_exit_ (P : Z -> Prop) (status : Z) (msg : msgtext)
    (type_ : LogType) (doexit : bool) :
  P status -> exits_only P (exit_ status msg type_ doexit).
Proof.
  intros HP w s w' H. unfold exit_, bind, message, sys_exit, ret in H.
  destruct doexit; simpl in H; [|discriminate H].
  injection H as <- _. exact HP.
Qed.

Lemma exits_only_readwrite_converter (ARGS : args) (value : pyval)
    (fd : fielddef) (read raw : bool) :
  exits_only (fun s => s = ExitCode.INTERNAL_ERROR)
             (readwrite_converter ARGS value fd read raw).
Proof.
  unfold readwrite_converter.
  destruct (negb _ && has_converter fd); [|apply exits_only_ret].
  destruct (apply_conv ARGS _ value) as [[v|e]|].
  - apply exits_only_ret.
  - apply exits_only_bind; [apply exits_only_exit_; reflexivity|].
    intros _. apply exits_only_ret.
  - apply exits_only_ret.
Qed.

(** [get_field] can only exit through a failing converter. *)
Lemma exits_only_get_field (ARGS : args) (rt : runtime) (depth : nat) :
  forall dobj platform_bits fieldname fd raw addroffset ignoregroup,
    exits_only (fun s => s = ExitCode.INTERNAL_ERROR)
               (get_field ARGS rt depth dobj platform_bits fieldname fd raw
                          addroffset ignoregroup).
Proof.
  induction depth as [|d IH]; intros; cbn [get_field].
  - apply exits_only_raise.
  - destruct (_ =? 0); [apply exits_only_ret|].
    destruct (negb ignoregroup && _); [apply exits_only_ret|].
    destruct (arraydef fd) as [|n dims].
    + destruct (format_ fd) as [fmt|setting].
      * apply exits_only_bind; [apply exits_only_lift|]. intros len.
        destruct (negb (len =? 0)); [|apply exits_only_ret].
        apply exits_only_bind; [apply exits_only_lift|]. intros v.
        apply exits_only_readwrite_converter.
      * apply exits_only_bind; [|intros; apply exits_only_ret].
        apply exits_only_for_each. intros nf mv.
        apply exits_only_bind; [apply IH|]. intros v.
        destruct (negb (is_none v)); apply exits_only_ret.
    + apply exits_only_bind; [|intros; apply exits_only_ret].
      apply exits_only_for_each. intros i [vm off].
      apply exits_only_bind; [apply exits_only_lift|]. intros sub.
      apply exits_only_bind; [apply exits_only_lift|]. intros len.
      destruct (negb (len =? 0)); [|apply exits_only_ret].
      apply exits_only_bind; [apply IH|]. intros v. apply exits_only_ret.
Qed.



(** ** Field codec: arrays *)

Lemma skipn_nth_error {A} (l : list A) :
  forall i, skipn i l = match nth_error l i with
                        | Some e => e :: skipn (S i) l
                        | None => []
                        end.
Proof.
  induction l as [|a l IH]; intros [|i]; try reflexivity.
  cbn [skipn nth_error]. rewrite IH. destruct (nth_error l i); reflexivity.
Qed.

Lemma seq_index_nat {A} (l : list A) (i : nat) :
  seq_index l (Z.of_nat i) = match nth_error l i with
                             | Some a => PyOk a
                             | None => PyExc IndexError
                             end.
Proof.
  unfold seq_index.
  replace (Z.of_nat i <? 0) with false by (symmetry; apply Z.ltb_ge; lia).
  cbv zeta iota.
  replace (Z.of_nat i <? 0) with false by (symmetry; apply Z.ltb_ge; lia).
  rewrite Nat2Z.id. cbn [orb].
  destruct (Z.of_nat (List.length l) <=? Z.of_nat i) eqn:E.
  - apply Z.leb_le in E.
    assert (H : nth_error l i = None) by (apply nth_error_None; lia).
    rewrite H. reflexivity.
  - reflexivity.
Qed.

Section ArrayRestore.

Variables (ARGS : args) (rt : runtime) (d : nat) (platform_bits : Z)
          (fieldname : string) (sub : fielddef) (indexed : bool)
          (addroffset len_e : Z) (rm : list pyval).

(** One round of the loop body on the element of index [i]. *)
Variable body : Z -> list Z * Z -> M (bool * (list Z * Z)).

Hypothesis body_step :
  forall (i : nat) (dobj : list Z) (w : world),
    body (Z.of_nat i) (dobj, Z.of_nat i * len_e) w
    = match nth_error rm i with
      | Some e =>
          (dobj' <- set_field ARGS rt d dobj platform_bits fieldname sub e
                      (if indexed then Z.of_nat i
                       else addroffset + Z.of_nat i * len_e) ;;
           ret (true, (dobj', Z.of_nat (S i) * len_e))) w
      | None => (Ret (false, (dobj, Z.of_nat i * len_e)), w)
      end.

Lemma for_each_restores_elements :
  forall (m start : nat) (dobj : list Z) (w : world),
    (r <- for_each (map Z.of_nat (seq start m)) body
                   (dobj, Z.of_nat start * len_e) ;;
     ret (fst r)) w
    = restore_elements ARGS rt d platform_bits fieldname sub indexed addroffset
        len_e (firstn m (skipn start rm)) (Z.of_nat start) dobj w.
Proof.
  induction m as [|m IH]; intros start dobj w.
  - reflexivity.
  - cbn [seq map for_each]. rewrite (skipn_nth_error rm start).
    unfold bind at 1. unfold bind at 1. rewrite body_step.
    destruct (nth_error rm start) as [e|].
    + cbn [firstn restore_elements]. unfold bind.
      destruct (set_field ARGS rt d dobj platform_bits fieldname sub e _ w)
        as [[dobj'|s|e'] w']; try reflexivity.
      cbn [ret fst snd].
      replace (Z.of_nat start + 1) with (Z.of_nat (S start)) by lia.
      specialize (IH (S start) dobj' w'). unfold bind in IH. exact IH.
    + reflexivity.
Qed.

End ArrayRestore.

Lemma bind_run_ext {A B} (m : M A) (k1 k2 : A -> M B) (w : world) :
  (forall a w', k1 a w' = k2 a w') -> bind m k1 w = bind m k2 w.
Proof.
  intros Hk. unfold bind. destruct (m w) as [[a|s|e] w']; auto.
Qed.

(** C7. For an array field of capacity [n] that passes the platform and
    group filters and is writable, with elements of nonzero size, and a
    restore list [rm]: a list longer than [n] ends in exit status
    [RESTORE_DATA_ERROR] under the strict policy; under [ignorewarning] it is
    reported as a warning and the first [n] values are restored; a list of
    at most [n] values is restored value by value, without a warning, and
    nothing else is written. *)
Theorem set_field_array (ARGS : args) (rt : runtime) (d : nat) (dobj : list Z)
    (platform_bits : Z) (fieldname : string) (fd : fielddef)
    (rm : list pyval) (addroffset : Z) (w : world)
    (n : Z) (dims : list Z) (sub : fielddef) (len_e : Z) :
  arraydef fd = n :: dims ->
  0 <= n ->
  (Z.land (platform_ fd) platform_bits =? 0) = false ->
  is_filtergroup ARGS rt (group fd) = true ->
  is_false (writeconverter fd) = false ->
  get_subfielddef fd = PyOk sub ->
  get_fieldlength rt d sub = PyOk len_e ->
  (len_e =? 0) = false ->
  let run := set_field ARGS rt (S d) dobj platform_bits fieldname fd (VList rm)
                       addroffset in
  let restore elems :=
    restore_elements ARGS rt d platform_bits fieldname sub
                     (is_some (strindex fd)) addroffset len_e elems 0 dobj in
  let count := Z.of_nat (List.length rm) in
  let warned :=
    mkworld ExitCode.RESTORE_DATA_ERROR
            (mklog (Some WARNING) (Some ExitCode.RESTORE_DATA_ERROR)
                   (MsgArrayExceeds fieldname count n) :: stderr w) in
  (count > n -> ignorewarning ARGS = false ->
   fst (run w) = SysExit ExitCode.RESTORE_DATA_ERROR)
  /\ (count > n -> ignorewarning ARGS = true ->
      run w = restore (firstn (Z.to_nat n) rm) warned)
  /\ (count <= n -> run w = restore rm w).
Proof.
  intros Harr Hn Hplat Hgroup Hwrite Hsub Hlen Hnz run restore count warned.
  assert (Hrun : forall w0,
    (r <- for_each (range0 n)
            (fun i st =>
               let '(dobj, offset) := st in
               subfielddef <- lift (get_subfielddef fd) ;;
               length <- lift (get_fieldlength rt d subfielddef) ;;
               if negb (length =? 0) then
                 len <- lift (py_len (VList rm)) ;;
                 if i >=? len then ret (false, (dobj, offset))
                 else
                   subrestore <- lift (py_getitem (VList rm) i) ;;
                   dobj' <- set_field ARGS rt d dobj platform_bits
                              fieldname subfielddef subrestore
                              (match strindex fd with
                               | Some _ => i
                               | None => addroffset + offset
                               end) ;;
                   ret (true, (dobj', offset + length))
               else ret (true, (dobj, offset + length)))
            (dobj, 0) ;;
     ret (fst r)) w0
    = restore (firstn (Z.to_nat n) rm) w0).
  { intros w0. unfold restore, range0.
    apply (for_each_restores_elements ARGS rt d platform_bits fieldname sub
             (is_some (strindex fd)) addroffset len_e rm _) with (start := 0%nat).
    intros i dobj0 w1. cbv beta iota.
    rewrite Hsub. cbn [lift]. unfold bind at 1. cbn [ret].
    rewrite Hlen. cbn [lift]. unfold bind at 1. cbn [ret].
    rewrite Hnz. cbn [negb py_len lift]. unfold bind at 1. cbn [ret].
    cbn [py_getitem]. rewrite seq_index_nat.
    destruct (nth_error rm i) as [e|] eqn:He.
    - assert (Hi : (i < List.length rm)%nat)
        by (apply nth_error_Some; congruence).
      replace (Z.of_nat i >=? Z.of_nat (List.length rm)) with false
        by (symmetry; rewrite Z.geb_leb; apply Z.leb_gt; lia).
      cbn [lift]. unfold bind at 1. cbn [ret].
      replace (Z.of_nat (S i) * len_e) with (Z.of_nat i * len_e + len_e)
        by lia.
      destruct (strindex fd); reflexivity.
    - assert (Hi : (List.length rm <= i)%nat) by (apply nth_error_None; exact He).
      replace (Z.of_nat i >=? Z.of_nat (List.length rm)) with true
        by (symmetry; rewrite Z.geb_leb; apply Z.leb_le; lia).
      reflexivity. }
  assert (Hunfold : forall w0,
    run w0 = ((if count >? n
               then exit_ ExitCode.RESTORE_DATA_ERROR
                          (MsgArrayExceeds fieldname count n) WARNING
                          (negb (ignorewarning ARGS))
               else ret tt) ;;;
              restore (firstn (Z.to_nat n) rm)) w0).
  { intros w0. unfold run. cbn [set_field].
    rewrite Hplat, Hgroup, Hwrite, Harr. cbn [negb py_len lift].
    unfold bind at 1. cbn [ret]. fold count.
    apply bind_run_ext. intros _ w1. apply Hrun. }
  repeat split.
  - intros Hlong Hstrict. rewrite Hunfold.
    replace (count >? n) with true by (symmetry; apply Z.gtb_lt; lia).
    rewrite Hstrict. reflexivity.
  - intros Hlong Hlenient. rewrite Hunfold.
    replace (count >? n) with true by (symmetry; apply Z.gtb_lt; lia).
    rewrite Hlenient. reflexivity.
  - intros Hshort. rewrite Hunfold.
    replace (count >? n) with false
      by (symmetry; rewrite Z.gtb_ltb; apply Z.ltb_ge; lia).
    unfold bind, ret. f_equal.
    rewrite firstn_all2 by (unfold count in Hshort; lia). reflexivity.
Qed.

(** [my_gp], an array of 18 bytes at 0x484: nineteen values end the strict
    run, are cut to eighteen under [ignorewarning], and three values are
    restored as they are, leaving the other fifteen bytes alone. *)
Lemma set_field_array_witness :
  fst (set_field strict ascii_runtime 6 (zeros 0x500) Platform.ESP82 "my_gp"
         my_gp (VList values_19) 0 world0)
  = SysExit ExitCode.RESTORE_DATA_ERROR
  /\ set_field lenient ascii_runtime 6 (zeros 0x500) Platform.ESP82 "my_gp"
       my_gp (VList values_19) 0 world0
     = restore_elements lenient ascii_runtime 5 Platform.ESP82 "my_gp"
         my_gp_element false 0 1 (firstn 18 values_19) 0 (zeros 0x500)
         (mkworld ExitCode.RESTORE_DATA_ERROR
            [mklog (Some WARNING) (Some ExitCode.RESTORE_DATA_ERROR)
                   (MsgArrayExceeds "my_gp" 19 18)])
  /\ set_field strict ascii_runtime 6 (zeros 0x500) Platform.ESP82 "my_gp"
       my_gp (VList values_3) 0 world0
     = restore_elements strict ascii_runtime 5 Platform.ESP82 "my_gp"
         my_gp_element false 0 1 values_3 0 (zeros 0x500) world0
  /\ restore_elements strict ascii_runtime 5 Platform.ESP82 "my_gp"
       my_gp_element false 0 1 values_3 0 (zeros 0x500) world0
     = (Ret (buf_write (zeros 0x500) 0x484 [1; 2; 3]), world0).
Proof.
  split; [|split; [|split]].
  - apply (set_field_array strict ascii_runtime 5 (zeros 0x500) Platform.ESP82
             "my_gp" my_gp values_19 0 world0 18 [] my_gp_element 1);
      try reflexivity; lia.
  - apply (set_field_array lenient ascii_runtime 5 (zeros 0x500) Platform.ESP82
             "my_gp" my_gp values_19 0 world0 18 [] my_gp_element 1);
      try reflexivity; lia.
  - apply (set_field_array strict ascii_runtime 5 (zeros 0x500) Platform.ESP82
             "my_gp" my_gp values_3 0 world0 18 [] my_gp_element 1);
      try reflexivity; simpl; lia.
  - vm_compute. reflexivity.
Defined.

(** ** Field codec: bit-packed fields *)

(** *** Buffers and words *)

Lemma buf_read_length (dobj : list Z) (off size : Z) :
  0 <= off -> 0 <= size -> off + size <= Z.of_nat (List.length dobj) ->
  List.length (buf_read dobj off size) = Z.to_nat size.
Proof.
  intros H0 H1 H2. unfold buf_read.
  rewrite length_firstn, length_skipn. lia.
Qed.

Lemma buf_write_length (dobj : list Z) (off : Z) (data : list Z) :
  0 <= off -> off + Z.of_nat (List.length data) <= Z.of_nat (List.length dobj) ->
  List.length (buf_write dobj off data) = List.length dobj.
Proof.
  intros H0 H1. unfold buf_write.
  rewrite !length_app, length_firstn, length_skipn. lia.
Qed.

Lemma buf_read_write (dobj : list Z) (off : Z) (data : list Z) :
  0 <= off -> off + Z.of_nat (List.length data) <= Z.of_nat (List.length dobj) ->
  buf_read (buf_write dobj off data) off (Z.of_nat (List.length data)) = data.
Proof.
  intros H0 H1. unfold buf_read, buf_write.
  rewrite skipn_app, length_firstn.
  replace (Z.to_nat off - Nat.min (Z.to_nat off) (List.length dobj))%nat
    with 0%nat by lia.
  rewrite skipn_all2 by (rewrite length_firstn; lia).
  cbn [app skipn]. rewrite Nat2Z.id.
  rewrite firstn_app, firstn_all, Nat.sub_diag. cbn [firstn].
  apply app_nil_r.
Qed.

Lemma buf_write_outside (dobj : list Z) (off : Z) (data : list Z) (k : nat) :
  0 <= off -> off + Z.of_nat (List.length data) <= Z.of_nat (List.length dobj) ->
  Z.of_nat k < off \/ off + Z.of_nat (List.length data) <= Z.of_nat k ->
  nth k (buf_write dobj off data) 0 = nth k dobj 0.
Proof.
  intros H0 H1 Hk. unfold buf_write.
  destruct Hk as [Hk | Hk].
  - rewrite app_nth1 by (rewrite length_firstn; lia).
    rewrite nth_firstn.
    replace (k <? Z.to_nat off)%nat with true
      by (symmetry; apply Nat.ltb_lt; lia).
    reflexivity.
  - rewrite app_nth2 by (rewrite length_firstn; lia).
    rewrite app_nth2 by (rewrite length_firstn; lia).
    rewrite nth_skipn, length_firstn. f_equal. lia.
Qed.

Lemma ordered_twice (o : byteorder) (l : list Z) : ordered o (ordered o l) = l.
Proof. destruct o; cbn [ordered]; auto using rev_involutive. Qed.

Lemma ordered_length (o : byteorder) (l : list Z) :
  List.length (ordered o l) = List.length l.
Proof. destruct o; cbn [ordered]; auto using length_rev. Qed.

Lemma le_bytes_length (n : nat) (v : Z) : List.length (le_bytes n v) = n.
Proof. revert v. induction n as [|n IH]; intros v; cbn [le_bytes List.length]; auto. Qed.

Lemma le_value_le_bytes (n : nat) (v : Z) :
  le_value (le_bytes n v) = Z.land v (Z.ones (8 * Z.of_nat n)).
Proof.
  revert v. induction n as [|n IH]; intros v; cbn [le_bytes le_value].
  - cbn. rewrite Z.land_0_r. reflexivity.
  - rewrite IH. apply Z.bits_inj'. intros i Hi.
    rewrite Z.lor_spec, !Z.land_spec.
    change 0xff with (Z.ones 8).
    rewrite !Z.testbit_ones_nonneg by lia.
    destruct (Z.ltb_spec i 8) as [Hlt | Hge].
    + rewrite Z.shiftl_spec_low by lia. rewrite orb_false_r.
      replace (i <? 8 * Z.of_nat (S n)) with true
        by (symmetry; apply Z.ltb_lt; lia).
      reflexivity.
    + rewrite andb_false_r, orb_false_l.
      rewrite Z.shiftl_spec by lia. rewrite Z.land_spec, Z.shiftr_spec by lia.
      replace (i - 8 + 8) with i by lia.
      rewrite Z.testbit_ones_nonneg by lia.
      f_equal. apply eq_true_iff_eq. rewrite !Z.ltb_lt. lia.
Qed.

Lemma signed_view_testbit (c : fcode) (w v i : Z) :
  0 <= i < w -> Z.testbit (signed_view c w v) i = Z.testbit v i.
Proof.
  intros Hi. unfold signed_view.
  destruct (is_signed c && (2 ^ (w - 1) <=? v)); [|reflexivity].
  rewrite <- (Z.mod_pow2_bits_low (v - 2 ^ w) w i) by lia.
  rewrite <- (Z.mod_pow2_bits_low v w i) by lia.
  f_equal. replace (v - 2 ^ w) with (v + (-1) * 2 ^ w) by lia.
  apply Z.mod_add. apply Z.pow_nonzero; lia.
Qed.

Lemma shift_by_sign (a s : Z) :
  (if s >=? 0 then Z.shiftl a s else Z.shiftr a (Z.abs s)) = Z.shiftl a s.
Proof.
  destruct (s >=? 0) eqn:E; [reflexivity|].
  rewrite Z.geb_leb in E. apply Z.leb_gt in E.
  rewrite <- Z.shiftl_opp_r. f_equal. lia.
Qed.

Lemma unpack_item_int (rt : runtime) (o : byteorder) (c : fcode)
    (chunk : list Z) :
  is_intcode c = true ->
  unpack_item rt o c chunk
  = VInt (signed_view c (8 * Z.of_nat (List.length chunk))
                      (le_value (ordered o chunk))).
Proof. destruct c; intros H; try discriminate H; reflexivity. Qed.

Lemma unpack_from_int (rt : runtime) (o : byteorder) (c : fcode)
    (dobj : list Z) (addr : Z) :
  is_intcode c = true ->
  0 <= addr ->
  0 < code_size rt o c ->
  addr + code_size rt o c <= Z.of_nat (List.length dobj) ->
  unpack_from rt (mkfmt o None c) dobj addr
  = PyOk [VInt (signed_view c (8 * code_size rt o c)
                  (raw_word rt (mkfmt o None c) dobj addr))].
Proof.
  intros Hint H0 Hsz Hlen.
  unfold unpack_from, raw_word, calcsize, count_of.
  cbn [f_order f_code f_count]. rewrite Z.mul_1_r.
  rewrite buf_offset_inside by lia. cbn [pbind].
  change (Z.to_nat 1) with 1%nat.
  destruct c; try discriminate Hint; cbn [chunks map];
    rewrite buf_read_firstn, unpack_item_int by reflexivity;
    rewrite buf_read_length by lia; rewrite Z2Nat.id by lia; reflexivity.
Qed.

Lemma get_formattype_single (rt : runtime) (o : byteorder) (c : fcode) :
  get_formattype rt (mkfmt o None c) = (FtCode o c, code_size rt o c * 8).
Proof. destruct o; reflexivity. Qed.

Lemma pack_item_int (rt : runtime) (o : byteorder) (c : fcode) (val : Z) :
  is_intcode c = true ->
  pack_item rt o c val
  = PyOk (ordered o (le_bytes (Z.to_nat (code_size rt o c)) val))
  \/ pack_item rt o c val = PyExc StructError.
Proof.
  intros Hint. destruct c; try discriminate Hint; unfold pack_item;
    match goal with |- context [if ?b then _ else _] => destruct b end; auto.
Qed.

Lemma pack_item_unsigned (rt : runtime) (o : byteorder) (c : fcode) (val : Z) :
  is_intcode c = true -> is_signed c = false ->
  0 <= val <= 2 ^ (8 * code_size rt o c) - 1 ->
  pack_item rt o c val
  = PyOk (ordered o (le_bytes (Z.to_nat (code_size rt o c)) val)).
Proof.
  intros Hint Hun Hval.
  destruct c; try discriminate Hint; try discriminate Hun; unfold pack_item;
    cbn [is_signed];
    (replace (0 <=? val) with true by (symmetry; apply Z.leb_le; lia));
    match goal with
    | |- context [val <=? ?hi] =>
        replace (val <=? hi) with true by (symmetry; apply Z.leb_le; lia)
    end; reflexivity.
Qed.

Lemma zeros_length (n : nat) : List.length (zeros n) = n.
Proof. apply repeat_length. Qed.

Lemma buf_write_twice (dobj : list Z) (off : Z) (a b : list Z) :
  0 <= off ->
  off + Z.of_nat (List.length a) <= Z.of_nat (List.length dobj) ->
  List.length b = List.length a ->
  buf_write (buf_write dobj off a) off b = buf_write dobj off b.
Proof.
  intros H0 H1 Hlen. unfold buf_write. rewrite Hlen.
  assert (Hf : List.length (firstn (Z.to_nat off) dobj) = Z.to_nat off)
    by (rewrite length_firstn; lia).
  rewrite firstn_app, Hf, Nat.sub_diag, firstn_firstn, Nat.min_id.
  cbn [firstn]. rewrite app_nil_r.
  rewrite skipn_app, Hf.
  rewrite (skipn_all2 (firstn (Z.to_nat off) dobj)) by lia.
  replace (Z.to_nat off + List.length a - Z.to_nat off)%nat
    with (List.length a) by lia.
  rewrite skipn_app, skipn_all, Nat.sub_diag. reflexivity.
Qed.

(** [struct.pack_into] of one integer at an address inside the buffer:
    the packed bytes are stored, or the bytes of the item are left zero. *)
Lemma pack_into_int_inside (rt : runtime) (o : byteorder) (c : fcode)
    (dobj : list Z) (addr val : Z) :
  is_intcode c = true ->
  0 < code_size rt o c ->
  0 <= addr ->
  addr + code_size rt o c <= Z.of_nat (List.length dobj) ->
  pack_into_int rt (FtCode o c) dobj addr val
  = match pack_item rt o c val with
    | PyOk data => Packed (buf_write dobj addr data)
    | PyExc e =>
        PackError e (buf_write dobj addr (zeros (Z.to_nat (code_size rt o c))))
    end.
Proof.
  intros Hint Hsz H0 Hlen. unfold pack_into_int. cbv zeta.
  rewrite buf_offset_inside by lia.
  destruct (pack_item_int rt o c val Hint) as [E | E]; rewrite E;
    [|reflexivity].
  assert (Hdata : List.length (ordered o (le_bytes (Z.to_nat (code_size rt o c))
                                                   val))
                  = Z.to_nat (code_size rt o c))
    by (rewrite ordered_length, le_bytes_length; reflexivity).
  rewrite firstn_all2 by lia.
  rewrite buf_write_twice; rewrite ?zeros_length, ?Hdata; try lia.
  reflexivity.
Qed.

Lemma get_fieldvalue_int (rt : runtime) (d : nat) (fd : fielddef)
    (o : byteorder) (c : fcode) (dobj : list Z) (addr : Z) :
  format_ fd = FStruct (mkfmt o None c) ->
  is_intcode c = true ->
  0 <= addr ->
  0 < code_size rt o c ->
  addr + code_size rt o c <= Z.of_nat (List.length dobj) ->
  exists x, get_fieldvalue rt d fd dobj addr 0 = PyOk (VInt x).
Proof.
  intros Hfmt Hint H0 Hsz Hlen. unfold get_fieldvalue. rewrite Hfmt.
  rewrite unpack_from_int by assumption. cbn [pbind f_code].
  replace (is_strcode c) with false
    by (destruct c; try discriminate Hint; reflexivity).
  cbn [negb combine_values as_int pbind]. eexists. reflexivity.
Qed.

Lemma bind_ret_run {A} (m : M A) (w : world) :
  bind m (fun a => ret a) w = m w.
Proof. unfold bind, ret. destruct (m w) as [[a|s|e] w']; reflexivity. Qed.

Section BitField.

Variables (ARGS : args) (rt : runtime) (d : nat) (dobj : list Z)
          (platform_bits : Z) (fieldname : string) (fd : fielddef)
          (o : byteorder) (c : fcode) (addroffset v : Z).

Let fmt : sformat := mkfmt o None c.
Let sz : Z := code_size rt o c.
Let addr : Z := baseaddr fd + addroffset.

Hypothesis Hplat : (Z.land (platform_ fd) platform_bits =? 0) = false.
Hypothesis Hgroup : is_filtergroup ARGS rt (group fd) = true.
Hypothesis Hwrite : is_false (writeconverter fd) = false.
Hypothesis Hname : special_field fieldname = false.
Hypothesis Hfmt : format_ fd = FStruct (mkfmt o None c).
Hypothesis Hint : is_intcode c = true.
Hypothesis Hsz : 0 < code_size rt o c <= 4.
Hypothesis Harr : arraydef fd = [].
Hypothesis Hidx : strindex fd = None.
Hypothesis Hbits : 0 < bits fd.
Hypothesis Hconv :
  forall w, readwrite_converter ARGS (VInt v) fd false false w
            = (Ret (VInt v), w).
Hypothesis Haddr :
  0 <= baseaddr fd + addroffset
  /\ baseaddr fd + addroffset + code_size rt o c <= Z.of_nat (List.length dobj).
Hypothesis Hv : 0 <= v < 2 ^ bits fd.
Hypothesis Hvalid : py_truthy (validate_value (VInt v) fd) = true.

(** The word [set_field] merges from the stored word and the new value. *)
Let merged : Z :=
  Z.lor (Z.land (signed_view c (8 * sz) (raw_word rt fmt dobj addr))
                (Z.lxor 0xffffffff (Z.shiftl (Z.ones (bits fd)) (bitshift fd))))
        (Z.shiftl v (bitshift fd)).

Lemma prepare_value_bits (w : world) :
  exists min_ max_,
    prepare_value ARGS rt fd (mkfmt o None c) dobj (VInt v) addroffset w
    = (Ret (mkprepared (validate_value (VInt v) fd) (VInt merged) false
                       min_ max_ "" None), w).
Proof.
  unfold prepare_value.
  destruct (get_fieldminmax (mkfmt o None c)) as [min_ max_].
  exists min_, max_. cbn [f_code].
  assert (Hbranch :
    forall w0,
      (value <- readwrite_converter ARGS (VInt v) fd false false ;;
       value <- lift (py_int rt value) ;;
       if negb (bits fd =? 0) then
         lift (prepare_bits rt fd (mkfmt o None c) dobj addroffset min_ max_
                            value)
       else
         let valid := validate_value (VInt value) fd in
         ret (mkprepared valid (VInt value) false min_ max_
                (if negb (py_truthy valid) then "valid range exceeding"%string
                 else ""%string) None)) w0
      = (Ret (mkprepared (validate_value (VInt v) fd) (VInt merged) false
                         min_ max_ "" None), w0)).
  { intros w0. unfold bind at 1. rewrite Hconv. cbn [py_int lift].
    unfold bind at 1. cbn [ret].
    replace (bits fd =? 0) with false by (symmetry; apply Z.eqb_neq; lia).
    cbn [negb]. unfold prepare_bits.
    rewrite unpack_from_int by (try exact Hint; lia).
    change (seq_index [?x] 0) with (PyOk x).
    cbn [pbind]. rewrite Hvalid. cbn [negb].
    replace (bits fd <? 0) with false by (symmetry; apply Z.ltb_ge; lia).
    change (Z.shiftl 1 (bits fd) - 1) with (Z.ones (bits fd)).
    replace (v >? Z.ones (bits fd)) with false
      by (symmetry; rewrite Z.gtb_ltb; apply Z.ltb_ge;
          rewrite Z.ones_equiv; lia).
    rewrite !shift_by_sign. cbn [as_int pbind lift]. reflexivity. }
  destruct c; try discriminate Hint; apply Hbranch.
Qed.

Lemma merged_nonneg : 0 <= merged.
Proof.
  unfold merged. apply Z.lor_nonneg. split.
  - apply Z.land_nonneg. right. apply Z.lxor_nonneg. split; intros _; [|lia].
    apply Z.shiftl_nonneg. rewrite Z.ones_equiv.
    assert (0 < 2 ^ bits fd) by (apply Z.pow_pos_nonneg; lia). lia.
  - apply Z.shiftl_nonneg. lia.
Qed.

(** The value [set_fieldvalue] packs: the merged word cut to the width of
    the format. *)
Let packed : Z := Z.land merged (2 ^ (sz * 8) - 1).

Lemma set_fieldvalue_word (w : world) :
  set_fieldvalue ARGS rt fd dobj addr (VInt merged) w
  = match pack_item rt o c packed with
    | PyOk data => (Ret (buf_write dobj addr data), w)
    | PyExc StructError =>
        (exit_ ExitCode.RESTORE_DATA_ERROR (MsgPackError addr) WARNING
               (negb (ignorewarning ARGS)) ;;;
         ret (buf_write dobj addr (zeros (Z.to_nat sz)))) w
    | PyExc e => (Raise e, w)
    end.
Proof.
  unfold set_fieldvalue. rewrite Hfmt, get_formattype_single.
  cbn [f_code get_formatcount count_of f_count].
  replace (is_strcode c) with false
    by (destruct c; try discriminate Hint; reflexivity).
  cbn [negb]. change (Z.to_nat 1) with 1%nat. cbv iota.
  cbn [as_int lift]. unfold bind at 1. cbn [ret].
  cbn [set_items].
  replace (merged <? 0) with false
    by (symmetry; apply Z.ltb_ge; apply merged_nonneg).
  cbn [andb].
  fold sz. rewrite Z.div_mul by lia. rewrite Z.mul_1_r.
  replace (addr + sz - sz) with addr by lia.
  fold packed.
  rewrite pack_into_int_inside by (try exact Hint; unfold addr, sz; lia).
  fold sz.
  destruct (pack_item rt o c packed) as [data|[]];
    try reflexivity; apply bind_ret_run.
Qed.

Lemma truthy_not_none (x : pyval) : py_truthy x = true -> is_none x = false.
Proof. destruct x; intros H; try reflexivity; discriminate H. Qed.

(** [set_field] on the bit-packed field comes down to reading the old
    value, packing the merged word and reading the new value. *)
Lemma set_field_bits_steps (w : world) :
  set_field ARGS rt (S d) dobj platform_bits fieldname fd (VInt v) addroffset w
  = (r <- (prevvalue <- lift (get_fieldvalue rt d fd dobj addr 0) ;;
           dobj' <- set_fieldvalue ARGS rt fd dobj addr (VInt merged) ;;
           curvalue <- lift (get_fieldvalue rt d fd dobj' addr 0) ;;
           ret (dobj', (prevvalue, curvalue))) ;;
     let '(dobj', (prevvalue, curvalue)) := r in
     (if py_ne prevvalue curvalue && verbose ARGS
      then message (MsgValueChanged fieldname) (Some INFO) None
      else ret tt) ;;;
     ret dobj') w.
Proof.
  cbn [set_field]. rewrite Hplat, Hgroup, Hwrite, Harr, Hfmt. cbn [negb].
  unfold set_simple. unfold bind at 1.
  destruct (prepare_value_bits w) as [min_ [max_ Eprep]]. rewrite Eprep.
  cbn [p_value p_skip p_valid p_err_text p_min p_max p_prevcur is_none andb negb].
  rewrite (truthy_not_none _ Hvalid). cbn [andb]. unfold bind at 1. cbn [ret].
  rewrite Hvalid, Hname, Hidx. cbn [negb].
  reflexivity.
Qed.

Lemma exit__returns (status : Z) (msg : msgtext) (t : LogType) (w : world) :
  exists w', exit_ status msg t false w = (Ret tt, w').
Proof. eexists. reflexivity. Qed.

Lemma exit__exits (status : Z) (msg : msgtext) (t : LogType) (w : world) :
  exists w', exit_ status msg t true w = (SysExit status, w').
Proof. eexists. reflexivity. Qed.

Lemma set_field_bits_run (w : world) :
  match pack_item rt o c packed with
  | PyOk data =>
      exists w',
        set_field ARGS rt (S d) dobj platform_bits fieldname fd (VInt v)
                  addroffset w
        = (Ret (buf_write dobj addr data), w')
  | PyExc _ =>
      if ignorewarning ARGS then
        exists w',
          set_field ARGS rt (S d) dobj platform_bits fieldname fd (VInt v)
                    addroffset w
          = (Ret (buf_write dobj addr (zeros (Z.to_nat sz))), w')
      else
        exists w',
          set_field ARGS rt (S d) dobj platform_bits fieldname fd (VInt v)
                    addroffset w
          = (SysExit ExitCode.RESTORE_DATA_ERROR, w')
  end.
Proof.
  destruct (get_fieldvalue_int rt d fd o c dobj addr Hfmt Hint)
    as [x Hx]; try (unfold addr; lia).
  destruct (pack_item_int rt o c packed Hint) as [E | E]; rewrite E.
  - rewrite set_field_bits_steps.
    unfold bind at 1. unfold bind at 1. rewrite Hx. cbn [lift ret].
    unfold bind at 1. rewrite set_fieldvalue_word, E.
    destruct (get_fieldvalue_int rt d fd o c
                (buf_write dobj addr
                   (ordered o (le_bytes (Z.to_nat (code_size rt o c)) packed)))
                addr Hfmt Hint)
      as [y Hy]; try (unfold addr; lia).
    { rewrite buf_write_length;
        rewrite ?ordered_length, ?le_bytes_length; unfold addr; lia. }
    unfold bind at 1. rewrite Hy. cbn [lift ret].
    destruct (py_ne (VInt x) (VInt y) && verbose ARGS);
      eexists; reflexivity.
  - destruct (get_fieldvalue_int rt d fd o c
                (buf_write dobj addr (zeros (Z.to_nat sz))) addr Hfmt Hint)
      as [y Hy]; try (unfold addr; lia).
    { rewrite buf_write_length; rewrite ?zeros_length; unfold addr, sz; lia. }
    destruct (ignorewarning ARGS) eqn:Hig; rewrite set_field_bits_steps;
      unfold bind at 1; unfold bind at 1; rewrite Hx; cbn [lift ret];
      unfold bind at 1; rewrite set_fieldvalue_word, E, Hig; cbn [negb].
    + destruct (exit__returns ExitCode.RESTORE_DATA_ERROR (MsgPackError addr)
                  WARNING w) as [w1 E1].
      unfold bind at 1. rewrite E1. cbn [ret].
      unfold bind at 1. rewrite Hy. cbn [lift ret].
      destruct (py_ne (VInt x) (VInt y) && verbose ARGS);
        eexists; reflexivity.
    + destruct (exit__exits ExitCode.RESTORE_DATA_ERROR (MsgPackError addr)
                  WARNING w) as [w1 E1].
      unfold bind at 1. rewrite E1. eexists. reflexivity.
Qed.

Lemma packed_range : 0 <= packed <= 2 ^ (8 * sz) - 1.
Proof.
  unfold packed. replace (sz * 8) with (8 * sz) by lia.
  assert (Hw : 0 <= 8 * sz) by (unfold sz; lia).
  replace (2 ^ (8 * sz) - 1) with (Z.ones (8 * sz))
    by (rewrite Z.ones_equiv; lia).
  rewrite Z.land_ones by exact Hw.
  pose proof (Z.mod_pos_bound merged (2 ^ (8 * sz))
                (Z.pow_pos_nonneg 2 (8 * sz) ltac:(lia) Hw)).
  rewrite Z.ones_equiv. lia.
Qed.

Lemma packed_testbit (i : Z) :
  0 <= i < 8 * sz -> Z.testbit packed i = Z.testbit merged i.
Proof.
  intros Hi. unfold packed. replace (sz * 8) with (8 * sz) by lia.
  replace (2 ^ (8 * sz) - 1) with (Z.ones (8 * sz))
    by (rewrite Z.ones_equiv; lia).
  rewrite Z.land_spec, Z.testbit_ones_nonneg by lia.
  replace (i <? 8 * sz) with true by (symmetry; apply Z.ltb_lt; lia).
  apply andb_true_r.
Qed.

Lemma small_testbit_high (j : Z) : bits fd <= j -> Z.testbit v j = false.
Proof.
  intros Hj. rewrite <- (Z.mod_small v (2 ^ bits fd)) by exact Hv.
  apply Z.mod_pow2_bits_high. lia.
Qed.

Lemma merged_testbit_outside (i : Z) :
  0 <= i < 8 * sz ->
  ~ (bitshift fd <= i < bitshift fd + bits fd) ->
  Z.testbit merged i = Z.testbit (raw_word rt fmt dobj addr) i.
Proof.
  intros Hi Hout. unfold merged.
  rewrite Z.lor_spec, Z.land_spec, Z.lxor_spec, signed_view_testbit by exact Hi.
  rewrite !Z.shiftl_spec by lia.
  change 0xffffffff with (Z.ones 32).
  rewrite Z.testbit_ones_nonneg by (unfold sz in Hi; lia).
  replace (i <? 32) with true
    by (symmetry; apply Z.ltb_lt; unfold sz in Hi; lia).
  rewrite Z.testbit_ones by lia.
  assert (Hmask : (0 <=? i - bitshift fd) && (i - bitshift fd <? bits fd)
                  = false).
  { apply andb_false_iff.
    destruct (Z.le_gt_cases (bitshift fd) i);
      [right; apply Z.ltb_ge; lia | left; apply Z.leb_gt; lia]. }
  rewrite Hmask. cbn [xorb].
  assert (Hval : Z.testbit v (i - bitshift fd) = false).
  { destruct (Z.le_gt_cases (bitshift fd) i).
    - apply small_testbit_high. lia.
    - apply Z.testbit_neg_r. lia. }
  rewrite Hval, andb_true_r, orb_false_r. reflexivity.
Qed.

Lemma merged_testbit_inside (i : Z) :
  0 <= i < 8 * sz ->
  bitshift fd <= i < bitshift fd + bits fd ->
  Z.testbit merged i = Z.testbit v (i - bitshift fd).
Proof.
  intros Hi Hin. unfold merged.
  rewrite Z.lor_spec, Z.land_spec, Z.lxor_spec.
  rewrite !Z.shiftl_spec by lia.
  change 0xffffffff with (Z.ones 32).
  rewrite Z.testbit_ones_nonneg by (unfold sz in Hi; lia).
  replace (i <? 32) with true
    by (symmetry; apply Z.ltb_lt; unfold sz in Hi; lia).
  rewrite Z.testbit_ones by lia.
  replace (0 <=? i - bitshift fd) with true
    by (symmetry; apply Z.leb_le; lia).
  replace (i - bitshift fd <? bits fd) with true
    by (symmetry; apply Z.ltb_lt; lia).
  cbn [andb xorb]. rewrite andb_false_r. reflexivity.
Qed.

Lemma raw_word_written :
  raw_word rt fmt
    (buf_write dobj addr (ordered o (le_bytes (Z.to_nat sz) packed))) addr
  = packed.
Proof.
  unfold raw_word, calcsize, count_of, fmt. cbn [f_order f_code f_count].
  fold sz. rewrite Z.mul_1_r.
  set (data := ordered o (le_bytes (Z.to_nat sz) packed)).
  assert (Hlen : Z.of_nat (List.length data) = sz).
  { unfold data. rewrite ordered_length, le_bytes_length.
    apply Z2Nat.id. unfold sz. lia. }
  replace (buf_read (buf_write dobj addr data) addr sz) with data.
  2:{ rewrite <- Hlen at 1. symmetry. apply buf_read_write;
        rewrite ?Hlen; unfold addr, sz; lia. }
  unfold data. rewrite ordered_twice, le_value_le_bytes.
  rewrite Z2Nat.id by (unfold sz; lia).
  rewrite Z.land_ones by (unfold sz; lia).
  apply Z.mod_small. pose proof packed_range. lia.
Qed.

End BitField.

(** C6, the code at the failing input.  [set_field] checks the value for a
    bit-packed field against the upper bound of its bit range only, so a
    negative value passes as valid and is merged into the word as it is.
    Restoring [-4294967294] into [flag.save_state] (bit 0 of the 32-bit
    word at 0x010) returns, under the strict policy too, an image in which
    [flag.button_restrict] (bit 1) has gone from 0 to 1, and nothing is
    printed.  Restoring [-1] produces a word that cannot be packed: under
    the strict policy the program ends with [RESTORE_DATA_ERROR], and
    with [ignorewarning] the image is returned with the whole word
    cleared, [button_restrict] gone from 1 to 0. *)
Theorem set_field_bits_negative_value :
  bits save_state = 1 /\ bitshift save_state = 0
  /\ py_truthy (validate_value (VInt (-4294967294)) save_state) = true
  /\ py_truthy (validate_value (VInt (-1)) save_state) = true
  /\ (exists dobj',
        set_field strict ascii_runtime recursionlimit image_flags_clear
                  Platform.ESP82 "save_state" save_state (VInt (-4294967294)) 0
                  world0
        = (Ret dobj', world0)
        /\ Z.testbit (raw_word ascii_runtime fmt_L image_flags_clear 0x010) 1
           = false
        /\ Z.testbit (raw_word ascii_runtime fmt_L dobj' 0x010) 1 = true)
  /\ fst (set_field strict ascii_runtime recursionlimit image_flags
                    Platform.ESP82 "save_state" save_state (VInt (-1)) 0 world0)
     = SysExit ExitCode.RESTORE_DATA_ERROR
  /\ (exists dobj' w',
        set_field lenient ascii_runtime recursionlimit image_flags
                  Platform.ESP82 "save_state" save_state (VInt (-1)) 0 world0
        = (Ret dobj', w')
        /\ raw_word ascii_runtime fmt_L image_flags 0x010 = 2
        /\ raw_word ascii_runtime fmt_L dobj' 0x010 = 0).
Proof.
  split; [reflexivity|]. split; [reflexivity|].
  split; [reflexivity|]. split; [reflexivity|].
  split.
  { eexists. split; [vm_compute; reflexivity|].
    split; vm_compute; reflexivity. }
  split; [vm_compute; reflexivity|].
  eexists. eexists. split; [vm_compute; reflexivity|].
  split; vm_compute; reflexivity.
Qed.

(** ** Settings helpers: [bitsread] *)

Lemma shiftl_1_ones (n : Z) : 0 <= n -> Z.shiftl 1 n - 1 = Z.ones n.
Proof.
  intros Hn. rewrite Z.shiftl_1_l, Z.ones_equiv. lia.
Qed.

(** X1. [bitsread] with a positive bit count returns the [bits] bits of
    [value] from position [pos] on, as a number in [[0, 2 ^ bits)]; a
    negative position shifts the value up instead.  This holds for negative
    values too. *)
Theorem bitsread_value (value pos bits : Z) :
  0 < bits ->
  bitsread value pos bits
  = (if 0 <=? pos then value / 2 ^ pos else value * 2 ^ (- pos)) mod 2 ^ bits
  /\ 0 <= bitsread value pos bits < 2 ^ bits.
Proof.
  intros Hbits.
  assert (E : bitsread value pos bits
              = (if 0 <=? pos then value / 2 ^ pos else value * 2 ^ (- pos))
                mod 2 ^ bits).
  { unfold bitsread.
    replace (bits >? 0) with true by (symmetry; apply Z.gtb_lt; lia).
    rewrite shiftl_1_ones, Z.land_ones by lia.
    f_equal. rewrite Z.geb_leb.
    destruct (0 <=? pos) eqn:Hpos.
    - apply Z.leb_le in Hpos. apply Z.shiftr_div_pow2. exact Hpos.
    - apply Z.leb_gt in Hpos. rewrite Z.shiftl_mul_pow2 by lia.
      f_equal. f_equal. lia. }
  split; [exact E|]. rewrite E. apply Z.mod_pos_bound.
  apply Z.pow_pos_nonneg; lia.
Qed.

Lemma bitsread_value_witness :
  bitsread (-6) 1 2 = (if 0 <=? 1 then (-6) / 2 ^ 1 else (-6) * 2 ^ (- 1)) mod 2 ^ 2
  /\ 0 <= bitsread (-6) 1 2 < 2 ^ 2.
Proof. apply (bitsread_value (-6) 1 2). lia. Defined.

(** ** Integrity layer: the CRC32 *)

Lemma get_settingcrc32_app (body t t' : list Z) :
  List.length t = 4%nat -> List.length t' = 4%nat ->
  get_settingcrc32 (body ++ t) = get_settingcrc32 (body ++ t').
Proof.
  intros Ht Ht'. unfold get_settingcrc32. rewrite !length_app, Ht, Ht'.
  replace (List.length body + 4 - 4)%nat with (List.length body + 0)%nat by lia.
  rewrite !firstn_app_2. cbn [firstn]. reflexivity.
Qed.

Lemma get_settingcrc32_range (dobj : list Z) :
  0 <= get_settingcrc32 dobj < 2 ^ 32.
Proof.
  unfold get_settingcrc32. change 0xffffffff with (Z.ones 32).
  rewrite Z.land_ones by lia. apply Z.mod_pos_bound. lia.
Qed.

(** X2. The CRC32 of an image does not depend on its last four bytes (where the
    tables keep [cfg_crc32]), and is a 32-bit number. *)
Theorem get_settingcrc32_trailer (body t t' : list Z) :
  List.length t = 4%nat -> List.length t' = 4%nat ->
  get_settingcrc32 (body ++ t) = get_settingcrc32 (body ++ t')
  /\ 0 <= get_settingcrc32 (body ++ t) < 2 ^ 32.
Proof.
  intros Ht Ht'. split.
  - apply get_settingcrc32_app; assumption.
  - apply get_settingcrc32_range.
Qed.

Lemma get_settingcrc32_trailer_witness :
  get_settingcrc32 ([1; 2; 3] ++ [0; 0; 0; 0])
  = get_settingcrc32 ([1; 2; 3] ++ [9; 9; 9; 9])
  /\ 0 <= get_settingcrc32 ([1; 2; 3] ++ [0; 0; 0; 0]) < 2 ^ 32.
Proof.
  apply (get_settingcrc32_trailer [1; 2; 3] [0; 0; 0; 0] [9; 9; 9; 9]);
    reflexivity.
Defined.

(** ** File classifier: the other answers *)

Lemma existsb_eqb_In (size : Z) (l : list Z) :
  existsb (Z.eqb size) l = true <-> In size l.
Proof.
  rewrite existsb_exists. split.
  - intros [x [Hin Heq]]. apply Z.eqb_eq in Heq. subst x. exact Hin.
  - intros Hin. exists size. split; [exact Hin | apply Z.eqb_refl].
Qed.

Lemma templatesizes_In (SETTINGS : settings) (size : Z) :
  existsb (Z.eqb size) (get_templatesizes SETTINGS) = true
  <-> In size (map cfg_size SETTINGS).
Proof.
  rewrite existsb_eqb_In. unfold get_templatesizes. apply nodup_In.
Qed.

(** X3. [get_filetype] never answers [UNKNOWN] or [INCOMPLETE_JSON], whatever
    the file and the registry: a file that cannot be opened or sized is
    [FILE_NOT_FOUND], every other file gets one of the five remaining
    types. *)
Theorem get_filetype_never_unknown (rt : runtime) (SETTINGS : settings)
    (file : fileprobe) :
  get_filetype rt SETTINGS file <> UNKNOWN
  /\ get_filetype rt SETTINGS file <> INCOMPLETE_JSON
  /\ (fp_content file = None -> get_filetype rt SETTINGS file = FILE_NOT_FOUND).
Proof.
  unfold get_filetype.
  destruct (fp_content file) as [content|]; [|repeat split; discriminate].
  split; [|split; [|discriminate]].
  - destruct (rt_json_load rt content) as [v|[]]; try discriminate.
    destruct (fp_getsize file) as [size|]; [|discriminate].
    destruct (existsb _ _); [discriminate|].
    destruct (existsb _ _); [|discriminate].
    destruct (unpack_header rt content 0) as [first|e]; [|discriminate].
    destruct (py_eq_int first BINARYFILE_MAGIC); [discriminate|].
    destruct (unpack_header rt content _) as [last|e]; [|discriminate].
    destruct (py_eq_int last BINARYFILE_MAGIC); discriminate.
  - destruct (rt_json_load rt content) as [v|[]]; try discriminate.
    destruct (fp_getsize file) as [size|]; [|discriminate].
    destruct (existsb _ _); [discriminate|].
    destruct (existsb _ _); [|discriminate].
    destruct (unpack_header rt content 0) as [first|e]; [|discriminate].
    destruct (py_eq_int first BINARYFILE_MAGIC); [discriminate|].
    destruct (unpack_header rt content _) as [last|e]; [|discriminate].
    destruct (py_eq_int last BINARYFILE_MAGIC); discriminate.
Qed.

(** X4. [get_filetype] answers [DMP] exactly for a readable file on which
    [json.load] raises [ValueError] and whose size is the size of some
    table; the content is not looked at any further.  A file that parses
    as JSON is [JSON] even when its size is a table size. *)
Theorem get_filetype_dmp (rt : runtime) (SETTINGS : settings)
    (file : fileprobe) :
  (get_filetype rt SETTINGS file = DMP <->
   exists content size,
     fp_content file = Some content
     /\ rt_json_load rt content = PyExc ValueError
     /\ fp_getsize file = Some size
     /\ In size (map cfg_size SETTINGS))
  /\ (get_filetype rt SETTINGS file = JSON <->
      exists content v,
        fp_content file = Some content /\ rt_json_load rt content = PyOk v).
Proof.
  unfold get_filetype. split.
  - split.
    + destruct (fp_content file) as [content|]; [|discriminate].
      destruct (rt_json_load rt content) as [v|[]] eqn:Hj; try discriminate.
      destruct (fp_getsize file) as [size|]; [|discriminate].
      destruct (existsb (Z.eqb size) _) eqn:E.
      * intros _. exists content, size. apply templatesizes_In in E.
        repeat split; try reflexivity; assumption.
      * clear E. destruct (existsb _ _); [|discriminate].
        destruct (unpack_header rt content 0) as [first|e]; [|discriminate].
        destruct (py_eq_int first BINARYFILE_MAGIC); [discriminate|].
        destruct (unpack_header rt content _) as [last|e]; [|discriminate].
        destruct (py_eq_int last BINARYFILE_MAGIC); discriminate.
    + intros [content [size [-> [-> [-> Hin]]]]].
      apply templatesizes_In in Hin. rewrite Hin. reflexivity.
  - split.
    + destruct (fp_content file) as [content|]; [|discriminate].
      destruct (rt_json_load rt content) as [v|[]] eqn:Hj; try discriminate.
      * intros _. exists content, v. split; [reflexivity | exact Hj].
      * destruct (fp_getsize file) as [size|]; [|discriminate].
        destruct (existsb _ _); [discriminate|].
        destruct (existsb _ _); [|discriminate].
        destruct (unpack_header rt content 0) as [first|e]; [|discriminate].
        destruct (py_eq_int first BINARYFILE_MAGIC); [discriminate|].
        destruct (unpack_header rt content _) as [last|e]; [|discriminate].
        destruct (py_eq_int last BINARYFILE_MAGIC); discriminate.
    + intros [content [v [-> ->]]]. reflexivity.
Qed.

Lemma unpack_header_word (rt : runtime) (inputbin : list Z) (offset : Z) :
  0 <= offset -> offset + 4 <= Z.of_nat (List.length inputbin) ->
  unpack_header rt inputbin offset
  = PyOk (VInt (le_value (buf_read inputbin offset 4))).
Proof.
  intros H0 H1. unfold unpack_header.
  rewrite unpack_from_int; [|reflexivity | exact H0 | cbn; lia | cbn; lia].
  cbn [pbind]. reflexivity.
Qed.

(** X5. For a readable file of at least four bytes on which [json.load]
    fails and whose size is a table size plus the four bytes of the marker
    (and no table size itself): when [json.load] raised [ValueError] the
    file is [BIN] if its first or its last four bytes hold
    [BINARYFILE_MAGIC] in little-endian order, and [INVALID_BIN]
    otherwise; when it raised anything else the file is
    [FILE_NOT_FOUND]. *)
Theorem get_filetype_bin (rt : runtime) (SETTINGS : settings)
    (file : fileprobe) (content : list Z) (size : Z) (e : exn) :
  fp_content file = Some content ->
  rt_json_load rt content = PyExc e ->
  fp_getsize file = Some size ->
  ~ In size (map cfg_size SETTINGS) ->
  In (size - 4) (map cfg_size SETTINGS) ->
  (4 <= List.length content)%nat ->
  get_filetype rt SETTINGS file
  = match e with
    | ValueError =>
        if (le_value (buf_read content 0 4) =? BINARYFILE_MAGIC)
           || (le_value (buf_read content (Z.of_nat (List.length content) - 4) 4)
               =? BINARYFILE_MAGIC)
        then BIN else INVALID_BIN
    | _ => FILE_NOT_FOUND
    end.
Proof.
  intros Hopen Hjson Hsize Hexact Hmarker Hlen.
  unfold get_filetype. rewrite Hopen, Hjson.
  destruct e; try reflexivity.
  rewrite Hsize.
  rewrite (existsb_eqb_templatesizes SETTINGS size Hexact).
  change (calcsize rt (mkfmt LittleEndian None CL)) with 4.
  apply templatesizes_In in Hmarker. rewrite Hmarker.
  rewrite !unpack_header_word by lia.
  cbn [py_eq_int].
  destruct (_ =? BINARYFILE_MAGIC); reflexivity.
Qed.

(** ** Group filter *)

(** X6. With a filter, a field of group [g] takes part exactly when [g] is the
    virtual group ["*"] or its title-cased name is one of the title-cased
    filter names (so the test the script makes for [INTERNAL] adds
    nothing); a field without group never does; and without a filter every
    field does. *)
Theorem is_filtergroup_spec (ARGS : args) (rt : runtime) (flt : list string) :
  filter ARGS = Some flt ->
  (forall g,
     is_filtergroup ARGS rt (Some g)
     = String.eqb g VIRTUAL
       || existsb (String.eqb (rt_title rt g)) (map (rt_title rt) flt))
  /\ is_filtergroup ARGS rt None = false.
Proof.
  intros Hflt. unfold is_filtergroup. rewrite Hflt. split; [|reflexivity].
  intros g. destruct (String.eqb g VIRTUAL); [reflexivity|]. cbn [orb].
  destruct (String.eqb (rt_title rt g) (rt_title rt INTERNAL)) eqn:E.
  - apply String.eqb_eq in E. rewrite E.
    destruct (existsb _ _); reflexivity.
  - rewrite andb_false_r. cbn [orb].
    destruct (existsb _ _); reflexivity.
Qed.

Lemma get_filetype_bin_witness :
  get_filetype ascii_runtime SETTINGS_structural bin_file = BIN.
Proof.
  apply (get_filetype_bin ascii_runtime SETTINGS_structural bin_file
           (le_bytes 4 BINARYFILE_MAGIC ++ zeros 0x1000) 0x1004 ValueError).
  - reflexivity.
  - reflexivity.
  - reflexivity.
  - apply not_in_sizes. vm_compute. reflexivity.
  - apply existsb_eqb_In. vm_compute. reflexivity.
  - apply Nat.leb_le. vm_compute. reflexivity.
Defined.

Lemma is_filtergroup_spec_witness :
  (forall g,
     is_filtergroup only_wifi ascii_runtime (Some g)
     = String.eqb g VIRTUAL
       || existsb (String.eqb (rt_title ascii_runtime g))
                  (map (rt_title ascii_runtime) ["Wifi"]))
  /\ is_filtergroup only_wifi ascii_runtime None = false.
Proof. apply (is_filtergroup_spec only_wifi ascii_runtime ["Wifi"]). reflexivity. Defined.

(** ** Schema registry: edge cases *)

Lemma buf_offset_short (len off size : Z) :
  0 <= off -> len < off + size -> buf_offset len off size = PyExc StructError.
Proof.
  intros H0 H1. unfold buf_offset.
  assert (E : (off <? 0) = false) by (apply Z.ltb_ge; lia).
  assert (E2 : (len - off <? size) = true) by (apply Z.ltb_lt; lia).
  cbv zeta. rewrite E. cbv iota. rewrite E, E2. reflexivity.
Qed.

(** X7. An image of fewer than 12 bytes has no room for the version word:
    [get_config_info] ends in the [struct.error] of [unpack_from], which it
    does not catch, and prints nothing. *)
Theorem get_config_info_short_image (ARGS : args) (rt : runtime)
    (SETTINGS : settings) (decode_cfg : list Z) (w : world) :
  (List.length decode_cfg < 12)%nat ->
  get_config_info ARGS rt SETTINGS decode_cfg w = (Raise StructError, w).
Proof.
  intros Hlen. unfold get_config_info. unfold bind at 1.
  replace (get_field ARGS rt recursionlimit decode_cfg Platform.ALL
             (Some "version") version_fielddef true 0 true w)
    with (@Raise pyval StructError, w); [reflexivity|].
  unfold recursionlimit.
  cbn [get_field version_fielddef platform_ arraydef format_ group strindex
       baseaddr].
  change (Z.land Platform.ALL Platform.ALL =? 0) with false. cbv iota.
  cbn [negb andb].
  cbn [get_fieldlength arraydef format_ version_fielddef].
  change (calcsize rt {| f_order := LittleEndian; f_count := None;
                         f_code := CL |}) with 4.
  unfold bind at 1. cbn [lift ret]. unfold ret at 1.
  change (negb (4 =? 0)) with true. cbv iota.
  unfold bind. fold version_fielddef.
  unfold get_fieldvalue, unpack_from.
  cbn [format_ version_fielddef f_code f_order f_count].
  change (calcsize rt {| f_order := LittleEndian; f_count := None;
                         f_code := CL |}) with 4.
  rewrite buf_offset_short by lia.
  reflexivity.
Qed.

Lemma get_config_info_short_image_witness :
  get_config_info strict ascii_runtime SETTINGS_structural (zeros 11) world0
  = (Raise StructError, world0).
Proof.
  apply (get_config_info_short_image strict ascii_runtime SETTINGS_structural
           (zeros 11) world0).
  vm_compute. lia.
Defined.

Lemma NoDup_map_injective {A B} (f : A -> B) (l : list A) (a b : A) :
  NoDup (map f l) -> In a l -> In b l -> f a = f b -> a = b.
Proof.
  induction l as [|h l IH]; cbn [map In]; intros Hnd Ha Hb Heq; [contradiction|].
  inversion Hnd as [|x xs Hnotin Hnd']; subst.
  destruct Ha as [-> | Ha], Hb as [-> | Hb].
  - reflexivity.
  - exfalso. apply Hnotin. rewrite Heq. apply in_map. exact Hb.
  - exfalso. apply Hnotin. rewrite <- Heq. apply in_map. exact Ha.
  - apply IH; assumption.
Qed.

Lemma first_supported_permutation (v : Z) (S1 S2 : settings) :
  Permutation S1 S2 -> NoDup (map cfg_version S1) ->
  first_supported v S1 = first_supported v S2.
Proof.
  intros Hperm Hnd.
  destruct (first_supported v S1) as [c1|] eqn:H1;
    destruct (first_supported v S2) as [c2|] eqn:H2.
  - apply first_supported_some in H1. destruct H1 as [Hin1 [Hle1 Hmax1]].
    apply first_supported_some in H2. destruct H2 as [Hin2 [Hle2 Hmax2]].
    f_equal. apply (NoDup_map_injective cfg_version S1); try assumption.
    + apply (Permutation_in c2 (Permutation_sym Hperm)). exact Hin2.
    + apply Z.le_antisymm.
      * apply Hmax2; [apply (Permutation_in c1 Hperm); exact Hin1 | exact Hle1].
      * apply Hmax1;
          [apply (Permutation_in c2 (Permutation_sym Hperm)); exact Hin2
          | exact Hle2].
  - apply first_supported_some in H1. destruct H1 as [Hin1 [Hle1 _]].
    pose proof (proj1 (first_supported_none v S2) H2 c1
                  (Permutation_in c1 Hperm Hin1)). lia.
  - apply first_supported_some in H2. destruct H2 as [Hin2 [Hle2 _]].
    pose proof (proj1 (first_supported_none v S1) H1 c2
                  (Permutation_in c2 (Permutation_sym Hperm) Hin2)). lia.
  - reflexivity.
Qed.

(** X8. When no two registry entries have the same version, the order of the
    registry does not matter: [get_config_info] gives the same outcome and
    the same messages for every permutation of it. *)
Theorem get_config_info_order_independent (ARGS : args) (rt : runtime)
    (S1 S2 : settings) (decode_cfg : list Z) (w : world) :
  Permutation S1 S2 -> NoDup (map cfg_version S1) ->
  get_config_info ARGS rt S1 decode_cfg w
  = get_config_info ARGS rt S2 decode_cfg w.
Proof.
  intros Hperm Hnd. unfold get_config_info.
  apply bind_run_ext. intros v w1.
  apply bind_run_ext. intros version w2.
  rewrite (first_supported_permutation version S1 S2 Hperm Hnd).
  reflexivity.
Qed.

Lemma NoDup_by_nodup (l : list Z) : nodup Z.eq_dec l = l -> NoDup l.
Proof. intros <-. apply NoDup_nodup. Qed.

Lemma get_config_info_order_independent_witness :
  get_config_info strict ascii_runtime SETTINGS_structural image_8_2_0_1 world0
  = get_config_info strict ascii_runtime (rev SETTINGS_structural)
                    image_8_2_0_1 world0.
Proof.
  apply (get_config_info_order_independent strict ascii_runtime
           SETTINGS_structural (rev SETTINGS_structural) image_8_2_0_1 world0).
  - apply Permutation_rev.
  - apply NoDup_by_nodup. vm_compute. reflexivity.
Defined.

(** ** Field codec: what [set_field] leaves alone *)

Lemma yields_ret {A} (P : A -> Prop) (a : A) : P a -> yields P (ret a).
Proof. intros HP w a' w' H. injection H as <- _. exact HP. Qed.

Lemma yields_raise {A} (P : A -> Prop) (e : exn) : yields P (@raise A e).
Proof. intros w a w' H. discriminate H. Qed.

Lemma yields_bind {A B} (Q : A -> Prop) (P : B -> Prop) (m : M A)
    (k : A -> M B) :
  yields Q m -> (forall a, Q a -> yields P (k a)) -> yields P (bind m k).
Proof.
  intros Hm Hk w b w' H. unfold bind in H.
  destruct (m w) as [[a|s|e] w0] eqn:E; try discriminate H.
  exact (Hk a (Hm w a w0 E) w0 b w' H).
Qed.

Lemma yields_any {A} (m : M A) : yields (fun _ => True) m.
Proof. intros w a w' _. exact I. Qed.

Lemma yields_then {A B} (P : B -> Prop) (m : M A) (k : A -> M B) :
  (forall a, yields P (k a)) -> yields P (bind m k).
Proof.
  intros Hk. apply (yields_bind (fun _ => True)); [apply yields_any|].
  intros a _. apply Hk.
Qed.

Lemma yields_for_each {A S} (I : S -> Prop) (l : list A)
    (body : A -> S -> M (bool * S)) :
  (forall a s, I s -> yields (fun r => I (snd r)) (body a s)) ->
  forall s, I s -> yields I (for_each l body s).
Proof.
  intros Hbody. induction l as [|a l IH]; intros s Hs; cbn [for_each].
  - apply yields_ret. exact Hs.
  - apply (yields_bind (fun r => I (snd r))); [apply Hbody; exact Hs|].
    intros [go s'] Hs'. cbn [fst snd] in *.
    destruct go; [apply IH; exact Hs' | apply yields_ret; exact Hs'].
Qed.

Lemma buf_offset_ok (len offset size off : Z) :
  buf_offset len offset size = PyOk off -> 0 <= off /\ off + size <= len.
Proof.
  unfold buf_offset. cbv zeta.
  destruct ((_ <? 0) || (_ <? size)) eqn:E; [discriminate|].
  intros H. injection H as <-.
  apply orb_false_iff in E. destruct E as [E1 E2].
  apply Z.ltb_ge in E1. apply Z.ltb_ge in E2. lia.
Qed.

Lemma buf_write_nil (dobj : list Z) (off : Z) : buf_write dobj off [] = dobj.
Proof.
  unfold buf_write. cbn [List.length app]. rewrite Nat.add_0_r.
  apply firstn_skipn.
Qed.

Lemma pad_to_length (n : nat) (l : list Z) : List.length (pad_to n l) = n.
Proof.
  unfold pad_to, zeros. rewrite length_app, length_firstn, repeat_length. lia.
Qed.

Lemma buf_write_room (dobj : list Z) (off size : Z) (data : list Z) :
  0 <= off -> off + size <= Z.of_nat (List.length dobj) ->
  (List.length data <= Z.to_nat size)%nat ->
  List.length (buf_write dobj off data) = List.length dobj.
Proof.
  intros H0 H1 Hdata.
  destruct (Z.le_gt_cases 0 size) as [Hpos | Hneg].
  - apply buf_write_length; lia.
  - assert (Hnil : data = []).
    { destruct data; [reflexivity|]. cbn [List.length] in Hdata. lia. }
    rewrite Hnil. rewrite buf_write_nil. reflexivity.
Qed.

(** Whether it returns or raises, [struct.pack_into] leaves a buffer of
    the same length. *)
Lemma pack_into_int_length (rt : runtime) (ft : formattype) (dobj : list Z)
    (addr val : Z) :
  match pack_into_int rt ft dobj addr val with
  | Packed d' | PackError _ d' => List.length d' = List.length dobj
  end.
Proof.
  unfold pack_into_int. destruct ft as [o|o c]; [reflexivity|]. cbv zeta.
  destruct (buf_offset _ addr _) as [off|e] eqn:E; [|reflexivity].
  apply buf_offset_ok in E.
  assert (Hc : List.length (buf_write dobj off
                              (zeros (Z.to_nat (code_size rt o c))))
               = List.length dobj).
  { apply (buf_write_room _ _ (code_size rt o c)); rewrite ?zeros_length; lia. }
  destruct (pack_item rt o c val) as [data|e]; [|exact Hc].
  rewrite <- Hc. apply (buf_write_room _ _ (code_size rt o c));
    rewrite ?Hc, ?length_firstn; lia.
Qed.

Lemma pack_into_str_length (rt : runtime) (fmt : sformat) (dobj : list Z)
    (addr : Z) (value : pyval) :
  match pack_into_str rt fmt dobj addr value with
  | Packed d' | PackError _ d' => List.length d' = List.length dobj
  end.
Proof.
  unfold pack_into_str. cbv zeta.
  destruct (buf_offset _ addr _) as [off|e] eqn:E; [|reflexivity].
  apply buf_offset_ok in E.
  assert (Hc : List.length (buf_write dobj off
                              (zeros (Z.to_nat (calcsize rt fmt))))
               = List.length dobj).
  { apply (buf_write_room _ _ (calcsize rt fmt)); rewrite ?zeros_length; lia. }
  destruct value; try exact Hc.
  apply (buf_write_room _ _ (calcsize rt fmt)); try lia.
  destruct (f_code fmt); try (rewrite pad_to_length; lia).
  destruct (Z.to_nat (calcsize rt fmt)) as [|m]; [cbn; lia|].
  cbn [List.length]. rewrite pad_to_length. lia.
Qed.

Lemma yields_exit_then {A} (P : A -> Prop) (status : Z) (msg : msgtext)
    (t : LogType) (doexit : bool) (a : A) :
  P a -> yields P (exit_ status msg t doexit ;;; ret a).
Proof. intros HP. apply yields_then. intros _. apply yields_ret. exact HP. Qed.

Lemma set_items_length (ARGS : args) (rt : runtime) (singletype : formattype)
    (bitsize : Z) (n : nat) :
  forall dobj addr value,
    yields (fun d' => List.length d' = List.length dobj)
           (set_items ARGS rt singletype bitsize n dobj addr value).
Proof.
  induction n as [|n IH]; intros dobj addr value; cbn [set_items].
  - apply yields_ret. reflexivity.
  - cbv zeta.
    apply (yields_bind (fun d' => List.length d' = List.length dobj)).
    + match goal with
      | |- context [pack_into_int rt singletype dobj ?a ?x] =>
          pose proof (pack_into_int_length rt singletype dobj a x) as Hlen;
          destruct (pack_into_int rt singletype dobj a x) as [d1|e d1]
      end.
      * apply yields_ret. exact Hlen.
      * destruct e; try apply yields_raise.
        apply yields_exit_then. exact Hlen.
    + intros d1 Hd1. rewrite <- Hd1. apply IH.
Qed.

Lemma set_fieldvalue_length (ARGS : args) (rt : runtime) (fd : fielddef)
    (dobj : list Z) (addr : Z) (value : pyval) :
  yields (fun d' => List.length d' = List.length dobj)
         (set_fieldvalue ARGS rt fd dobj addr value).
Proof.
  unfold set_fieldvalue. destruct (format_ fd) as [fmt|setting];
    [|apply yields_raise].
  destruct (get_formattype rt fmt) as [singletype bitsize].
  destruct (negb (is_strcode (f_code fmt))).
  - destruct (Z.to_nat (get_formatcount fmt)) as [|n];
      [apply yields_ret; reflexivity|].
    apply yields_then. intros v. apply set_items_length.
  - pose proof (pack_into_str_length rt fmt dobj addr value) as Hlen.
    destruct (pack_into_str rt fmt dobj addr value) as [d1|e d1].
    + apply yields_ret. exact Hlen.
    + destruct e; try apply yields_raise.
      apply yields_exit_then. exact Hlen.
Qed.

Lemma set_simple_length (ARGS : args) (rt : runtime) (depth : nat)
    (dobj : list Z) (fieldname : string) (fd : fielddef) (fmt : sformat)
    (restoremapping : pyval) (addroffset : Z) :
  yields (fun d' => List.length d' = List.length dobj)
         (set_simple ARGS rt depth dobj fieldname fd fmt restoremapping
                     addroffset).
Proof.
  unfold set_simple. apply yields_then. intros p. cbv zeta.
  apply yields_then. intros [valid err_text].
  destruct (py_truthy valid); [|apply yields_exit_then; reflexivity].
  destruct (negb (p_skip p)); [|apply yields_ret; reflexivity].
  destruct (negb (special_field fieldname)); [|apply yields_ret; reflexivity].
  apply (yields_bind (fun r => List.length (fst r) = List.length dobj)).
  - destruct (strindex fd).
    + apply (yields_bind (fun d' => List.length d' = List.length dobj));
        [apply set_fieldvalue_length|].
      intros d1 Hd1. destruct (p_prevcur p);
        [apply yields_ret; exact Hd1 | apply yields_raise].
    + apply yields_then. intros prev.
      apply (yields_bind (fun d' => List.length d' = List.length dobj));
        [apply set_fieldvalue_length|].
      intros d1 Hd1. apply yields_then. intros cur.
      apply yields_ret. exact Hd1.
  - intros [d1 [prev cur]] Hd1. cbn [fst] in Hd1.
    apply yields_then. intros _. apply yields_ret. exact Hd1.
Qed.

Lemma set_field_length (ARGS : args) (rt : runtime) (depth : nat) :
  forall dobj platform_bits fieldname fd restoremapping addroffset,
    yields (fun d' => List.length d' = List.length dobj)
           (set_field ARGS rt depth dobj platform_bits fieldname fd
                      restoremapping addroffset).
Proof.
  induction depth as [|d IH]; intros; cbn [set_field].
  - apply yields_raise.
  - destruct (_ =? 0); [apply yields_ret; reflexivity|].
    destruct (negb _); [apply yields_ret; reflexivity|].
    destruct (is_false _); [apply yields_ret; reflexivity|].
    destruct (arraydef fd) as [|n dims].
    + destruct (format_ fd) as [fmt|setting].
      * apply set_simple_length.
      * apply (yields_for_each (fun d' => List.length d' = List.length dobj));
          [|reflexivity].
        intros nf d1 Hd1. apply yields_then. intros restoremap.
        destruct (negb (is_none restoremap)).
        -- apply (yields_bind (fun d' => List.length d' = List.length d1));
             [apply IH|].
           intros d2 Hd2. apply yields_ret. cbn [snd]. congruence.
        -- apply yields_ret. exact Hd1.
    + apply yields_then. intros len. apply yields_then. intros _.
      apply (yields_bind (fun r => List.length (fst r) = List.length dobj)).
      * apply (yields_for_each
                 (fun st : list Z * Z => List.length (fst st) = List.length dobj));
          [|reflexivity].
        intros i [d1 off] Hd1. cbn [fst] in Hd1.
        apply yields_then. intros sub. apply yields_then. intros length.
        destruct (negb (length =? 0)).
        -- apply yields_then. intros len'.
           destruct (i >=? len'); [apply yields_ret; exact Hd1|].
           apply yields_then. intros subrestore.
           apply (yields_bind (fun d' => List.length d' = List.length d1));
             [apply IH|].
           intros d2 Hd2. apply yields_ret. cbn [snd fst]. congruence.
        -- apply yields_ret. exact Hd1.
      * intros r Hr. apply yields_ret. exact Hr.
Qed.

(** X9. [set_field] never changes the size of the image: whatever the field
    definition and the restore value, a buffer it returns has the length of
    the one it was given. *)
Theorem set_field_preserves_length (ARGS : args) (rt : runtime) (depth : nat)
    (dobj : list Z) (platform_bits : Z) (fieldname : string) (fd : fielddef)
    (restoremapping : pyval) (addroffset : Z) (w w' : world) (dobj' : list Z) :
  set_field ARGS rt depth dobj platform_bits fieldname fd restoremapping
            addroffset w = (Ret dobj', w') ->
  List.length dobj' = List.length dobj.
Proof.
  intros H.
  exact (set_field_length ARGS rt depth dobj platform_bits fieldname fd
           restoremapping addroffset w dobj' w' H).
Qed.

Lemma set_field_preserves_length_witness :
  List.length (buf_write (zeros 0x500) 0x484 [1; 2; 3])
  = List.length (zeros 0x500).
Proof.
  apply (set_field_preserves_length strict ascii_runtime 5 (zeros 0x500)
           Platform.ESP82 "my_gp" my_gp (VList values_3) 0 world0 world0).
  vm_compute. reflexivity.
Defined.

(** X10. The fields named [cfg_crc], [cfg_crc32], [cfg_timestamp] and [_] are
    never written by a restore: for a simple (non-array, non-dict) field of
    one of these names the restore value is still converted and validated,
    but a buffer [set_field] returns is the one it was given. *)
Theorem set_field_special_unchanged (ARGS : args) (rt : runtime) (d : nat)
    (dobj : list Z) (platform_bits : Z) (fieldname : string) (fd : fielddef)
    (fmt : sformat) (restoremapping : pyval) (addroffset : Z)
    (w w' : world) (dobj' : list Z) :
  special_field fieldname = true ->
  format_ fd = FStruct fmt ->
  arraydef fd = [] ->
  set_field ARGS rt (S d) dobj platform_bits fieldname fd restoremapping
            addroffset w = (Ret dobj', w') ->
  dobj' = dobj.
Proof.
  intros Hname Hfmt Harr.
  cut (yields (fun d' => d' = dobj)
         (set_field ARGS rt (S d) dobj platform_bits fieldname fd
                    restoremapping addroffset)).
  { intros Hy H. exact (Hy w dobj' w' H). }
  cbn [set_field].
  destruct (_ =? 0); [apply yields_ret; reflexivity|].
  destruct (negb _); [apply yields_ret; reflexivity|].
  destruct (is_false _); [apply yields_ret; reflexivity|].
  rewrite Harr, Hfmt. unfold set_simple.
  apply yields_then. intros p. cbv zeta.
  apply yields_then. intros [valid err_text].
  destruct (py_truthy valid); [|apply yields_exit_then; reflexivity].
  destruct (negb (p_skip p)); [|apply yields_ret; reflexivity].
  rewrite Hname. cbn [negb]. apply yields_ret. reflexivity.
Qed.

Lemma set_field_special_unchanged_witness :
  set_field strict ascii_runtime 2 (zeros 0x20) Platform.ESP82 "cfg_crc"
            cfg_crc_field (VInt 0x1234) 0 world0 = (Ret (zeros 0x20), world0)
  /\ zeros 0x20 = zeros 0x20.
Proof.
  split; [vm_compute; reflexivity|].
  apply (set_field_special_unchanged strict ascii_runtime 1 (zeros 0x20)
           Platform.ESP82 "cfg_crc" cfg_crc_field fmt_H (VInt 0x1234) 0
           world0 world0 (zeros 0x20)).
  - reflexivity.
  - reflexivity.
  - reflexivity.
  - vm_compute. reflexivity.
Defined.

(** ** Field codec: full-size integers *)

Lemma get_fieldvalue_word (rt : runtime) (d : nat) (fd : fielddef)
    (o : byteorder) (c : fcode) (dobj : list Z) (addr : Z) :
  format_ fd = FStruct (mkfmt o None c) ->
  is_intcode c = true ->
  0 <= addr ->
  0 < code_size rt o c ->
  addr + code_size rt o c <= Z.of_nat (List.length dobj) ->
  get_fieldvalue rt d fd dobj addr 0
  = PyOk (VInt (bitsread (signed_view c (8 * code_size rt o c)
                            (raw_word rt (mkfmt o None c) dobj addr))
                         (bitshift fd) (bits fd))).
Proof.
  intros Hfmt Hint H0 Hsz Hlen. unfold get_fieldvalue. rewrite Hfmt.
  rewrite unpack_from_int by assumption. cbn [pbind f_code].
  replace (is_strcode c) with false
    by (destruct c; try discriminate Hint; reflexivity).
  cbn [negb combine_values as_int pbind].
  rewrite Z.shiftl_0_l, Z.add_0_l. reflexivity.
Qed.

Lemma raw_word_stored (rt : runtime) (o : byteorder) (c : fcode)
    (dobj : list Z) (addr x : Z) :
  0 < code_size rt o c -> 0 <= addr ->
  addr + code_size rt o c <= Z.of_nat (List.length dobj) ->
  raw_word rt (mkfmt o None c)
    (buf_write dobj addr
       (ordered o (le_bytes (Z.to_nat (code_size rt o c)) x))) addr
  = x mod 2 ^ (8 * code_size rt o c).
Proof.
  intros Hsz H0 Hlen.
  unfold raw_word, calcsize, count_of. cbn [f_order f_code f_count].
  rewrite Z.mul_1_r.
  set (sz := code_size rt o c) in *.
  set (data := ordered o (le_bytes (Z.to_nat sz) x)).
  assert (Hdata : Z.of_nat (List.length data) = sz).
  { unfold data. rewrite ordered_length, le_bytes_length. apply Z2Nat.id. lia. }
  replace (buf_read (buf_write dobj addr data) addr sz) with data.
  2:{ rewrite <- Hdata at 1. symmetry. apply buf_read_write; lia. }
  unfold data. rewrite ordered_twice, le_value_le_bytes.
  rewrite Z2Nat.id by lia. apply Z.land_ones. lia.
Qed.

Lemma set_fieldvalue_int (ARGS : args) (rt : runtime) (fd : fielddef)
    (o : byteorder) (c : fcode) (dobj : list Z) (addr x : Z) (w : world) :
  format_ fd = FStruct (mkfmt o None c) ->
  is_intcode c = true ->
  0 < code_size rt o c ->
  0 <= addr ->
  addr + code_size rt o c <= Z.of_nat (List.length dobj) ->
  set_fieldvalue ARGS rt fd dobj addr (VInt x) w
  = match pack_item rt o c (item_value (code_size rt o c * 8) x) with
    | PyOk data => (Ret (buf_write dobj addr data), w)
    | PyExc StructError =>
        (exit_ ExitCode.RESTORE_DATA_ERROR (MsgPackError addr) WARNING
               (negb (ignorewarning ARGS)) ;;;
         ret (buf_write dobj addr (zeros (Z.to_nat (code_size rt o c))))) w
    | PyExc e => (Raise e, w)
    end.
Proof.
  intros Hfmt Hint Hsz H0 Hlen.
  unfold set_fieldvalue. rewrite Hfmt, get_formattype_single.
  cbn [f_code get_formatcount count_of f_count].
  replace (is_strcode c) with false
    by (destruct c; try discriminate Hint; reflexivity).
  cbn [negb]. change (Z.to_nat 1) with 1%nat. cbv iota.
  cbn [as_int lift]. unfold bind at 1. cbn [ret].
  cbn [set_items]. fold (item_value (code_size rt o c * 8) x).
  rewrite Z.div_mul by lia. rewrite Z.mul_1_r.
  replace (addr + code_size rt o c - code_size rt o c) with addr by lia.
  rewrite pack_into_int_inside by (try exact Hint; lia).
  destruct (pack_item rt o c (item_value (code_size rt o c * 8) x))
    as [data|[]]; try reflexivity; apply bind_ret_run.
Qed.

Lemma item_value_nonneg (bitsize x : Z) :
  0 <= bitsize -> 0 <= x -> item_value bitsize x = x mod 2 ^ bitsize.
Proof.
  intros Hb Hx. unfold item_value.
  replace (x <? 0) with false by (symmetry; apply Z.ltb_ge; lia).
  cbn [andb].
  replace (2 ^ bitsize - 1) with (Z.ones bitsize)
    by (rewrite Z.ones_equiv; lia).
  apply Z.land_ones. exact Hb.
Qed.

Lemma item_value_in_range (c : fcode) (bitsize x : Z) :
  0 < bitsize -> in_code_range c bitsize x -> item_value bitsize x = x.
Proof.
  intros Hb Hx. unfold item_value.
  replace (2 ^ bitsize - 1) with (Z.ones bitsize)
    by (rewrite Z.ones_equiv; lia).
  rewrite Z.land_ones by lia.
  rewrite Z.shiftr_div_pow2 by lia. change (2 ^ 1) with 2.
  assert (Hpow : 2 ^ bitsize = 2 * 2 ^ (bitsize - 1)).
  { rewrite <- Z.pow_succ_r by lia. f_equal. lia. }
  assert (Hpos : 0 < 2 ^ (bitsize - 1)) by (apply Z.pow_pos_nonneg; lia).
  assert (Hhalf : 2 ^ bitsize / 2 = 2 ^ (bitsize - 1)).
  { rewrite Hpow. rewrite Z.mul_comm. apply Z.div_mul. lia. }
  rewrite Hhalf. rewrite Z.ones_equiv.
  unfold in_code_range in Hx.
  destruct (Z.ltb_spec x 0) as [Hneg | Hnn]; cbn [andb].
  - assert (Hmod : x mod 2 ^ bitsize = x + 2 ^ bitsize).
    { symmetry. apply (Z.mod_unique_pos _ _ (-1)); [|lia].
      destruct (is_signed c); lia. }
    rewrite Hmod.
    destruct (is_signed c); [|lia].
    replace (x + 2 ^ bitsize >? 2 ^ (bitsize - 1) - 1) with true
      by (symmetry; apply Z.gtb_lt; lia).
    lia.
  - apply Z.mod_small. destruct (is_signed c); lia.
Qed.

Lemma pack_item_in_range (rt : runtime) (o : byteorder) (c : fcode) (val : Z) :
  is_intcode c = true ->
  0 < code_size rt o c ->
  in_code_range c (8 * code_size rt o c) val ->
  pack_item rt o c val
  = PyOk (ordered o (le_bytes (Z.to_nat (code_size rt o c)) val)).
Proof.
  intros Hint Hsz Hval. unfold in_code_range in Hval.
  destruct c; try discriminate Hint; unfold pack_item;
    cbn [is_signed] in *;
    match goal with
    | |- context [(?lo <=? val) && (val <=? ?hi)] =>
        replace (lo <=? val) with true by (symmetry; apply Z.leb_le; lia);
        replace (val <=? hi) with true by (symmetry; apply Z.leb_le; lia)
    end; reflexivity.
Qed.

Lemma signed_view_stored (c : fcode) (w v : Z) :
  0 < w -> in_code_range c w v -> signed_view c w (v mod 2 ^ w) = v.
Proof.
  intros Hw Hv. unfold signed_view, in_code_range in *.
  assert (Hpow : 2 ^ w = 2 * 2 ^ (w - 1)).
  { rewrite <- Z.pow_succ_r by lia. f_equal. lia. }
  assert (Hpos : 0 < 2 ^ (w - 1)) by (apply Z.pow_pos_nonneg; lia).
  destruct (is_signed c); cbn [andb].
  - destruct (Z.ltb_spec v 0) as [Hneg | Hnn].
    + assert (Hmod : v mod 2 ^ w = v + 2 ^ w).
      { symmetry. apply (Z.mod_unique_pos _ _ (-1)); lia. }
      rewrite Hmod.
      replace (2 ^ (w - 1) <=? v + 2 ^ w) with true
        by (symmetry; apply Z.leb_le; lia).
      lia.
    + rewrite Z.mod_small by lia.
      replace (2 ^ (w - 1) <=? v) with false
        by (symmetry; apply Z.leb_gt; lia).
      reflexivity.
  - apply Z.mod_small. lia.
Qed.

Section IntField.

Variables (ARGS : args) (rt : runtime) (d : nat) (dobj : list Z)
          (platform_bits : Z) (fieldname : string) (fd : fielddef)
          (o : byteorder) (c : fcode) (addroffset v : Z).

Hypothesis Hplat : (Z.land (platform_ fd) platform_bits =? 0) = false.
Hypothesis Hgroup : is_filtergroup ARGS rt (group fd) = true.
Hypothesis Hwrite : is_false (writeconverter fd) = false.
Hypothesis Hname : special_field fieldname = false.
Hypothesis Hfmt : format_ fd = FStruct (mkfmt o None c).
Hypothesis Hint : is_intcode c = true.
Hypothesis Hsz : 0 < code_size rt o c.
Hypothesis Harr : arraydef fd = [].
Hypothesis Hidx : strindex fd = None.
Hypothesis Hbits : bits fd = 0.
Hypothesis Hconv :
  forall w, readwrite_converter ARGS (VInt v) fd false false w
            = (Ret (VInt v), w).
Hypothesis Haddr :
  0 <= baseaddr fd + addroffset
  /\ baseaddr fd + addroffset + code_size rt o c <= Z.of_nat (List.length dobj).
Hypothesis Hvalid : py_truthy (validate_value (VInt v) fd) = true.

Lemma prepare_value_int (w : world) :
  exists min_ max_ err,
    prepare_value ARGS rt fd (mkfmt o None c) dobj (VInt v) addroffset w
    = (Ret (mkprepared (validate_value (VInt v) fd) (VInt v) false
                       min_ max_ err None), w).
Proof.
  unfold prepare_value.
  destruct (get_fieldminmax (mkfmt o None c)) as [min_ max_].
  exists min_, max_. cbn [f_code].
  assert (Hbranch :
    forall w0,
      (value <- readwrite_converter ARGS (VInt v) fd false false ;;
       value <- lift (py_int rt value) ;;
       if negb (bits fd =? 0) then
         lift (prepare_bits rt fd (mkfmt o None c) dobj addroffset min_ max_
                            value)
       else
         let valid := validate_value (VInt value) fd in
         ret (mkprepared valid (VInt value) false min_ max_
                (if negb (py_truthy valid) then "valid range exceeding"%string
                 else ""%string) None)) w0
      = (Ret (mkprepared (validate_value (VInt v) fd) (VInt v) false
                         min_ max_ "" None), w0)).
  { intros w0. unfold bind at 1. rewrite Hconv. cbn [py_int lift].
    unfold bind at 1. cbn [ret]. rewrite Hbits. cbn [Z.eqb negb].
    cbv zeta. rewrite Hvalid. reflexivity. }
  exists "". destruct c; try discriminate Hint; apply Hbranch.
Qed.

Lemma set_field_int_steps (w : world) :
  set_field ARGS rt (S d) dobj platform_bits fieldname fd (VInt v) addroffset w
  = (r <- (prevvalue <- lift (get_fieldvalue rt d fd dobj
                                (baseaddr fd + addroffset) 0) ;;
           dobj' <- set_fieldvalue ARGS rt fd dobj (baseaddr fd + addroffset)
                      (VInt v) ;;
           curvalue <- lift (get_fieldvalue rt d fd dobj'
                               (baseaddr fd + addroffset) 0) ;;
           ret (dobj', (prevvalue, curvalue))) ;;
     let '(dobj', (prevvalue, curvalue)) := r in
     (if py_ne prevvalue curvalue && verbose ARGS
      then message (MsgValueChanged fieldname) (Some INFO) None
      else ret tt) ;;;
     ret dobj') w.
Proof.
  cbn [set_field]. rewrite Hplat, Hgroup, Hwrite, Harr, Hfmt. cbn [negb].
  unfold set_simple. unfold bind at 1.
  destruct (prepare_value_int w) as [min_ [max_ [err Eprep]]]. rewrite Eprep.
  cbn [p_value p_skip p_valid p_err_text p_min p_max p_prevcur is_none andb negb].
  rewrite (truthy_not_none _ Hvalid). cbn [andb]. unfold bind at 1. cbn [ret].
  rewrite Hvalid, Hname, Hidx. cbn [negb].
  reflexivity.
Qed.

(** When the value packs, [set_field] returns the buffer with the packed
    bytes at the field's address. *)
Lemma set_field_int_run (w : world) (x : Z) :
  item_value (code_size rt o c * 8) v = x ->
  pack_item rt o c x
  = PyOk (ordered o (le_bytes (Z.to_nat (code_size rt o c)) x)) ->
  exists w',
    set_field ARGS rt (S d) dobj platform_bits fieldname fd (VInt v)
              addroffset w
    = (Ret (buf_write dobj (baseaddr fd + addroffset)
              (ordered o (le_bytes (Z.to_nat (code_size rt o c)) x))), w').
Proof.
  intros Hitem Hpack.
  destruct (get_fieldvalue_int rt d fd o c dobj (baseaddr fd + addroffset)
              Hfmt Hint) as [p Hp]; try lia.
  rewrite set_field_int_steps.
  unfold bind at 1. unfold bind at 1. rewrite Hp. cbn [lift ret].
  unfold bind at 1.
  rewrite (set_fieldvalue_int ARGS rt fd o c dobj (baseaddr fd + addroffset) v
             w Hfmt Hint Hsz) by lia.
  rewrite Hitem, Hpack.
  destruct (get_fieldvalue_int rt d fd o c
              (buf_write dobj (baseaddr fd + addroffset)
                 (ordered o (le_bytes (Z.to_nat (code_size rt o c)) x)))
              (baseaddr fd + addroffset) Hfmt Hint)
    as [q Hq]; try lia.
  { rewrite buf_write_length;
      rewrite ?ordered_length, ?le_bytes_length; lia. }
  unfold bind at 1. rewrite Hq. cbn [lift ret].
  destruct (py_ne (VInt p) (VInt q) && verbose ARGS); eexists; reflexivity.
Qed.

(** X11. For an unsigned integer field without bit range and a value [v >= 0]
    the validator accepts, [set_field] does not check [v] against the
    width of the field: it stores [v mod 2 ^ (8 * size)] (so a value that
    is too large is silently reduced), touches no byte outside the field
    and keeps the length of the image. *)
Theorem set_field_unsigned_wraps (w : world) :
  is_signed c = false ->
  0 <= v ->
  exists dobj' w',
    set_field ARGS rt (S d) dobj platform_bits fieldname fd (VInt v)
              addroffset w = (Ret dobj', w')
    /\ raw_word rt (mkfmt o None c) dobj' (baseaddr fd + addroffset)
       = v mod 2 ^ (8 * code_size rt o c)
    /\ List.length dobj' = List.length dobj
    /\ (forall k : nat,
          Z.of_nat k < baseaddr fd + addroffset
          \/ baseaddr fd + addroffset + code_size rt o c <= Z.of_nat k ->
          nth k dobj' 0 = nth k dobj 0).
Proof.
  intros Hun Hv.
  set (sz := code_size rt o c) in *.
  remember (v mod 2 ^ (8 * sz)) as x eqn:Hxdef.
  assert (Hx : 0 <= x < 2 ^ (8 * sz)).
  { rewrite Hxdef. apply Z.mod_pos_bound. apply Z.pow_pos_nonneg; lia. }
  assert (Hitem : item_value (sz * 8) v = x).
  { rewrite item_value_nonneg by lia. rewrite Hxdef. f_equal. f_equal. lia. }
  assert (Hpack : pack_item rt o c x
                  = PyOk (ordered o (le_bytes (Z.to_nat sz) x))).
  { apply pack_item_unsigned; [exact Hint | exact Hun | fold sz; lia]. }
  destruct (set_field_int_run w x Hitem Hpack) as [w' Hrun]. fold sz in Hrun.
  assert (Hdata : Z.of_nat (List.length (ordered o (le_bytes (Z.to_nat sz) x)))
                  = sz).
  { rewrite ordered_length, le_bytes_length. apply Z2Nat.id. lia. }
  eexists. exists w'. split; [exact Hrun|]. split; [|split].
  - unfold sz. rewrite raw_word_stored by (fold sz; lia).
    fold sz. apply Z.mod_small. exact Hx.
  - apply buf_write_length; rewrite ?Hdata; lia.
  - intros k Hk. apply buf_write_outside; rewrite ?Hdata; lia.
Qed.

End IntField.

Lemma readwrite_converter_none (ARGS : args) (value : pyval) (fd : fielddef)
    (read raw : bool) (w : world) :
  converter fd = NoConverter ->
  readwrite_converter ARGS value fd read raw w = (Ret value, w).
Proof.
  intros Hc. unfold readwrite_converter, has_converter. rewrite Hc.
  rewrite andb_false_r. reflexivity.
Qed.

Lemma get_field_word (ARGS : args) (rt : runtime) (d : nat) (dobj : list Z)
    (platform_bits : Z) (fieldname : option string) (fd : fielddef)
    (o : byteorder) (c : fcode) (raw : bool) (addroffset : Z) (w : world) :
  (Z.land (platform_ fd) platform_bits =? 0) = false ->
  is_filtergroup ARGS rt (group fd) = true ->
  format_ fd = FStruct (mkfmt o None c) ->
  is_intcode c = true ->
  0 < code_size rt o c ->
  arraydef fd = [] ->
  strindex fd = None ->
  converter fd = NoConverter ->
  0 <= baseaddr fd + addroffset
  /\ baseaddr fd + addroffset + code_size rt o c <= Z.of_nat (List.length dobj) ->
  get_field ARGS rt (S (S d)) dobj platform_bits fieldname fd raw addroffset
            false w
  = (Ret (VInt (bitsread
                  (signed_view c (8 * code_size rt o c)
                     (raw_word rt (mkfmt o None c) dobj
                        (baseaddr fd + addroffset)))
                  (bitshift fd) (bits fd))), w).
Proof.
  intros Hplat Hgroup Hfmt Hint Hsz Harr Hidx Hconv Haddr.
  cbn [get_field]. rewrite Hplat, Hgroup, Harr, Hfmt, Hidx. cbn [negb andb].
  cbn [get_fieldlength]. rewrite Harr, Hfmt.
  unfold bind at 1. cbn [lift ret].
  unfold calcsize, count_of. cbn [f_order f_code f_count]. rewrite Z.mul_1_r.
  replace (code_size rt o c =? 0) with false
    by (symmetry; apply Z.eqb_neq; lia).
  cbn [negb]. unfold bind at 1.
  rewrite (get_fieldvalue_word rt (S d) fd o c dobj (baseaddr fd + addroffset)
             Hfmt Hint) by lia.
  cbn [lift ret]. apply readwrite_converter_none. exact Hconv.
Qed.

Lemma bitsread_whole (x : Z) : bitsread x 0 0 = x.
Proof. unfold bitsread. cbn. apply Z.shiftr_0_r. Qed.

(** X12. Write then read of a full-size integer: for a field without converter
    and without bit range, and a value [v] within the range of the format
    that the validator accepts, [set_field] returns a buffer from which
    [get_field] reads [v] again (in raw mode or not), without a message. *)
Theorem set_get_int_roundtrip (ARGS : args) (rt : runtime) (d : nat)
    (dobj : list Z) (platform_bits : Z) (fieldname : string) (fd : fielddef)
    (o : byteorder) (c : fcode) (addroffset v : Z) (raw : bool) (w : world) :
  (Z.land (platform_ fd) platform_bits =? 0) = false ->
  is_filtergroup ARGS rt (group fd) = true ->
  special_field fieldname = false ->
  format_ fd = FStruct (mkfmt o None c) ->
  is_intcode c = true ->
  0 < code_size rt o c ->
  arraydef fd = [] ->
  strindex fd = None ->
  bits fd = 0 ->
  bitshift fd = 0 ->
  converter fd = NoConverter ->
  0 <= baseaddr fd + addroffset
  /\ baseaddr fd + addroffset + code_size rt o c <= Z.of_nat (List.length dobj) ->
  py_truthy (validate_value (VInt v) fd) = true ->
  in_code_range c (8 * code_size rt o c) v ->
  exists dobj' w',
    set_field ARGS rt (S (S d)) dobj platform_bits fieldname fd (VInt v)
              addroffset w = (Ret dobj', w')
    /\ forall w2,
         get_field ARGS rt (S (S d)) dobj' platform_bits (Some fieldname) fd
                   raw addroffset false w2 = (Ret (VInt v), w2).
Proof.
  intros Hplat Hgroup Hname Hfmt Hint Hsz Harr Hidx Hbits Hshift Hconv Haddr
         Hvalid Hrange.
  assert (Hwrite : is_false (writeconverter fd) = false)
    by (unfold writeconverter; rewrite Hconv; reflexivity).
  assert (Hitem : item_value (code_size rt o c * 8) v = v).
  { apply (item_value_in_range c); [lia|].
    replace (code_size rt o c * 8) with (8 * code_size rt o c) by lia.
    exact Hrange. }
  destruct (set_field_int_run ARGS rt (S d) dobj platform_bits fieldname fd o c
              addroffset v Hplat Hgroup Hwrite Hname Hfmt Hint Hsz Harr Hidx
              Hbits
              (fun w0 => readwrite_converter_none ARGS (VInt v) fd false false
                           w0 Hconv)
              Haddr Hvalid w v Hitem
              (pack_item_in_range rt o c v Hint Hsz Hrange)) as [w' Hrun].
  eexists. exists w'. split; [exact Hrun|].
  intros w2.
  rewrite (get_field_word ARGS rt d _ platform_bits (Some fieldname) fd o c raw
             addroffset w2 Hplat Hgroup Hfmt Hint Hsz Harr Hidx Hconv).
  - rewrite raw_word_stored by lia.
    rewrite signed_view_stored by (try exact Hrange; lia).
    rewrite Hbits, Hshift, bitsread_whole. reflexivity.
  - rewrite buf_write_length;
      rewrite ?ordered_length, ?le_bytes_length; lia.
Qed.

Lemma set_field_unsigned_wraps_witness :
  exists dobj' w',
    set_field strict ascii_runtime 1 (zeros 0x500) Platform.ESP82 "my_gp"
              my_gp_element (VInt 0x1234) 0 world0 = (Ret dobj', w')
    /\ raw_word ascii_runtime (mkfmt NoPrefix None CB) dobj' (0x484 + 0)
       = 0x1234 mod 2 ^ (8 * 1)
    /\ List.length dobj' = List.length (zeros 0x500)
    /\ (forall k : nat,
          Z.of_nat k < 0x484 + 0 \/ 0x484 + 0 + 1 <= Z.of_nat k ->
          nth k dobj' 0 = nth k (zeros 0x500) 0).
Proof.
  apply (set_field_unsigned_wraps strict ascii_runtime 0 (zeros 0x500)
           Platform.ESP82 "my_gp" my_gp_element NoPrefix CB 0 0x1234);
    try reflexivity.
  - vm_compute. split; discriminate.
  - lia.
Defined.

Lemma set_get_int_roundtrip_witness :
  exists dobj' w',
    set_field strict ascii_runtime 2 (zeros 0x800) Platform.ESP82 "adc_param3"
              adc_param3 (VInt (-5)) 0 world0 = (Ret dobj', w')
    /\ forall w2,
         get_field strict ascii_runtime 2 dobj' Platform.ESP82
                   (Some "adc_param3") adc_param3 false 0 false w2
         = (Ret (VInt (-5)), w2).
Proof.
  apply (set_get_int_roundtrip strict ascii_runtime 0 (zeros 0x800)
           Platform.ESP82 "adc_param3" adc_param3 LittleEndian Cl 0 (-5) false
           world0); try reflexivity.
  - vm_compute. split; discriminate.
  - vm_compute. split; [discriminate | reflexivity].
Defined.

(** ** Field codec: bit-packed fields, read after write *)

Lemma bitsread_testbit (x pos bits i : Z) :
  0 <= pos -> 0 < bits -> 0 <= i ->
  Z.testbit (bitsread x pos bits) i
  = if i <? bits then Z.testbit x (i + pos) else false.
Proof.
  intros Hpos Hbits Hi. unfold bitsread.
  replace (pos >=? 0) with true by (symmetry; rewrite Z.geb_leb; apply Z.leb_le; lia).
  replace (bits >? 0) with true by (symmetry; apply Z.gtb_lt; lia).
  rewrite shiftl_1_ones by lia.
  rewrite Z.land_spec, Z.shiftr_spec, Z.testbit_ones_nonneg by lia.
  destruct (i <? bits); [apply andb_true_r | apply andb_false_r].
Qed.

Lemma signed_view_unsigned (c : fcode) (w v : Z) :
  is_signed c = false -> signed_view c w v = v.
Proof. intros H. unfold signed_view. rewrite H. reflexivity. Qed.

(** X13. Write then read of a bit-packed field.  For a bit range that lies
    inside an unsigned word of at most 32 bits, a field without converter
    and a value [0 <= v < 2 ^ bits] the validator accepts: [set_field]
    returns a buffer from which [get_field] reads [v] again, and from which
    every other bit-packed field of the same word whose range does not
    overlap reads what it read before. *)
Theorem set_get_bits_roundtrip (ARGS : args) (rt : runtime) (d : nat)
    (dobj : list Z) (platform_bits : Z) (fieldname : string)
    (fd sibling : fielddef) (o : byteorder) (c : fcode) (addroffset v : Z)
    (raw : bool) (w : world) :
  (Z.land (platform_ fd) platform_bits =? 0) = false ->
  is_filtergroup ARGS rt (group fd) = true ->
  special_field fieldname = false ->
  format_ fd = FStruct (mkfmt o None c) ->
  is_intcode c = true ->
  is_signed c = false ->
  0 < code_size rt o c <= 4 ->
  arraydef fd = [] ->
  strindex fd = None ->
  converter fd = NoConverter ->
  0 < bits fd ->
  0 <= bitshift fd /\ bitshift fd + bits fd <= 8 * code_size rt o c ->
  0 <= baseaddr fd + addroffset
  /\ baseaddr fd + addroffset + code_size rt o c <= Z.of_nat (List.length dobj) ->
  0 <= v < 2 ^ bits fd ->
  py_truthy (validate_value (VInt v) fd) = true ->
  (Z.land (platform_ sibling) platform_bits =? 0) = false ->
  is_filtergroup ARGS rt (group sibling) = true ->
  format_ sibling = FStruct (mkfmt o None c) ->
  baseaddr sibling = baseaddr fd ->
  arraydef sibling = [] ->
  strindex sibling = None ->
  converter sibling = NoConverter ->
  0 < bits sibling ->
  0 <= bitshift sibling
  /\ bitshift sibling + bits sibling <= 8 * code_size rt o c ->
  bitshift sibling + bits sibling <= bitshift fd
  \/ bitshift fd + bits fd <= bitshift sibling ->
  exists dobj' w',
    set_field ARGS rt (S (S d)) dobj platform_bits fieldname fd (VInt v)
              addroffset w = (Ret dobj', w')
    /\ (forall w2,
          get_field ARGS rt (S (S d)) dobj' platform_bits (Some fieldname) fd
                    raw addroffset false w2 = (Ret (VInt v), w2))
    /\ (forall name w2,
          get_field ARGS rt (S (S d)) dobj' platform_bits name sibling
                    raw addroffset false w2
          = get_field ARGS rt (S (S d)) dobj platform_bits name sibling
                      raw addroffset false w2).
Proof.
  intros Hplat Hgroup Hname Hfmt Hint Hun Hsz Harr Hidx Hconv Hbits Hshift
         Haddr Hv Hvalid Hplat' Hgroup' Hfmt' Hbase' Harr' Hidx' Hconv' Hbits'
         Hshift' Hdisj.
  assert (Hwrite : is_false (writeconverter fd) = false)
    by (unfold writeconverter; rewrite Hconv; reflexivity).
  pose proof (set_field_bits_run ARGS rt (S d) dobj platform_bits fieldname fd
                o c addroffset v Hplat Hgroup Hwrite Hname Hfmt Hint Hsz Harr
                Hidx Hbits
                (fun w0 => readwrite_converter_none ARGS (VInt v) fd false
                             false w0 Hconv)
                Haddr Hv Hvalid w) as Hrun.
  pose proof (packed_range rt dobj fd o c addroffset v Hsz Hbits) as Hrange.
  pose proof (raw_word_written rt dobj fd o c addroffset v Hsz Hbits Haddr)
    as Hword.
  pose proof (packed_testbit rt dobj fd o c addroffset v Hbits) as Hpacked.
  pose proof (merged_testbit_inside rt dobj fd o c addroffset v Hsz Hbits)
    as Hinside.
  pose proof (merged_testbit_outside rt dobj fd o c addroffset v Hsz Hbits Hv)
    as Houtside.
  set (merged := Z.lor _ (Z.shiftl v (bitshift fd))) in *.
  set (packed := Z.land merged _) in *.
  rewrite (pack_item_unsigned rt o c packed Hint Hun Hrange) in Hrun.
  destruct Hrun as [w' Hrun].
  set (dobj' := buf_write _ _ _) in *.
  assert (Hlen : List.length dobj' = List.length dobj).
  { unfold dobj'. apply buf_write_length;
      rewrite ?ordered_length, ?le_bytes_length; lia. }
  exists dobj', w'. split; [exact Hrun|]. split.
  - intros w2.
    rewrite (get_field_word ARGS rt d dobj' platform_bits (Some fieldname) fd
               o c raw addroffset w2 Hplat Hgroup Hfmt Hint (proj1 Hsz) Harr
               Hidx Hconv) by (rewrite Hlen; exact Haddr).
    rewrite Hword, signed_view_unsigned by exact Hun.
    enough (E : bitsread packed (bitshift fd) (bits fd) = v)
      by (rewrite E; reflexivity).
    apply Z.bits_inj'. intros i Hi.
    rewrite bitsread_testbit by lia.
    destruct (Z.ltb_spec i (bits fd)) as [Hlt | Hge].
    + rewrite Hpacked, Hinside by lia. f_equal. lia.
    + symmetry. rewrite <- (Z.mod_small v (2 ^ bits fd)) by exact Hv.
      apply Z.mod_pow2_bits_high. lia.
  - intros name w2.
    assert (Haddr' : 0 <= baseaddr sibling + addroffset
                     /\ baseaddr sibling + addroffset + code_size rt o c
                        <= Z.of_nat (List.length dobj))
      by (rewrite Hbase'; exact Haddr).
    rewrite (get_field_word ARGS rt d dobj' platform_bits name sibling
               o c raw addroffset w2 Hplat' Hgroup' Hfmt' Hint (proj1 Hsz)
               Harr' Hidx' Hconv') by (rewrite Hlen; exact Haddr').
    rewrite (get_field_word ARGS rt d dobj platform_bits name sibling
               o c raw addroffset w2 Hplat' Hgroup' Hfmt' Hint (proj1 Hsz)
               Harr' Hidx' Hconv' Haddr').
    rewrite Hbase', Hword, !signed_view_unsigned by exact Hun.
    enough (E : bitsread packed (bitshift sibling) (bits sibling)
                = bitsread (raw_word rt (mkfmt o None c) dobj
                              (baseaddr fd + addroffset))
                           (bitshift sibling) (bits sibling))
      by (rewrite E; reflexivity).
    apply Z.bits_inj'. intros i Hi.
    rewrite !bitsread_testbit by lia.
    destruct (Z.ltb_spec i (bits sibling)) as [Hlt | Hge]; [|reflexivity].
    rewrite Hpacked, Houtside by lia. reflexivity.
Qed.

Lemma set_get_bits_roundtrip_witness :
  exists dobj' w',
    set_field strict ascii_runtime 2 image_flags Platform.ESP82 "save_state"
              save_state (VInt 1) 0 world0 = (Ret dobj', w')
    /\ (forall w2,
          get_field strict ascii_runtime 2 dobj' Platform.ESP82
                    (Some "save_state") save_state false 0 false w2
          = (Ret (VInt 1), w2))
    /\ (forall name w2,
          get_field strict ascii_runtime 2 dobj' Platform.ESP82 name
                    button_restrict false 0 false w2
          = get_field strict ascii_runtime 2 image_flags Platform.ESP82 name
                      button_restrict false 0 false w2).
Proof.
  apply (set_get_bits_roundtrip strict ascii_runtime 0 image_flags
           Platform.ESP82 "save_state" save_state button_restrict
           LittleEndian CL 0 1 false world0); try reflexivity.
  - vm_compute. split; [reflexivity | discriminate].
  - vm_compute. split; discriminate.
  - vm_compute. split; discriminate.
  - vm_compute. split; [discriminate | reflexivity].
  - vm_compute. split; discriminate.
  - right. vm_compute. discriminate.
Defined.

(** ** Schema registry: the resolved entry *)





(** ** Field codec: strings *)

Lemma split_nul_from_cons (m : option nat) (cur s : pystr) :
  exists h t, split_nul_from m cur s = h :: t.
Proof.
  revert m cur. induction s as [|c s IH]; intros m cur; cbn [split_nul_from].
  - eexists. eexists. reflexivity.
  - destruct (N.eqb c 0); [|apply IH].
    destruct m as [[|m]|]; eexists; eexists; reflexivity.
Qed.

Lemma split_nul_from_first (m : nat) (s rest : pystr) :
  no_nul s = true ->
  forall cur,
    split_nul_from (Some (S m)) cur (s ++ 0%N :: rest)
    = (rev cur ++ s) :: split_nul_from (Some m) [] rest.
Proof.
  unfold no_nul. induction s as [|c s IH]; intros Hs cur;
    cbn [app split_nul_from forallb] in *.
  - cbn [N.eqb]. rewrite app_nil_r. reflexivity.
  - apply andb_true_iff in Hs. destruct Hs as [Hc Hs].
    apply negb_true_iff in Hc. rewrite Hc.
    rewrite (IH Hs). cbn [rev]. rewrite <- app_assoc. reflexivity.
Qed.

Lemma rstrip_nul_no_nul (s : pystr) : no_nul s = true -> rstrip_nul s = s.
Proof.
  unfold no_nul. induction s as [|c s IH]; cbn [rstrip_nul forallb];
    intros Hs; [reflexivity|].
  apply andb_true_iff in Hs. destruct Hs as [Hc Hs].
  apply negb_true_iff in Hc. rewrite (IH Hs), Hc.
  destruct s; reflexivity.
Qed.

Lemma seq_index_head {A} (h : A) (t : list A) : seq_index (h :: t) 0 = PyOk h.
Proof.
  unfold seq_index. cbn [List.length Z.ltb Z.compare].
  replace (Z.of_nat (S (List.length t)) <=? 0) with false
    by (symmetry; apply Z.leb_gt; lia).
  reflexivity.
Qed.

Lemma filter_all {A} (f : A -> bool) (l : list A) :
  forallb f l = true -> List.filter f l = l.
Proof.
  induction l as [|a l IH]; cbn [forallb List.filter]; intros H; [reflexivity|].
  apply andb_true_iff in H. destruct H as [Ha Hl].
  rewrite Ha, (IH Hl). reflexivity.
Qed.

Lemma pad_to_short (n : nat) (l : list Z) :
  (List.length l <= n)%nat -> pad_to n l = l ++ zeros (n - List.length l).
Proof. intros H. unfold pad_to. rewrite firstn_all2 by exact H. reflexivity. Qed.

(** What [get_fieldvalue] reads from a string field of [n] bytes. *)
Lemma get_fieldvalue_string (rt : runtime) (d : nat) (fd : fielddef)
    (o : byteorder) (n : Z) (dobj : list Z) (addr : Z) :
  format_ fd = FStruct (mkfmt o (Some n) Cs) ->
  arraydef fd = [] ->
  strindex fd = None ->
  0 < n -> 0 <= addr -> addr + n <= Z.of_nat (List.length dobj) ->
  get_fieldvalue rt (S d) fd dobj addr 0
  = PyOk (VStr (stored_text rt n (buf_read dobj addr n))).
Proof.
  intros Hfmt Harr Hidx Hn H0 Hlen.
  unfold get_fieldvalue, unpack_from. rewrite Hfmt.
  cbn [f_code f_order f_count]. unfold calcsize, count_of.
  cbn [f_code f_order f_count code_size]. rewrite Z.mul_1_l.
  rewrite buf_offset_inside by lia. cbn [pbind is_strcode negb].
  cbn [get_fieldlength]. rewrite Harr, Hfmt.
  unfold calcsize, count_of. cbn [f_code f_order f_count code_size].
  rewrite Z.mul_1_l. cbn [pbind].
  rewrite seq_index_head. cbn [pbind]. rewrite Hidx.
  unfold stored_text, split_nul.
  destruct (split_nul_from_cons (Some (Z.to_nat SET_MAX)) []
              (rt_decode rt (buf_read dobj addr n))) as [h [t E]].
  rewrite E. cbn [map hd]. rewrite seq_index_head. cbn [pbind].
  replace (n =? 0) with false by (symmetry; apply Z.eqb_neq; lia).
  reflexivity.
Qed.

Lemma pack_into_str_bytes (rt : runtime) (o : byteorder) (n : Z)
    (dobj : list Z) (addr : Z) (b : list Z) :
  0 <= n -> 0 <= addr -> addr + n <= Z.of_nat (List.length dobj) ->
  pack_into_str rt (mkfmt o (Some n) Cs) dobj addr (VBytes b)
  = Packed (buf_write dobj addr (pad_to (Z.to_nat n) b)).
Proof.
  intros Hn H0 Hlen. unfold pack_into_str, calcsize, count_of.
  cbn [f_code f_order f_count code_size]. rewrite Z.mul_1_l.
  rewrite buf_offset_inside by lia. reflexivity.
Qed.

Lemma get_fieldminmax_string (o : byteorder) (n : Z) :
  get_fieldminmax (mkfmt o (Some n) Cs) = (0, n).
Proof. reflexivity. Qed.

Section StringField.

Variables (ARGS : args) (rt : runtime) (d : nat) (dobj : list Z)
          (platform_bits : Z) (fieldname : string) (fd : fielddef)
          (o : byteorder) (n : Z) (addroffset : Z) (s : pystr).

Hypothesis Hplat : (Z.land (platform_ fd) platform_bits =? 0) = false.
Hypothesis Hgroup : is_filtergroup ARGS rt (group fd) = true.
Hypothesis Hfmt : format_ fd = FStruct (mkfmt o (Some n) Cs).
Hypothesis Harr : arraydef fd = [].
Hypothesis Hidx : strindex fd = None.
Hypothesis Hconv : converter fd = NoConverter.

(** The simple-value branch on a text: the length check and what follows
    when it passes. *)
Lemma set_field_string_steps (w : world) :
  set_field ARGS rt (S (S d)) dobj platform_bits fieldname fd (VStr s)
            addroffset w
  = (if (0 <=? Z.of_nat (List.length (rt_encode rt s)))
        && (Z.of_nat (List.length (rt_encode rt s)) <=? n - 1)
     then
       if negb (special_field fieldname) then
         r <- (prevvalue <- lift (get_fieldvalue rt (S d) fd dobj
                                    (baseaddr fd + addroffset) 0) ;;
               dobj' <- set_fieldvalue ARGS rt fd dobj
                          (baseaddr fd + addroffset)
                          (VBytes (rt_encode rt s)) ;;
               curvalue <- lift (get_fieldvalue rt (S d) fd dobj'
                                   (baseaddr fd + addroffset) 0) ;;
               ret (dobj', (prevvalue, curvalue))) ;;
         let '(dobj', (prevvalue, curvalue)) := r in
         (if py_ne prevvalue curvalue && verbose ARGS
          then message (MsgValueChanged fieldname) (Some INFO) None
          else ret tt) ;;;
         ret dobj'
       else ret dobj
     else
       exit_ ExitCode.RESTORE_DATA_ERROR
             (MsgRestoreError fieldname "string length exceeding")
             WARNING (negb (ignorewarning ARGS)) ;;;
       ret dobj) w.
Proof.
  assert (Hwrite : is_false (writeconverter fd) = false)
    by (unfold writeconverter; rewrite Hconv; reflexivity).
  cbn [set_field]. rewrite Hplat, Hgroup, Hwrite, Harr, Hfmt. cbn [negb].
  unfold set_simple, prepare_value. rewrite get_fieldminmax_string.
  cbn [f_code py_encode lift]. rewrite Hidx.
  unfold bind at 1. unfold bind at 1. unfold bind at 1. cbn [ret].
  unfold bind at 1.
  rewrite (readwrite_converter_none ARGS _ fd false false w Hconv).
  cbn [is_none negb py_len lift]. unfold bind at 1. cbn [ret].
  unfold bind at 1. cbn [ret].
  cbn [p_value p_skip p_valid p_err_text p_min p_max p_prevcur is_none andb
       negb].
  unfold bind at 1. cbn [ret py_truthy].
  destruct ((0 <=? _) && (_ <=? n - 1)); reflexivity.
Qed.

(** X14. A text whose encoding does not leave room for the closing NUL (it has
    [n] bytes or more, for a field of [n] bytes) is refused: [set_field]
    ends the program with [RESTORE_DATA_ERROR], or, with [ignorewarning],
    prints the warning and returns the image as it was. *)
Theorem set_field_string_too_long (w : world) :
  n <= Z.of_nat (List.length (rt_encode rt s)) ->
  (ignorewarning ARGS = false ->
   fst (set_field ARGS rt (S (S d)) dobj platform_bits fieldname fd (VStr s)
                  addroffset w)
   = SysExit ExitCode.RESTORE_DATA_ERROR)
  /\ (ignorewarning ARGS = true ->
      set_field ARGS rt (S (S d)) dobj platform_bits fieldname fd (VStr s)
                addroffset w
      = (Ret dobj,
         mkworld ExitCode.RESTORE_DATA_ERROR
           (mklog (Some WARNING) (Some ExitCode.RESTORE_DATA_ERROR)
                  (MsgRestoreError fieldname "string length exceeding")
            :: stderr w))).
Proof.
  intros Hlong. rewrite set_field_string_steps.
  replace (Z.of_nat (List.length (rt_encode rt s)) <=? n - 1) with false
    by (symmetry; apply Z.leb_gt; lia).
  rewrite andb_false_r.
  split; intros Hig; rewrite Hig; reflexivity.
Qed.

Hypothesis Hname : special_field fieldname = false.
Hypothesis Haddr :
  0 <= baseaddr fd + addroffset
  /\ baseaddr fd + addroffset + n <= Z.of_nat (List.length dobj).
Hypothesis Hshort : Z.of_nat (List.length (rt_encode rt s)) < n.

Lemma set_field_string_run (w : world) :
  exists w',
    set_field ARGS rt (S (S d)) dobj platform_bits fieldname fd (VStr s)
              addroffset w
    = (Ret (buf_write dobj (baseaddr fd + addroffset)
              (pad_to (Z.to_nat n) (rt_encode rt s))), w').
Proof.
  rewrite set_field_string_steps.
  replace (0 <=? Z.of_nat (List.length (rt_encode rt s))) with true
    by (symmetry; apply Z.leb_le; lia).
  replace (Z.of_nat (List.length (rt_encode rt s)) <=? n - 1) with true
    by (symmetry; apply Z.leb_le; lia).
  rewrite Hname. cbn [andb negb].
  unfold bind at 1. unfold bind at 1.
  rewrite (get_fieldvalue_string rt d fd o n dobj _ Hfmt Harr Hidx) by lia.
  cbn [lift ret]. unfold bind at 1.
  unfold set_fieldvalue. rewrite Hfmt.
  destruct (get_formattype rt (mkfmt o (Some n) Cs)) as [st bs].
  cbn [f_code is_strcode negb].
  rewrite pack_into_str_bytes by lia. cbn [ret].
  unfold bind at 1.
  rewrite (get_fieldvalue_string rt d fd o n _ _ Hfmt Harr Hidx);
    try lia.
  2:{ rewrite buf_write_length; rewrite ?pad_to_length; lia. }
  cbn [lift ret].
  match goal with
  | |- context [if ?b then _ else _] => destruct b
  end; eexists; reflexivity.
Qed.

End StringField.

Lemma set_field_string_too_long_witness :
  (ignorewarning strict = false ->
   fst (set_field strict ascii_runtime 2 (zeros 0x200) Platform.ESP82
          "hostname" hostname (VStr (repeat 65%N 33)) 0 world0)
   = SysExit ExitCode.RESTORE_DATA_ERROR)
  /\ (ignorewarning strict = true ->
      set_field strict ascii_runtime 2 (zeros 0x200) Platform.ESP82
                "hostname" hostname (VStr (repeat 65%N 33)) 0 world0
      = (Ret (zeros 0x200),
         mkworld ExitCode.RESTORE_DATA_ERROR
           (mklog (Some WARNING) (Some ExitCode.RESTORE_DATA_ERROR)
                  (MsgRestoreError "hostname" "string length exceeding")
            :: stderr world0))).
Proof.
  apply (set_field_string_too_long strict ascii_runtime 0 (zeros 0x200)
           Platform.ESP82 "hostname" hostname NoPrefix 33 0 (repeat 65%N 33));
    reflexivity.
Defined.

Lemma get_field_string (ARGS : args) (rt : runtime) (d : nat) (dobj : list Z)
    (platform_bits : Z) (fieldname : option string) (fd : fielddef)
    (o : byteorder) (n : Z) (raw : bool) (addroffset : Z) (w : world) :
  (Z.land (platform_ fd) platform_bits =? 0) = false ->
  is_filtergroup ARGS rt (group fd) = true ->
  format_ fd = FStruct (mkfmt o (Some n) Cs) ->
  arraydef fd = [] ->
  strindex fd = None ->
  0 < n ->
  0 <= baseaddr fd + addroffset
  /\ baseaddr fd + addroffset + n <= Z.of_nat (List.length dobj) ->
  get_field ARGS rt (S (S d)) dobj platform_bits fieldname fd raw addroffset
            false w
  = readwrite_converter ARGS
      (VStr (stored_text rt n (buf_read dobj (baseaddr fd + addroffset) n)))
      fd true raw w.
Proof.
  intros Hplat Hgroup Hfmt Harr Hidx Hn Haddr.
  cbn [get_field]. rewrite Hplat, Hgroup, Harr, Hfmt, Hidx. cbn [negb andb].
  cbn [get_fieldlength]. rewrite Harr, Hfmt.
  unfold bind at 1. cbn [lift ret].
  unfold calcsize, count_of. cbn [f_order f_code f_count code_size].
  rewrite Z.mul_1_l.
  replace (n =? 0) with false by (symmetry; apply Z.eqb_neq; lia).
  cbn [negb]. unfold bind at 1.
  rewrite (get_fieldvalue_string rt d fd o n dobj (baseaddr fd + addroffset)
             Hfmt Harr Hidx) by lia.
  reflexivity.
Qed.

Lemma stored_text_padded (rt : runtime) (n : Z) (s : pystr) :
  Z.of_nat (List.length (rt_encode rt s)) < n ->
  no_nul s = true ->
  forallb (rt_isprintable rt) s = true ->
  (List.length s <= List.length (rt_encode rt s))%nat ->
  rt_decode rt (pad_to (Z.to_nat n) (rt_encode rt s))
  = s ++ repeat 0%N (Z.to_nat n - List.length (rt_encode rt s)) ->
  stored_text rt n (pad_to (Z.to_nat n) (rt_encode rt s)) = s.
Proof.
  intros Hshort Hnul Hprint Hchars Hdec. unfold stored_text. rewrite Hdec.
  destruct (Z.to_nat n - List.length (rt_encode rt s))%nat as [|k] eqn:Ek;
    [lia|].
  cbn [repeat]. unfold split_nul. change (Z.to_nat SET_MAX) with 76%nat.
  rewrite (split_nul_from_first 75 s (repeat 0%N k) Hnul []).
  cbn [hd rev app].
  rewrite (rstrip_nul_no_nul s Hnul), (filter_all _ s Hprint).
  apply firstn_all2. lia.
Qed.

(** X15. Write then read of a text.  For a string field of [n] bytes without
    converter and a text without NUL and unprintable characters whose
    encoding has fewer than [n] bytes (and that the interpreter decodes
    back from the padded bytes): [set_field] returns a buffer from which
    [get_field] reads the text again. *)
Theorem set_get_string_roundtrip (ARGS : args) (rt : runtime) (d : nat)
    (dobj : list Z) (platform_bits : Z) (fieldname : string) (fd : fielddef)
    (o : byteorder) (n : Z) (addroffset : Z) (s : pystr) (raw : bool)
    (w : world) :
  (Z.land (platform_ fd) platform_bits =? 0) = false ->
  is_filtergroup ARGS rt (group fd) = true ->
  format_ fd = FStruct (mkfmt o (Some n) Cs) ->
  arraydef fd = [] ->
  strindex fd = None ->
  converter fd = NoConverter ->
  special_field fieldname = false ->
  0 <= baseaddr fd + addroffset
  /\ baseaddr fd + addroffset + n <= Z.of_nat (List.length dobj) ->
  Z.of_nat (List.length (rt_encode rt s)) < n ->
  no_nul s = true ->
  forallb (rt_isprintable rt) s = true ->
  (List.length s <= List.length (rt_encode rt s))%nat ->
  rt_decode rt (pad_to (Z.to_nat n) (rt_encode rt s))
  = s ++ repeat 0%N (Z.to_nat n - List.length (rt_encode rt s)) ->
  exists dobj' w',
    set_field ARGS rt (S (S d)) dobj platform_bits fieldname fd (VStr s)
              addroffset w = (Ret dobj', w')
    /\ forall w2,
         get_field ARGS rt (S (S d)) dobj' platform_bits (Some fieldname) fd
                   raw addroffset false w2 = (Ret (VStr s), w2).
Proof.
  intros Hplat Hgroup Hfmt Harr Hidx Hconv Hname Haddr Hshort Hnul Hprint
         Hchars Hdec.
  destruct (set_field_string_run ARGS rt d dobj platform_bits fieldname fd o n
              addroffset s Hplat Hgroup Hfmt Harr Hidx Hconv Hname Haddr
              Hshort w) as [w' Hrun].
  eexists. exists w'. split; [exact Hrun|].
  intros w2.
  assert (Hlen : Z.of_nat (List.length (pad_to (Z.to_nat n) (rt_encode rt s)))
                 = n) by (rewrite pad_to_length; lia).
  rewrite (get_field_string ARGS rt d _ platform_bits (Some fieldname) fd o n
             raw addroffset w2 Hplat Hgroup Hfmt Harr Hidx).
  - pose proof (buf_read_write dobj (baseaddr fd + addroffset)
                  (pad_to (Z.to_nat n) (rt_encode rt s))) as Hrw.
    rewrite Hlen in Hrw. rewrite Hrw by lia.
    rewrite stored_text_padded by assumption.
    apply readwrite_converter_none. exact Hconv.
  - lia.
  - rewrite buf_write_length by lia. exact Haddr.
Qed.

Lemma set_get_string_roundtrip_witness :
  exists dobj' w',
    set_field strict ascii_runtime 2 (zeros 0x200) Platform.ESP82 "hostname"
              hostname (VStr (pystr_of_string "tasmota-1")) 0 world0
    = (Ret dobj', w')
    /\ forall w2,
         get_field strict ascii_runtime 2 dobj' Platform.ESP82
                   (Some "hostname") hostname false 0 false w2
         = (Ret (VStr (pystr_of_string "tasmota-1")), w2).
Proof.
  apply (set_get_string_roundtrip strict ascii_runtime 0 (zeros 0x200)
           Platform.ESP82 "hostname" hostname NoPrefix 33 0
           (pystr_of_string "tasmota-1") false world0); try reflexivity.
  vm_compute. split; discriminate.
Defined.

(** ** Converters *)

(** X16. The password helper on read.  For a (non-indexed) string field whose
    read converter is [passwordread], [get_field] returns the mask
    ['********'] whatever the image stores when [jsonhidepw] is set, in raw
    mode too, and the stored text otherwise. *)
Theorem get_field_password_hidden (ARGS : args) (rt : runtime) (d : nat)
    (dobj : list Z) (platform_bits : Z) (fieldname : option string)
    (fd : fielddef) (o : byteorder) (n : Z) (raw : bool) (addroffset : Z)
    (w : world) :
  (Z.land (platform_ fd) platform_bits =? 0) = false ->
  is_filtergroup ARGS rt (group fd) = true ->
  format_ fd = FStruct (mkfmt o (Some n) Cs) ->
  arraydef fd = [] ->
  strindex fd = None ->
  readconverter fd = CvPasswordRead ->
  0 < n ->
  0 <= baseaddr fd + addroffset
  /\ baseaddr fd + addroffset + n <= Z.of_nat (List.length dobj) ->
  get_field ARGS rt (S (S d)) dobj platform_bits fieldname fd raw addroffset
            false w
  = (Ret (if jsonhidepw ARGS then VStr HIDDEN_PASSWORD
          else VStr (stored_text rt n
                       (buf_read dobj (baseaddr fd + addroffset) n))), w).
Proof.
  intros Hplat Hgroup Hfmt Harr Hidx Hread Hn Haddr.
  rewrite (get_field_string ARGS rt d dobj platform_bits fieldname fd o n raw
             addroffset w Hplat Hgroup Hfmt Harr Hidx Hn Haddr).
  unfold readwrite_converter. rewrite Hread. cbn [is_passwordread andb negb].
  assert (Hhas : has_converter fd = true).
  { unfold has_converter. unfold readconverter in Hread.
    destruct (converter fd) as [|c0|r0 w0]; try discriminate Hread;
      [subst c0 | ]; reflexivity. }
  rewrite Hhas. cbn [apply_conv]. unfold passwordread.
  destruct (jsonhidepw ARGS); reflexivity.
Qed.

Lemma get_field_password_hidden_witness :
  get_field hide_pw ascii_runtime 2 image_with_password Platform.ESP82
            (Some "mqtt_pwd") mqtt_pwd true 0 false world0
  = (Ret (if jsonhidepw hide_pw then VStr HIDDEN_PASSWORD
          else VStr (stored_text ascii_runtime 33
                       (buf_read image_with_password (0x24E + 0) 33))),
     world0).
Proof.
  apply (get_field_password_hidden hide_pw ascii_runtime 0 image_with_password
           Platform.ESP82 (Some "mqtt_pwd") mqtt_pwd NoPrefix 33 true 0 world0);
    try reflexivity.
  vm_compute. split; discriminate.
Defined.

(** X17. A converter that raises is fatal.  When the converter item in charge
    (the read converter on read, the write converter on write) fails on the
    value, [readwrite_converter] reports the warning with status
    [INTERNAL_ERROR] and ends the program, with and without
    [ignorewarning]: [exit_] is called with its default [doexit], and the
    [return value] after it is not reached. *)
Theorem readwrite_converter_error_exits (ARGS : args) (value : pyval)
    (fd : fielddef) (read : bool) (e : exn) (w : world) :
  apply_conv ARGS (if read then readconverter fd else writeconverter fd) value
  = Some (PyExc e) ->
  readwrite_converter ARGS value fd read false w
  = (SysExit ExitCode.INTERNAL_ERROR,
     mkworld ExitCode.INTERNAL_ERROR
       (mklog None None (MsgPrematureExit ExitCode.INTERNAL_ERROR)
        :: mklog (Some WARNING) (Some ExitCode.INTERNAL_ERROR) MsgConverterError
        :: stderr w)).
Proof.
  intros Hconv. unfold readwrite_converter.
  assert (Hhas : has_converter fd = true).
  { unfold has_converter, readconverter, writeconverter in *.
    destruct (converter fd) as [|c0|r0 w0], read; cbn [apply_conv] in Hconv;
      try discriminate Hconv; try reflexivity.
    destruct c0; try discriminate Hconv; reflexivity. }
  rewrite Hhas.
  destruct (read && is_passwordread (readconverter fd));
    destruct (negb read && is_passwordwrite (writeconverter fd));
    cbn [negb andb]; rewrite Hconv; reflexivity.
Qed.

Lemma readwrite_converter_error_exits_witness :
  readwrite_converter lenient (VStr (pystr_of_string "8.2")) version_fielddef
                      true false world0
  = (SysExit ExitCode.INTERNAL_ERROR,
     mkworld ExitCode.INTERNAL_ERROR
       (mklog None None (MsgPrematureExit ExitCode.INTERNAL_ERROR)
        :: mklog (Some WARNING) (Some ExitCode.INTERNAL_ERROR) MsgConverterError
        :: stderr world0)).
Proof.
  apply (readwrite_converter_error_exits lenient
           (VStr (pystr_of_string "8.2")) version_fielddef true TypeError
           world0).
  reflexivity.
Defined.

(** ** Field codec: arrays *)

Lemma sum_repeat_ok (n : nat) (len acc : Z) :
  sum_repeat n (PyOk len) acc = PyOk (acc + Z.of_nat n * len).
Proof.
  revert acc. induction n as [|n IH]; intros acc; cbn [sum_repeat pbind].
  - f_equal. lia.
  - rewrite IH. f_equal. lia.
Qed.

Lemma get_subfielddef_ok (fd : fielddef) (n : Z) (dims : list Z) :
  arraydef fd = n :: dims -> exists sub, get_subfielddef fd = PyOk sub.
Proof.
  destruct fd as [p f a b s i ad v g c]. cbn [arraydef get_subfielddef].
  intros ->. eexists. reflexivity.
Qed.

(** X18. The length of a one-dimensional array field is the size of its format
    times its capacity. *)
Theorem get_fieldlength_array (rt : runtime) (d : nat) (fd : fielddef)
    (fmt : sformat) (n : Z) :
  format_ fd = FStruct fmt ->
  arraydef fd = [n] ->
  0 <= n ->
  get_fieldlength rt (S (S d)) fd = PyOk (n * calcsize rt fmt).
Proof.
  intros Hfmt Harr Hn. cbn [get_fieldlength]. rewrite Harr.
  destruct (get_subfielddef_ok fd n [] Harr) as [sub Hsub]. rewrite Hsub.
  cbn [pbind].
  assert (Helem : format_ (element_fielddef fd) = FStruct fmt
                  /\ arraydef (element_fielddef fd) = []).
  { destruct fd as [p f a b s i ad v g c]. cbn in *. auto. }
  destruct Helem as [He1 He2]. rewrite He2, He1.
  rewrite sum_repeat_ok, Z2Nat.id by exact Hn. reflexivity.
Qed.

Lemma get_fieldlength_array_witness :
  get_fieldlength ascii_runtime 2 my_gp = PyOk (18 * calcsize ascii_runtime fmt_B).
Proof.
  apply (get_fieldlength_array ascii_runtime 0 my_gp fmt_B 18);
    [reflexivity | reflexivity | lia].
Defined.

Lemma for_each_appends {A} (n : nat) (body : Z -> list A * Z -> M (bool * (list A * Z))) :
  (forall i acc off,
     yields (fun r => fst r = true
                      /\ List.length (fst (snd r)) = S (List.length acc))
            (body i (acc, off))) ->
  forall (idx : list Z) acc off,
    List.length idx = n ->
    yields (fun r => List.length (fst r) = (List.length acc + n)%nat)
           (for_each idx body (acc, off)).
Proof.
  intros Hbody. induction n as [|n IH]; intros idx acc off Hlen.
  - destruct idx; [|discriminate Hlen]. cbn [for_each].
    apply yields_ret. cbn [fst]. lia.
  - destruct idx as [|i idx]; [discriminate Hlen|]. cbn [for_each].
    apply (yields_bind (fun r => fst r = true
                                 /\ List.length (fst (snd r))
                                    = S (List.length acc)));
      [apply Hbody|].
    intros [go [acc' off']] [Hgo Hacc]. cbn [fst snd] in *. subst go.
    intros w r w' Hrun.
    pose proof (IH idx acc' off' ltac:(cbn in Hlen; lia) w r w' Hrun) as H.
    cbn beta in H. lia.
Qed.

(** X20. Reading an array field gives one value per element: when the elements
    have a nonzero length, a list [get_field] returns for a field of
    capacity [n] has exactly [n] entries (elements the platform or group
    filter hides are [None] entries). *)
Theorem get_field_array_length (ARGS : args) (rt : runtime) (d : nat)
    (dobj : list Z) (platform_bits : Z) (fieldname : option string)
    (fd : fielddef) (raw : bool) (addroffset : Z) (ignoregroup : bool)
    (n : Z) (dims : list Z) (sub : fielddef) (len : Z)
    (w w' : world) (value : pyval) :
  (Z.land (platform_ fd) platform_bits =? 0) = false ->
  ignoregroup = true \/ is_filtergroup ARGS rt (group fd) = true ->
  arraydef fd = n :: dims ->
  get_subfielddef fd = PyOk sub ->
  get_fieldlength rt d sub = PyOk len ->
  len <> 0 ->
  get_field ARGS rt (S d) dobj platform_bits fieldname fd raw addroffset
            ignoregroup w = (Ret value, w') ->
  exists l, value = VList l /\ List.length l = Z.to_nat n.
Proof.
  intros Hplat Hgrp Harr Hsub Hlen Hnz Hrun.
  cbn [get_field] in Hrun. rewrite Hplat, Harr in Hrun.
  replace (negb ignoregroup && negb (is_filtergroup ARGS rt (group fd)))
    with false in Hrun
    by (destruct Hgrp as [-> | ->];
        [reflexivity | rewrite andb_false_r; reflexivity]).
  revert Hrun.
  match goal with
  | |- bind ?m ?k w = _ -> _ =>
      assert (Hy : yields (fun r : list pyval * Z =>
                             List.length (fst r) = Z.to_nat n) m)
  end.
  { apply (for_each_appends (Z.to_nat n)) with (acc := []) (off := 0).
    - intros i acc off. rewrite Hsub. unfold bind at 1. cbn [lift ret].
      rewrite Hlen. unfold bind at 1. cbn [lift ret].
      replace (len =? 0) with false by (symmetry; apply Z.eqb_neq; exact Hnz).
      cbn [negb]. apply yields_then. intros v. apply yields_ret.
      cbn [fst snd]. split; [reflexivity|]. rewrite length_app. cbn. lia.
    - unfold range0. rewrite length_map, length_seq. reflexivity. }
  intros Hrun. unfold bind in Hrun.
  match type of Hrun with
  | context [match ?m w with _ => _ end] =>
      destruct (m w) as [[r|s|e] w1] eqn:E; try discriminate Hrun;
      pose proof (Hy w r w1 E) as Hr
  end.
  injection Hrun as <- _. exists (fst r). split; [reflexivity | exact Hr].
Qed.

Lemma get_field_array_length_witness :
  exists l,
    VList (map VInt (repeat 0 18)) = VList l
    /\ List.length l = Z.to_nat 18.
Proof.
  apply (get_field_array_length strict ascii_runtime 2 (zeros 0x500)
           Platform.ESP82 (Some "my_gp") my_gp false 0 false 18 []
           my_gp_element 1 world0 world0).
  - reflexivity.
  - right. reflexivity.
  - reflexivity.
  - reflexivity.
  - reflexivity.
  - discriminate.
  - vm_compute. reflexivity.
Defined.

(** ** Exit statuses *)

Lemma exits_only_exit_if (P : Z -> Prop) (status : Z) (msg : msgtext)
    (type_ : LogType) (doexit : bool) :
  (doexit = true -> P status) -> exits_only P (exit_ status msg type_ doexit).
Proof.
  intros HP w s w' H. unfold exit_, bind, message, sys_exit, ret in H.
  destruct doexit; simpl in H; [|discriminate H].
  injection H as <- _. apply HP. reflexivity.
Qed.

Lemma exits_only_weaken {A} (P Q : Z -> Prop) (m : M A) :
  (forall s, P s -> Q s) -> exits_only P m -> exits_only Q m.
Proof. intros HPQ Hm w s w' H. apply HPQ. exact (Hm w s w' H). Qed.

Lemma exits_only_catch_exception {A} (P : Z -> Prop) (m : M A)
    (h : exn -> M A) :
  exits_only P m -> (forall e, exits_only P (h e)) ->
  exits_only P (catch_exception m h).
Proof.
  intros Hm Hh w s w' H. unfold catch_exception in H.
  destruct (m w) as [[a|s0|e] w0] eqn:E.
  - discriminate H.
  - injection H as <- <-. exact (Hm w s0 w0 E).
  - exact (Hh e w0 s w' H).
Qed.

Lemma exits_only_catch_all {A} (P : Z -> Prop) (m : M A) (h : M A) :
  exits_only P h -> exits_only P (catch_all m h).
Proof.
  intros Hh w s w' H. unfold catch_all in H.
  destruct (m w) as [[a|s0|e] w0] eqn:E.
  - discriminate H.
  - exact (Hh w0 s w' H).
  - exact (Hh w0 s w' H).
Qed.

Lemma restore_status_warning (ARGS : args) :
  negb (ignorewarning ARGS) = true ->
  restore_status ARGS ExitCode.RESTORE_DATA_ERROR.
Proof.
  intros H. right. split; [reflexivity|].
  apply negb_true_iff. exact H.
Qed.

Lemma exits_only_converter (ARGS : args) (value : pyval) (fd : fielddef)
    (read raw : bool) :
  exits_only (restore_status ARGS) (readwrite_converter ARGS value fd read raw).
Proof.
  apply (exits_only_weaken (fun s => s = ExitCode.INTERNAL_ERROR));
    [intros s Hs; left; exact Hs|].
  apply exits_only_readwrite_converter.
Qed.

Lemma exits_only_set_items (ARGS : args) (rt : runtime)
    (singletype : formattype) (bitsize : Z) (n : nat) :
  forall dobj addr value,
    exits_only (restore_status ARGS)
               (set_items ARGS rt singletype bitsize n dobj addr value).
Proof.
  induction n as [|n IH]; intros dobj addr value; cbn [set_items].
  - apply exits_only_ret.
  - cbv zeta. apply exits_only_bind; [|intros d1; apply IH].
    destruct (pack_into_int rt singletype dobj _ _) as [d1|e];
      [apply exits_only_ret|].
    destruct e; try apply exits_only_raise.
    apply exits_only_bind; [|intros; apply exits_only_ret].
    apply exits_only_exit_if. apply restore_status_warning.
Qed.

Lemma exits_only_set_fieldvalue (ARGS : args) (rt : runtime) (fd : fielddef)
    (dobj : list Z) (addr : Z) (value : pyval) :
  exits_only (restore_status ARGS) (set_fieldvalue ARGS rt fd dobj addr value).
Proof.
  unfold set_fieldvalue. destruct (format_ fd) as [fmt|setting];
    [|apply exits_only_raise].
  destruct (get_formattype rt fmt) as [singletype bitsize].
  destruct (negb (is_strcode (f_code fmt))).
  - destruct (Z.to_nat (get_formatcount fmt)) as [|n]; [apply exits_only_ret|].
    apply exits_only_bind; [apply exits_only_lift|].
    intros v. apply exits_only_set_items.
  - destruct (pack_into_str rt fmt dobj addr value) as [d1|e];
      [apply exits_only_ret|].
    destruct e; try apply exits_only_raise.
    apply exits_only_bind; [|intros; apply exits_only_ret].
    apply exits_only_exit_if. apply restore_status_warning.
Qed.

Ltac exits_step :=
  first
    [ apply exits_only_ret
    | apply exits_only_raise
    | apply exits_only_lift
    | apply exits_only_converter
    | apply exits_only_set_fieldvalue
    | apply exits_only_exit_; left; reflexivity
    | apply exits_only_exit_if; apply restore_status_warning
    | apply exits_only_bind; [|intros ?] ].

Lemma exits_only_prepare_value (ARGS : args) (rt : runtime) (fd : fielddef)
    (fmt : sformat) (dobj : list Z) (restoremapping : pyval) (addroffset : Z) :
  exits_only (restore_status ARGS)
             (prepare_value ARGS rt fd fmt dobj restoremapping addroffset).
Proof.
  unfold prepare_value. destruct (get_fieldminmax fmt) as [min_ max_].
  destruct (f_code fmt).
  1,2: apply exits_only_catch_exception; [|intros e]; repeat exits_step.
  1-10: repeat exits_step;
    match goal with
    | |- exits_only _ (if ?b then _ else _) => destruct b
    end; repeat exits_step.
  1,2: apply exits_only_catch_all; repeat exits_step.
  1,2: repeat exits_step;
    try (match goal with
         | |- exits_only _ (if ?b then _ else _) => destruct b
         end; repeat exits_step);
    destruct (strindex fd); repeat exits_step;
    repeat (match goal with
            | |- exits_only _ (match ?x with _ => _ end) => destruct x
            end; repeat exits_step).
Qed.

Lemma exits_only_set_simple (ARGS : args) (rt : runtime) (depth : nat)
    (dobj : list Z) (fieldname : string) (fd : fielddef) (fmt : sformat)
    (restoremapping : pyval) (addroffset : Z) :
  exits_only (restore_status ARGS)
             (set_simple ARGS rt depth dobj fieldname fd fmt restoremapping
                         addroffset).
Proof.
  unfold set_simple.
  apply exits_only_bind; [apply exits_only_prepare_value|]. intros p. cbv zeta.
  apply exits_only_bind.
  { destruct (is_none _ && negb (p_skip p)); repeat exits_step.
    match goal with
    | |- exits_only _ (if ?b then _ else _) => destruct b
    end; exits_step. }
  intros [valid err_text].
  destruct (py_truthy valid); [|repeat exits_step].
  destruct (negb (p_skip p)); [|exits_step].
  destruct (negb (special_field fieldname)); [|exits_step].
  apply exits_only_bind.
  - destruct (strindex fd); repeat exits_step.
    destruct (p_prevcur p); exits_step.
  - intros [d1 [prev cur]]. apply exits_only_bind; [|intros; exits_step].
    destruct (py_ne prev cur && verbose ARGS); [|exits_step].
    intros w s w' H. discriminate H.
Qed.

Lemma exits_only_set_field (ARGS : args) (rt : runtime) (depth : nat) :
  forall dobj platform_bits fieldname fd restoremapping addroffset,
    exits_only (restore_status ARGS)
               (set_field ARGS rt depth dobj platform_bits fieldname fd
                          restoremapping addroffset).
Proof.
  induction depth as [|d IH]; intros; cbn [set_field].
  - apply exits_only_raise.
  - destruct (_ =? 0); [apply exits_only_ret|].
    destruct (negb _); [apply exits_only_ret|].
    destruct (is_false _); [apply exits_only_ret|].
    destruct (arraydef fd) as [|n dims].
    + destruct (format_ fd) as [fmt|setting].
      * apply exits_only_set_simple.
      * apply exits_only_for_each. intros nf d1.
        apply exits_only_bind; [apply exits_only_lift|]. intros restoremap.
        destruct (negb (is_none restoremap)); [|apply exits_only_ret].
        apply exits_only_bind; [apply IH|]. intros d2. apply exits_only_ret.
    + apply exits_only_bind; [apply exits_only_lift|]. intros len.
      apply exits_only_bind.
      { destruct (len >? n); [|apply exits_only_ret].
        apply exits_only_exit_if. apply restore_status_warning. }
      intros _. apply exits_only_bind; [|intros; apply exits_only_ret].
      apply exits_only_for_each. intros i [d1 off].
      apply exits_only_bind; [apply exits_only_lift|]. intros sub.
      apply exits_only_bind; [apply exits_only_lift|]. intros length.
      destruct (negb (length =? 0)); [|apply exits_only_ret].
      apply exits_only_bind; [apply exits_only_lift|]. intros len'.
      destruct (i >=? len'); [apply exits_only_ret|].
      apply exits_only_bind; [apply exits_only_lift|]. intros subrestore.
      apply exits_only_bind; [apply IH|]. intros d2. apply exits_only_ret.
Qed.

(** X21. Whenever [set_field] ends in [sys.exit], the exit status is
    [RESTORE_DATA_ERROR] or, for a failing converter, [INTERNAL_ERROR];
    with [ignorewarning] it is [INTERNAL_ERROR].  (This is about the calls
    of [sys.exit] only: an exception that nothing catches, such as the
    [AttributeError] of a list given to a string field, also ends the
    program.) *)
Theorem set_field_exit_statuses (ARGS : args) (rt : runtime) (depth : nat)
    (dobj : list Z) (platform_bits : Z) (fieldname : string) (fd : fielddef)
    (restoremapping : pyval) (addroffset : Z) (w w' : world) (s : Z) :
  set_field ARGS rt depth dobj platform_bits fieldname fd restoremapping
            addroffset w = (SysExit s, w') ->
  s = ExitCode.INTERNAL_ERROR
  \/ (s = ExitCode.RESTORE_DATA_ERROR /\ ignorewarning ARGS = false).
Proof.
  intros H.
  exact (exits_only_set_field ARGS rt depth dobj platform_bits fieldname fd
           restoremapping addroffset w s w' H).
Qed.

Lemma set_field_exit_statuses_witness :
  ExitCode.RESTORE_DATA_ERROR = ExitCode.INTERNAL_ERROR
  \/ (ExitCode.RESTORE_DATA_ERROR = ExitCode.RESTORE_DATA_ERROR
      /\ ignorewarning strict = false).
Proof.
  eapply (set_field_exit_statuses strict ascii_runtime 2 (zeros 0x200)
            Platform.ESP82 "hostname" hostname (VStr (repeat 65%N 33)) 0
            world0).
  vm_compute. reflexivity.
Defined.

Lemma exits_only_decode_field (ARGS : args) (rt : runtime) (depth : nat)
    (dobj : list Z) (platform_bits : Z) (fieldname : option string)
    (fd : fielddef) (raw : bool) (addroffset : Z) (ignoregroup : bool) :
  exits_only (decode_status ARGS)
             (get_field ARGS rt depth dobj platform_bits fieldname fd raw
                        addroffset ignoregroup).
Proof.
  apply (exits_only_weaken (fun s => s = ExitCode.INTERNAL_ERROR));
    [intros s Hs; left; exact Hs|].
  apply exits_only_get_field.
Qed.

Lemma exits_only_get_config_info (ARGS : args) (rt : runtime)
    (SETTINGS : settings) (decode_cfg : list Z) :
  exits_only (decode_status ARGS) (get_config_info ARGS rt SETTINGS decode_cfg).
Proof.
  unfold get_config_info.
  apply exits_only_bind; [apply exits_only_decode_field|]. intros v.
  apply exits_only_bind; [apply exits_only_lift|]. intros version.
  apply exits_only_bind.
  - destruct (first_supported version SETTINGS) as [cfg|];
      [|apply exits_only_ret].
    destruct (dict_get _ _) as [fielddef|]; [|apply exits_only_ret].
    apply exits_only_bind; [apply exits_only_decode_field|]. intros cv.
    apply exits_only_bind; [apply exits_only_lift|]. intros z.
    destruct (z >=? _); [|apply exits_only_ret].
    apply exits_only_bind; [|intros; apply exits_only_ret].
    apply exits_only_exit_. right. left. reflexivity.
  - intros config_version. cbv zeta.
    apply exits_only_bind; [|intros; apply exits_only_ret].
    destruct (first_supported version SETTINGS); [apply exits_only_ret|].
    apply exits_only_exit_. right. right. left. reflexivity.
Qed.

Lemma exits_only_get_settingcrc (ARGS : args) (rt : runtime)
    (SETTINGS : settings) (dobj : list Z) :
  exits_only (decode_status ARGS) (get_settingcrc ARGS rt SETTINGS dobj).
Proof.
  unfold get_settingcrc.
  apply exits_only_bind; [apply exits_only_get_config_info|]. intros info.
  apply exits_only_bind.
  { destruct (ci_template_size info); [apply exits_only_ret
                                      | apply exits_only_raise]. }
  intros n. apply exits_only_bind; [apply exits_only_lift|].
  intros crc. apply exits_only_ret.
Qed.

Lemma exits_only_read_structural (ARGS : args) (rt : runtime)
    (decode_cfg : list Z) (template : setting) (name : string)
    (fallback : M Z) :
  exits_only (decode_status ARGS) fallback ->
  exits_only (decode_status ARGS)
             (read_structural ARGS rt decode_cfg template name fallback).
Proof.
  intros Hf. unfold read_structural.
  destruct (dict_get template name) as [fielddef|]; [|exact Hf].
  apply exits_only_bind; [apply exits_only_decode_field|].
  intros v. apply exits_only_lift.
Qed.

Lemma decode_status_crc (ARGS : args) :
  negb (ignorewarning ARGS) = true ->
  decode_status ARGS ExitCode.DATA_CRC_ERROR.
Proof.
  intros H. right. right. right. right. split; [reflexivity|].
  apply negb_true_iff. exact H.
Qed.

Lemma exits_only_bin2mapping (ARGS : args) (rt : runtime)
    (SETTINGS : settings) (decode_cfg : list Z) :
  exits_only (decode_status ARGS) (bin2mapping ARGS rt SETTINGS decode_cfg).
Proof.
  unfold bin2mapping.
  apply exits_only_bind; [apply exits_only_get_config_info|]. intros info.
  apply exits_only_bind.
  { destruct (ci_template info); [apply exits_only_ret
                                 | apply exits_only_raise]. }
  intros template. apply exits_only_bind.
  { destruct (ci_template_size info); [apply exits_only_ret
                                      | apply exits_only_raise]. }
  intros template_size. apply exits_only_bind.
  { destruct (dict_get template "cfg_size") as [fd|]; [|apply exits_only_ret].
    apply exits_only_bind; [apply exits_only_decode_field|]. intros v.
    apply exits_only_bind; [apply exits_only_lift|]. intros cfg_size.
    destruct (cfg_size >? template_size);
      [apply exits_only_exit_; do 3 right; left; reflexivity|].
    destruct (cfg_size <? template_size);
      [apply exits_only_exit_; do 3 right; left; reflexivity|].
    apply exits_only_ret. }
  intros _. apply exits_only_bind.
  { apply exits_only_read_structural. apply exits_only_get_settingcrc. }
  intros cfg_crc. apply exits_only_bind.
  { apply exits_only_read_structural. apply exits_only_ret. }
  intros cfg_crc32. apply exits_only_bind.
  { apply exits_only_read_structural. apply exits_only_ret. }
  intros _. apply exits_only_bind.
  { destruct (ci_version info <? _).
    - apply exits_only_bind; [apply exits_only_get_settingcrc|]. intros crc.
      destruct (negb (cfg_crc =? crc)); [|apply exits_only_ret].
      apply exits_only_bind; [apply exits_only_get_settingcrc|]. intros crc'.
      apply exits_only_exit_if. apply decode_status_crc.
    - destruct (negb (cfg_crc32 =? _)); [|apply exits_only_ret].
      apply exits_only_exit_if. apply decode_status_crc. }
  intros _. apply exits_only_bind; [apply exits_only_decode_field|].
  intros valuemapping. apply exits_only_ret.
Qed.

(** X22. Whenever [bin2mapping] ends in [sys.exit], the exit status is
    [INVALID_DATA], [UNSUPPORTED_VERSION], [DATA_SIZE_MISMATCH],
    [DATA_CRC_ERROR] or, for a failing converter, [INTERNAL_ERROR]; and
    with [ignorewarning] it is not [DATA_CRC_ERROR]: a checksum that does
    not match is then only reported.  (This is about the calls of
    [sys.exit] only: an exception that nothing catches, such as the
    [struct.error] of an image too short for its version word, also ends
    the program.) *)
Theorem bin2mapping_exit_statuses (ARGS : args) (rt : runtime)
    (SETTINGS : settings) (decode_cfg : list Z) (w w' : world) (s : Z) :
  bin2mapping ARGS rt SETTINGS decode_cfg w = (SysExit s, w') ->
  s = ExitCode.INTERNAL_ERROR \/ s = ExitCode.INVALID_DATA
  \/ s = ExitCode.UNSUPPORTED_VERSION \/ s = ExitCode.DATA_SIZE_MISMATCH
  \/ (s = ExitCode.DATA_CRC_ERROR /\ ignorewarning ARGS = false).
Proof.
  intros H.
  exact (exits_only_bin2mapping ARGS rt SETTINGS decode_cfg w s w' H).
Qed.

Lemma bin2mapping_exit_statuses_witness :
  ExitCode.DATA_CRC_ERROR = ExitCode.INTERNAL_ERROR
  \/ ExitCode.DATA_CRC_ERROR = ExitCode.INVALID_DATA
  \/ ExitCode.DATA_CRC_ERROR = ExitCode.UNSUPPORTED_VERSION
  \/ ExitCode.DATA_CRC_ERROR = ExitCode.DATA_SIZE_MISMATCH
  \/ (ExitCode.DATA_CRC_ERROR = ExitCode.DATA_CRC_ERROR
      /\ ignorewarning strict = false).
Proof.
  eapply (bin2mapping_exit_statuses strict ascii_runtime SETTINGS_structural
            image_regular world0).
  vm_compute. reflexivity.
Defined.

(** ** Restore: the image [mapping2bin] builds *)

Lemma yields_lift {A} (P : A -> Prop) (r : pyresult A) :
  (forall a, r = PyOk a -> P a) -> yields P (lift r).
Proof.
  intros H. destruct r as [a|e]; [apply yields_ret; auto | apply yields_raise].
Qed.

Lemma pack_into_raw_length (rt : runtime) (fd : fielddef) (dobj : list Z)
    (val : Z) (d' : list Z) :
  pack_into_raw rt fd dobj val = PyOk d' ->
  List.length d' = List.length dobj.
Proof.
  unfold pack_into_raw. destruct (format_ fd) as [fmt|]; [|discriminate].
  cbv zeta. destruct (negb _); [discriminate|].
  destruct (_ || _); [discriminate|].
  match goal with
  | |- context [pack_into_int rt ?ft dobj ?a val] =>
      pose proof (pack_into_int_length rt ft dobj a val) as Hlen;
      destruct (pack_into_int rt ft dobj a val) as [d1|e d1]
  end; [|discriminate].
  intros H. injection H as <-. exact Hlen.
Qed.

Lemma mapping2bin_items_length (ARGS : args) (rt : runtime)
    (template : setting) (info : config_info)
    (items : list (string * pyval)) (decode : list Z) :
  yields (fun b => List.length b = List.length decode)
    (for_each items
       (fun nd _buffer =>
          let '(name, data) := nd in
          match dict_get template name with
          | Some setting_fielddef =>
              platform_bits <- (if ci_platform info <? 0
                                then raise ValueError
                                else ret (Z.shiftl 1 (ci_platform info))) ;;
              _buffer' <- set_field ARGS rt recursionlimit _buffer
                            platform_bits name setting_fielddef data 0 ;;
              ret (true, _buffer')
          | None =>
              (if negb (String.eqb name "header") then
                 exit_ ExitCode.RESTORE_DATA_ERROR
                       (MsgRestoreError name "obsolete name, skipped")
                       WARNING (negb (ignorewarning ARGS))
               else ret tt) ;;;
              ret (true, _buffer)
          end)
       decode).
Proof.
  apply (yields_for_each (fun b => List.length b = List.length decode));
    [|reflexivity].
  intros [name data] b Hb. destruct (dict_get template name) as [fd|].
  - apply yields_then. intros pb.
    apply (yields_bind (fun b' => List.length b' = List.length b));
      [apply set_field_length|].
    intros b' Hb'. apply yields_ret. cbn [snd]. congruence.
  - apply yields_then. intros _. apply yields_ret. exact Hb.
Qed.

(** X23. What [mapping2bin] returns.  Without a template it returns [None], and
    only when [ignorewarning] is set; with a template the image it returns
    has the length of the decoded image it started from. *)
Theorem mapping2bin_result (ARGS : args) (rt : runtime) (SETTINGS : settings)
    (decode : list Z) (info : config_info) (jsonconfig : pyval)
    (w w' : world) (r : option (list Z)) :
  mapping2bin ARGS rt SETTINGS decode info jsonconfig w = (Ret r, w') ->
  match ci_template info with
  | None => r = None /\ ignorewarning ARGS = true
  | Some _ => exists buf, r = Some buf /\ List.length buf = List.length decode
  end.
Proof.
  unfold mapping2bin. destruct (ci_template info) as [template|].
  - cut (yields (fun r => exists buf, r = Some buf
                            /\ List.length buf = List.length decode)
           (items <- match jsonconfig with
                     | VDict d => ret d
                     | _ => raise AttributeError
                     end ;;
            _buffer <-
              for_each items
                (fun nd _buffer =>
                   let '(name, data) := nd in
                   match dict_get template name with
                   | Some setting_fielddef =>
                       platform_bits <- (if ci_platform info <? 0
                                         then raise ValueError
                                         else ret (Z.shiftl 1 (ci_platform info))) ;;
                       _buffer' <- set_field ARGS rt recursionlimit _buffer
                                     platform_bits name setting_fielddef data 0 ;;
                       ret (true, _buffer')
                   | None =>
                       (if negb (String.eqb name "header") then
                          exit_ ExitCode.RESTORE_DATA_ERROR
                                (MsgRestoreError name "obsolete name, skipped")
                                WARNING (negb (ignorewarning ARGS))
                        else ret tt) ;;;
                       ret (true, _buffer)
                   end)
                decode ;;
            match dict_get template "cfg_crc32" with
            | Some cfg_crc32_setting =>
                let crc32 := get_settingcrc32 _buffer in
                _buffer' <- lift (pack_into_raw rt cfg_crc32_setting _buffer
                                                crc32) ;;
                ret (Some _buffer')
            | None =>
                match dict_get template "cfg_crc" with
                | Some cfg_crc_setting =>
                    crc <- get_settingcrc ARGS rt SETTINGS _buffer ;;
                    _buffer' <- lift (pack_into_raw rt cfg_crc_setting _buffer
                                                    crc) ;;
                    ret (Some _buffer')
                | None => ret (Some _buffer)
                end
            end)).
    { intros Hy H. exact (Hy w r w' H). }
    apply yields_then. intros items.
    apply (yields_bind (fun b => List.length b = List.length decode));
      [apply mapping2bin_items_length|].
    intros b Hb.
    destruct (dict_get template "cfg_crc32") as [fd32|].
    + cbv zeta.
      apply (yields_bind (fun b' => List.length b' = List.length b)).
      * apply yields_lift. intros b' E. exact (pack_into_raw_length _ _ _ _ _ E).
      * intros b' Hb'. apply yields_ret. exists b'. split; congruence.
    + destruct (dict_get template "cfg_crc") as [fd16|].
      * apply yields_then. intros crc.
        apply (yields_bind (fun b' => List.length b' = List.length b)).
        -- apply yields_lift. intros b' E.
           exact (pack_into_raw_length _ _ _ _ _ E).
        -- intros b' Hb'. apply yields_ret. exists b'. split; congruence.
      * apply yields_ret. exists b. split; congruence.
  - unfold bind, exit_, bind, message, sys_exit, ret.
    destruct (ignorewarning ARGS); cbn; intros H; [|discriminate H].
    injection H as <- _. split; reflexivity.
Qed.

Lemma mapping2bin_result_witness :
  match ci_template info_8_2_0_4 with
  | None => Some (buf_write image_regular 0xFFC
                    (le_bytes 4 (get_settingcrc32 image_regular))) = None
            /\ ignorewarning strict = true
  | Some _ =>
      exists buf,
        Some (buf_write image_regular 0xFFC
                    (le_bytes 4 (get_settingcrc32 image_regular))) = Some buf
        /\ List.length buf = List.length image_regular
  end.
Proof.
  apply (mapping2bin_result strict ascii_runtime SETTINGS_structural
           image_regular info_8_2_0_4 restore_nothing world0 world0).
  vm_compute. reflexivity.
Defined.

Lemma get_settingcrc32_after_write (b data : list Z) (addr : Z) :
  0 <= addr ->
  addr + 4 = Z.of_nat (List.length b) ->
  List.length data = 4%nat ->
  get_settingcrc32 (buf_write b addr data) = get_settingcrc32 b.
Proof.
  intros H0 Hlen Hdata. unfold buf_write.
  rewrite (skipn_all2 b) by lia. rewrite app_nil_r.
  rewrite <- (firstn_skipn (Z.to_nat addr) b) at 2.
  apply get_settingcrc32_app; [exact Hdata|].
  rewrite length_skipn. lia.
Qed.

Lemma pack_into_raw_crc32 (rt : runtime) (fd : fielddef) (b : list Z)
    (crc : Z) :
  format_ fd = FStruct (mkfmt LittleEndian None CL) ->
  bits fd = 0 -> bitshift fd = 0 -> strindex fd = None ->
  0 <= baseaddr fd ->
  baseaddr fd + 4 <= Z.of_nat (List.length b) ->
  0 <= crc < 2 ^ 32 ->
  pack_into_raw rt fd b crc = PyOk (buf_write b (baseaddr fd) (le_bytes 4 crc)).
Proof.
  intros Hfmt Hbits Hshift Hidx H0 Hlen Hcrc.
  unfold pack_into_raw, count_of. rewrite Hfmt, Hbits, Hshift, Hidx.
  cbn [Z.eqb Pos.eqb negb orb f_count f_order f_code].
  rewrite pack_into_int_inside by (try reflexivity; cbn [code_size]; lia).
  rewrite (pack_item_unsigned rt LittleEndian CL crc) by
    (try reflexivity; cbn [code_size]; lia).
  reflexivity.
Qed.

(** X24. An image [mapping2bin] returns carries its own checksum: when the
    template keeps [cfg_crc32] as a ['<L'] word in the last four bytes of
    the image, that word of the returned image is the CRC32 of the returned
    image, so the check [bin2mapping] makes on it passes. *)
Theorem mapping2bin_crc32_consistent (ARGS : args) (rt : runtime)
    (SETTINGS : settings) (decode : list Z) (info : config_info)
    (jsonconfig : pyval) (template : setting) (fd : fielddef)
    (w w' : world) (buf : list Z) :
  ci_template info = Some template ->
  dict_get template "cfg_crc32" = Some fd ->
  format_ fd = FStruct (mkfmt LittleEndian None CL) ->
  bits fd = 0 -> bitshift fd = 0 -> strindex fd = None ->
  0 <= baseaddr fd ->
  baseaddr fd + 4 = Z.of_nat (List.length decode) ->
  mapping2bin ARGS rt SETTINGS decode info jsonconfig w = (Ret (Some buf), w') ->
  le_value (buf_read buf (baseaddr fd) 4) = get_settingcrc32 buf.
Proof.
  intros Htpl Hcrc Hfmt Hbits Hshift Hidx H0 Hlen.
  unfold mapping2bin. rewrite Htpl.
  cut (yields (fun r => forall buf, r = Some buf ->
                 le_value (buf_read buf (baseaddr fd) 4) = get_settingcrc32 buf)
         (items <- match jsonconfig with
                   | VDict d => ret d
                   | _ => raise AttributeError
                   end ;;
          _buffer <-
            for_each items
              (fun nd _buffer =>
                 let '(name, data) := nd in
                 match dict_get template name with
                 | Some setting_fielddef =>
                     platform_bits <- (if ci_platform info <? 0
                                       then raise ValueError
                                       else ret (Z.shiftl 1 (ci_platform info))) ;;
                     _buffer' <- set_field ARGS rt recursionlimit _buffer
                                   platform_bits name setting_fielddef data 0 ;;
                     ret (true, _buffer')
                 | None =>
                     (if negb (String.eqb name "header") then
                        exit_ ExitCode.RESTORE_DATA_ERROR
                              (MsgRestoreError name "obsolete name, skipped")
                              WARNING (negb (ignorewarning ARGS))
                      else ret tt) ;;;
                     ret (true, _buffer)
                 end)
              decode ;;
          match dict_get template "cfg_crc32" with
          | Some cfg_crc32_setting =>
              let crc32 := get_settingcrc32 _buffer in
              _buffer' <- lift (pack_into_raw rt cfg_crc32_setting _buffer
                                              crc32) ;;
              ret (Some _buffer')
          | None =>
              match dict_get template "cfg_crc" with
              | Some cfg_crc_setting =>
                  crc <- get_settingcrc ARGS rt SETTINGS _buffer ;;
                  _buffer' <- lift (pack_into_raw rt cfg_crc_setting _buffer
                                                  crc) ;;
                  ret (Some _buffer')
              | None => ret (Some _buffer)
              end
          end)).
  { cbv beta iota zeta. intros Hy H. exact (Hy w (Some buf) w' H buf eq_refl). }
  apply yields_then. intros items.
  apply (yields_bind (fun b => List.length b = List.length decode));
    [apply mapping2bin_items_length|].
  intros b Hb. rewrite Hcrc. cbv zeta.
  pose proof (get_settingcrc32_range b) as Hrange.
  rewrite (pack_into_raw_crc32 rt fd b (get_settingcrc32 b) Hfmt Hbits Hshift
             Hidx H0) by (try exact Hrange; lia).
  intros w0 r0 w1 Hrun. cbn [lift] in Hrun. unfold bind, ret in Hrun.
  assert (Hr : Some (buf_write b (baseaddr fd)
                       (le_bytes 4 (get_settingcrc32 b))) = r0)
    by exact (f_equal (fun p : outcome (option (list Z)) * world =>
                         match fst p with Ret a => a | _ => None end) Hrun).
  clear Hrun. subst r0. intros buf' E.
  assert (Hbuf : buf_write b (baseaddr fd) (le_bytes 4 (get_settingcrc32 b))
                 = buf')
    by exact (f_equal (fun o : option (list Z) =>
                         match o with Some a => a | None => [] end) E).
  clear E. subst buf'.
  rewrite get_settingcrc32_after_write
    by (try apply le_bytes_length; lia).
  pose proof (buf_read_write b (baseaddr fd) (le_bytes 4 (get_settingcrc32 b)))
    as Hrw.
  rewrite le_bytes_length in Hrw. change (Z.of_nat 4) with 4 in Hrw.
  rewrite Hrw by lia.
  rewrite le_value_le_bytes. change (8 * Z.of_nat 4) with 32.
  rewrite Z.land_ones by lia. apply Z.mod_small. exact Hrange.
Qed.


Lemma mapping2bin_crc32_consistent_witness :
  le_value (buf_read (buf_write image_regular 0xFFC
                        (le_bytes 4 (get_settingcrc32 image_regular)))
                     0xFFC 4)
  = get_settingcrc32 (buf_write image_regular 0xFFC
                        (le_bytes 4 (get_settingcrc32 image_regular))).
Proof.
  apply (mapping2bin_crc32_consistent strict ascii_runtime SETTINGS_structural
           image_regular info_8_2_0_4 restore_nothing
           (structural_fields 0x8020004)
           (field fmt_L 0xFFC None "System" (Conv1 (CvEval (format_hex 8))))
           world0 world0).
  - reflexivity.
  - vm_compute. reflexivity.
  - reflexivity.
  - reflexivity.
  - reflexivity.
  - reflexivity.
  - vm_compute. discriminate.
  - vm_compute. reflexivity.
  - vm_compute. reflexivity.
Defined.

Lemma for_each_stops {A S} (l : list A) (body : A -> S -> M (bool * S))
    (a : A) :
  In a l ->
  (forall x s w go s1 w1, body x s w = (Ret (go, s1), w1) -> go = true) ->
  (forall s w, returns (body a s w) = false) ->
  forall s w, returns (for_each l body s w) = false.
Proof.
  intros Hin Hgo Hbody. induction l as [|x l IH]; [contradiction|].
  intros s w. cbn [for_each]. unfold bind.
  destruct (body x s w) as [[[go s1]|st|e] w1] eqn:E; try reflexivity.
  destruct Hin as [-> | Hin].
  - specialize (Hbody s w). rewrite E in Hbody. discriminate Hbody.
  - rewrite (Hgo x s w go s1 w1 E). cbn [fst snd]. apply IH. exact Hin.
Qed.

Lemma returns_bind_false {A B} (m : M A) (k : A -> M B) (w : world) :
  returns (m w) = false -> returns (bind m k w) = false.
Proof.
  unfold returns, bind. destruct (m w) as [[a|s|e] w1]; cbn [fst];
    [discriminate | reflexivity | reflexivity].
Qed.

(** X25. A restore file with a name the template does not have (other than
    [header]) is refused under the strict policy: [mapping2bin] does not
    return an image, wherever in the file the name stands and whatever the
    other entries are. *)
Theorem mapping2bin_unknown_name_strict (ARGS : args) (rt : runtime)
    (SETTINGS : settings) (decode : list Z) (info : config_info)
    (template : setting) (items : list (string * pyval))
    (name : string) (data : pyval) (w : world) :
  ci_template info = Some template ->
  In (name, data) items ->
  dict_get template name = None ->
  name <> "header" ->
  ignorewarning ARGS = false ->
  returns (mapping2bin ARGS rt SETTINGS decode info (VDict items) w) = false.
Proof.
  intros Htpl Hin Hnone Hname Hig. unfold mapping2bin. rewrite Htpl.
  cbv beta iota zeta. unfold bind at 1. cbn [ret].
  apply returns_bind_false.
  apply (for_each_stops items _ (name, data) Hin).
  - intros [x dx] s w0 go s1 w1. cbv beta iota.
    destruct (dict_get template x) as [fdx|].
    + unfold bind.
      destruct (if ci_platform info <? 0 then raise ValueError
                else ret (Z.shiftl 1 (ci_platform info))) as [[pb|st|e] w2];
        try discriminate.
      destruct (set_field ARGS rt recursionlimit s pb x fdx dx 0 w2)
        as [[b'|st|e] w3]; try discriminate.
      unfold ret. intros H.
      exact (f_equal (fun p : outcome (bool * list Z) * world =>
                        match fst p with Ret r => fst r | _ => true end)
                     (eq_sym H)).
    + unfold bind.
      match goal with
      | |- context [match ?m w0 with _ => _ end] =>
          destruct (m w0) as [[u|st|e] w2]
      end; try discriminate.
      unfold ret. intros H.
      exact (f_equal (fun p : outcome (bool * list Z) * world =>
                        match fst p with Ret r => fst r | _ => true end)
                     (eq_sym H)).
  - intros s w0. cbv beta iota. rewrite Hnone.
    replace (String.eqb name "header") with false
      by (symmetry; apply String.eqb_neq; exact Hname).
    cbn [negb]. rewrite Hig. reflexivity.
Qed.

Lemma mapping2bin_unknown_name_strict_witness :
  returns (mapping2bin strict ascii_runtime SETTINGS_structural image_regular
             info_8_2_0_4 (VDict [("no_such_setting", VInt 1)]) world0)
  = false.
Proof.
  apply (mapping2bin_unknown_name_strict strict ascii_runtime
           SETTINGS_structural image_regular info_8_2_0_4
           (structural_fields 0x8020004) [("no_such_setting", VInt 1)]
           "no_such_setting" (VInt 1) world0).
  - reflexivity.
  - left. reflexivity.
  - vm_compute. reflexivity.
  - discriminate.
  - reflexivity.
Defined.

(** ** Integrity layer: the 16-bit checksum *)

Lemma seq_index_exn {A} (l : list A) (i : Z) (e : exn) :
  seq_index l i = PyExc e -> e = IndexError.
Proof.
  unfold seq_index. cbv zeta.
  destruct (_ || _); [intros H; injection H as <-; reflexivity|].
  destruct (nth_error l _); [discriminate|].
  intros H. injection H as <-. reflexivity.
Qed.

Lemma seq_index_beyond {A} (l : list A) (i : Z) :
  Z.of_nat (List.length l) <= i -> seq_index l i = PyExc IndexError.
Proof.
  intros Hi. unfold seq_index. cbv zeta.
  replace (i <? 0) with false by (symmetry; apply Z.ltb_ge; lia).
  cbv iota.
  replace (Z.of_nat (List.length l) <=? i) with true
    by (symmetry; apply Z.leb_le; exact Hi).
  rewrite orb_true_r. reflexivity.
Qed.

Lemma settingcrc_from_exn (dobj : list Z) (idx : list Z) (crc : Z) (e : exn) :
  settingcrc_from dobj idx crc = PyExc e -> e = IndexError.
Proof.
  revert crc. induction idx as [|i idx IH]; intros crc; cbn [settingcrc_from].
  - discriminate.
  - destruct ((i =? 14) || (i =? 15)); [apply IH|].
    destruct (seq_index dobj i) as [b|e'] eqn:E; cbn [pbind].
    + apply IH.
    + intros H. injection H as <-. exact (seq_index_exn _ _ _ E).
Qed.

Lemma settingcrc_from_beyond (dobj : list Z) (idx : list Z) (i : Z) :
  In i idx -> i <> 14 -> i <> 15 -> Z.of_nat (List.length dobj) <= i ->
  forall crc, settingcrc_from dobj idx crc = PyExc IndexError.
Proof.
  intros Hin H14 H15 Hi. induction idx as [|j idx IH]; [contradiction|].
  intros crc. cbn [settingcrc_from].
  destruct Hin as [-> | Hin].
  - replace ((i =? 14) || (i =? 15)) with false
      by (symmetry; apply orb_false_iff; split; apply Z.eqb_neq; assumption).
    rewrite seq_index_beyond by exact Hi. reflexivity.
  - destruct ((j =? 14) || (j =? 15)); [apply IH; exact Hin|].
    destruct (seq_index dobj j) as [b|e] eqn:E; cbn [pbind].
    + apply IH. exact Hin.
    + rewrite (seq_index_exn _ _ _ E). reflexivity.
Qed.

Lemma range0_In (n i : Z) : 0 <= i < n -> In i (range0 n).
Proof.
  intros Hi. unfold range0. apply in_map_iff. exists (Z.to_nat i).
  split; [lia|]. apply in_seq. lia.
Qed.

Lemma get_settingcrc_run (ARGS : args) (rt : runtime) (SETTINGS : settings)
    (dobj : list Z) (info : config_info) (w w1 : world) :
  get_config_info ARGS rt SETTINGS dobj w = (Ret info, w1) ->
  get_settingcrc ARGS rt SETTINGS dobj w
  = match ci_template_size info with
    | Some n =>
        match settingcrc_from dobj (range0 n) 0 with
        | PyOk c => (Ret (Z.land c 0xffff), w1)
        | PyExc e => (Raise e, w1)
        end
    | None => (Raise TypeError, w1)
    end.
Proof.
  intros Hinfo. unfold get_settingcrc. unfold bind at 1. rewrite Hinfo.
  destruct (ci_template_size info) as [n|]; [|reflexivity].
  unfold bind at 1. cbn [ret]. unfold bind at 1.
  destruct (settingcrc_from dobj (range0 n) 0) as [c|e]; reflexivity.
Qed.

(** X26. The 16-bit checksum of an image that is shorter than its table (but
    has at least 16 bytes) cannot be computed: [get_settingcrc] ends in an
    [IndexError] it does not catch. *)
Theorem get_settingcrc_short_image (ARGS : args) (rt : runtime)
    (SETTINGS : settings) (dobj : list Z) (info : config_info) (n : Z)
    (w w1 : world) :
  get_config_info ARGS rt SETTINGS dobj w = (Ret info, w1) ->
  ci_template_size info = Some n ->
  16 <= Z.of_nat (List.length dobj) < n ->
  get_settingcrc ARGS rt SETTINGS dobj w = (Raise IndexError, w1).
Proof.
  intros Hinfo Hsize Hlen.
  rewrite (get_settingcrc_run ARGS rt SETTINGS dobj info w w1 Hinfo), Hsize.
  rewrite (settingcrc_from_beyond dobj (range0 n) (Z.of_nat (List.length dobj)));
    try lia.
  - reflexivity.
  - apply range0_In. lia.
Qed.

Lemma get_settingcrc_short_image_witness :
  get_settingcrc strict ascii_runtime SETTINGS_structural image_5_10_short
                 world0
  = (Raise IndexError, world0).
Proof.
  apply (get_settingcrc_short_image strict ascii_runtime SETTINGS_structural
           image_5_10_short
           (mkinfo 0 0x50a0000 0x50a0000 (Some 0x670)
                   (Some (structural_fields 0x50a0000)))
           0x670 world0 world0).
  - vm_compute. reflexivity.
  - reflexivity.
  - vm_compute. split; [discriminate | reflexivity].
Defined.

Lemma seq_index_agree (l l' : list Z) (i : Z) :
  List.length l = List.length l' ->
  0 <= i ->
  nth (Z.to_nat i) l 0 = nth (Z.to_nat i) l' 0 ->
  seq_index l i = seq_index l' i.
Proof.
  intros Hlen Hi Hnth. unfold seq_index. cbv zeta. rewrite <- Hlen.
  replace (i <? 0) with false by (symmetry; apply Z.ltb_ge; lia).
  cbv iota.
  replace (i <? 0) with false by (symmetry; apply Z.ltb_ge; lia).
  destruct (Z.leb_spec (Z.of_nat (List.length l)) i) as [Hge | Hlt];
    cbn [orb]; [reflexivity|].
  rewrite (nth_error_nth' l 0) by lia.
  rewrite (nth_error_nth' l' 0) by lia.
  rewrite Hnth. reflexivity.
Qed.

Lemma settingcrc_from_agree (dobj dobj' : list Z) (idx : list Z) :
  List.length dobj = List.length dobj' ->
  (forall k : nat, k <> 14%nat -> k <> 15%nat -> nth k dobj 0 = nth k dobj' 0) ->
  Forall (fun i => 0 <= i) idx ->
  forall crc, settingcrc_from dobj idx crc = settingcrc_from dobj' idx crc.
Proof.
  intros Hlen Hsame Hidx. induction Hidx as [|i idx Hi Hidx IH];
    intros crc; cbn [settingcrc_from]; [reflexivity|].
  destruct ((i =? 14) || (i =? 15)) eqn:E; [apply IH|].
  apply orb_false_iff in E. destruct E as [E14 E15].
  apply Z.eqb_neq in E14. apply Z.eqb_neq in E15.
  rewrite (seq_index_agree dobj dobj' i Hlen Hi) by (apply Hsame; lia).
  destruct (seq_index dobj' i) as [b|e]; cbn [pbind]; [apply IH | reflexivity].
Qed.

Lemma range0_nonneg (n : Z) : Forall (fun i => 0 <= i) (range0 n).
Proof.
  unfold range0. apply Forall_forall. intros i Hi.
  apply in_map_iff in Hi. destruct Hi as [k [<- _]]. lia.
Qed.

(** X27. The 16-bit checksum does not cover the bytes 14 and 15, where the
    tables keep [cfg_crc]: two images of one length that differ only there,
    and are resolved to the same table size, have the same checksum; and a
    checksum [get_settingcrc] returns is a 16-bit number. *)
Theorem get_settingcrc_skips_crc_field (ARGS : args) (rt : runtime)
    (SETTINGS : settings) (dobj dobj' : list Z) (info info' : config_info)
    (w w1 : world) :
  List.length dobj = List.length dobj' ->
  (forall k : nat, k <> 14%nat -> k <> 15%nat -> nth k dobj 0 = nth k dobj' 0) ->
  get_config_info ARGS rt SETTINGS dobj w = (Ret info, w1) ->
  get_config_info ARGS rt SETTINGS dobj' w = (Ret info', w1) ->
  ci_template_size info = ci_template_size info' ->
  get_settingcrc ARGS rt SETTINGS dobj w = get_settingcrc ARGS rt SETTINGS dobj' w
  /\ forall crc w2,
       get_settingcrc ARGS rt SETTINGS dobj w = (Ret crc, w2) ->
       0 <= crc < 2 ^ 16.
Proof.
  intros Hlen Hsame Hinfo Hinfo' Hsize.
  rewrite (get_settingcrc_run ARGS rt SETTINGS dobj info w w1 Hinfo).
  rewrite (get_settingcrc_run ARGS rt SETTINGS dobj' info' w w1 Hinfo').
  rewrite Hsize. destruct (ci_template_size info') as [n|].
  - rewrite (settingcrc_from_agree dobj dobj' (range0 n) Hlen Hsame
               (range0_nonneg n)).
    split; [reflexivity|].
    intros crc w2. destruct (settingcrc_from dobj' (range0 n) 0) as [c|e];
      [|discriminate].
    intros H.
    assert (Hc : Z.land c 0xffff = crc)
      by exact (f_equal (fun p : outcome Z * world =>
                           match fst p with Ret a => a | _ => 0 end) H).
    rewrite <- Hc. change 0xffff with (Z.ones 16).
    rewrite Z.land_ones by lia. apply Z.mod_pos_bound. lia.
  - split; [reflexivity | discriminate].
Qed.

Lemma get_settingcrc_skips_crc_field_witness :
  get_settingcrc strict ascii_runtime SETTINGS_structural image_5_10 world0
  = get_settingcrc strict ascii_runtime SETTINGS_structural image_5_10_crc
                   world0
  /\ forall crc w2,
       get_settingcrc strict ascii_runtime SETTINGS_structural image_5_10
                      world0 = (Ret crc, w2) ->
       0 <= crc < 2 ^ 16.
Proof.
  apply (get_settingcrc_skips_crc_field strict ascii_runtime
           SETTINGS_structural image_5_10 image_5_10_crc
           (mkinfo 0 0x50a0000 0x50a0000 (Some 0x670)
                   (Some (structural_fields 0x50a0000)))
           (mkinfo 0 0x50a0000 0x50a0000 (Some 0x670)
                   (Some (structural_fields 0x50a0000)))
           world0 world0).
  - vm_compute. reflexivity.
  - intros k H14 H15. unfold image_5_10_crc.
    apply eq_sym. apply buf_write_outside.
    + lia.
    + vm_compute. discriminate.
    + cbn [List.length]. lia.
  - vm_compute. reflexivity.
  - vm_compute. reflexivity.
  - reflexivity.
Defined.

(** ** Decoding is silent *)

Lemma silent_ret {A} (a : A) : silent (ret a).
Proof. intros w a' w' H. injection H as _ <-. reflexivity. Qed.

Lemma silent_raise {A} (e : exn) : silent (@raise A e).
Proof. intros w a w' H. discriminate H. Qed.

Lemma silent_lift {A} (r : pyresult A) : silent (lift r).
Proof. destruct r; [apply silent_ret | apply silent_raise]. Qed.

Lemma silent_bind {A B} (m : M A) (k : A -> M B) :
  silent m -> (forall a, silent (k a)) -> silent (bind m k).
Proof.
  intros Hm Hk w b w' H. unfold bind in H.
  destruct (m w) as [[a|s|e] w0] eqn:E; try discriminate H.
  rewrite (Hk a w0 b w' H). exact (Hm w a w0 E).
Qed.

Lemma silent_for_each {A S} (l : list A) (body : A -> S -> M (bool * S)) :
  (forall a s, silent (body a s)) -> forall s, silent (for_each l body s).
Proof.
  intros Hbody. induction l as [|a l IH]; intros s; cbn [for_each].
  - apply silent_ret.
  - apply silent_bind; [apply Hbody|].
    intros [go s']. cbn [fst snd]. destruct go; [apply IH | apply silent_ret].
Qed.

Lemma silent_readwrite_converter (ARGS : args) (value : pyval) (fd : fielddef)
    (read raw : bool) :
  silent (readwrite_converter ARGS value fd read raw).
Proof.
  unfold readwrite_converter.
  destruct (negb _ && has_converter fd); [|apply silent_ret].
  destruct (apply_conv ARGS _ value) as [[v|e]|]; try apply silent_ret.
  intros w a w' H. discriminate H.
Qed.

Lemma silent_get_field (ARGS : args) (rt : runtime) (depth : nat) :
  forall dobj platform_bits fieldname fd raw addroffset ignoregroup,
    silent (get_field ARGS rt depth dobj platform_bits fieldname fd raw
                      addroffset ignoregroup).
Proof.
  induction depth as [|d IH]; intros; cbn [get_field].
  - apply silent_raise.
  - destruct (_ =? 0); [apply silent_ret|].
    destruct (negb ignoregroup && _); [apply silent_ret|].
    destruct (arraydef fd) as [|n dims].
    + destruct (format_ fd) as [fmt|setting].
      * apply silent_bind; [apply silent_lift|]. intros len.
        destruct (negb (len =? 0)); [|apply silent_ret].
        apply silent_bind; [apply silent_lift|]. intros v.
        apply silent_readwrite_converter.
      * apply silent_bind; [|intros; apply silent_ret].
        apply silent_for_each. intros nf mv.
        apply silent_bind; [apply IH|]. intros v.
        destruct (negb (is_none v)); apply silent_ret.
    + apply silent_bind; [|intros; apply silent_ret].
      apply silent_for_each. intros i [vm off].
      apply silent_bind; [apply silent_lift|]. intros sub.
      apply silent_bind; [apply silent_lift|]. intros len.
      destruct (negb (len =? 0)); [|apply silent_ret].
      apply silent_bind; [apply IH|]. intros v. apply silent_ret.
Qed.

(** X28. Reading reports nothing: whenever [get_field] returns, nothing was
    written to stderr and [EXIT_CODE] is what it was; and whenever it ends
    in [sys.exit], the exit status is [INTERNAL_ERROR], for a converter
    that raises.  (An exception that nothing catches, such as the
    [struct.error] of a buffer that is too short, is neither of the two.) *)
Theorem get_field_silent (ARGS : args) (rt : runtime) (depth : nat)
    (dobj : list Z) (platform_bits : Z) (fieldname : option string)
    (fd : fielddef) (raw : bool) (addroffset : Z) (ignoregroup : bool)
    (w : world) :
  (forall value w',
     get_field ARGS rt depth dobj platform_bits fieldname fd raw addroffset
               ignoregroup w = (Ret value, w') -> w' = w)
  /\ (forall s w',
        get_field ARGS rt depth dobj platform_bits fieldname fd raw addroffset
                  ignoregroup w = (SysExit s, w') ->
        s = ExitCode.INTERNAL_ERROR).
Proof.
  split.
  - intros value w' H.
    exact (silent_get_field ARGS rt depth dobj platform_bits fieldname fd raw
             addroffset ignoregroup w value w' H).
  - intros s w' H.
    exact (exits_only_get_field ARGS rt depth dobj platform_bits fieldname fd
             raw addroffset ignoregroup w s w' H).
Qed.

(** ** Restoring part of a dict *)

Lemma for_each_skips {A S} (l : list A) (body : A -> S -> M (bool * S)) (s : S)
    (w : world) :
  (forall a, In a l -> body a s w = (Ret (true, s), w)) ->
  for_each l body s w = (Ret s, w).
Proof.
  induction l as [|a l IH]; intros H; cbn [for_each]; [reflexivity|].
  unfold bind. rewrite (H a (or_introl eq_refl)). cbn [fst snd].
  apply IH. intros b Hb. apply H. right. exact Hb.
Qed.

(** X29. A restore mapping need not be complete: members of a dict field that
    the mapping does not mention (or gives as [null]) are left alone.  In
    particular a mapping that mentions none of them leaves the image as it
    is and prints nothing. *)
Theorem set_field_dict_missing_keys (ARGS : args) (rt : runtime) (d : nat)
    (dobj : list Z) (platform_bits : Z) (fieldname : string) (fd : fielddef)
    (setting : list (string * fielddef)) (restore : list (string * pyval))
    (addroffset : Z) (w : world) :
  format_ fd = FDict setting ->
  arraydef fd = [] ->
  (forall name sub, In (name, sub) setting ->
     dict_get restore name = None \/ dict_get restore name = Some VNone) ->
  set_field ARGS rt (S d) dobj platform_bits fieldname fd (VDict restore)
            addroffset w = (Ret dobj, w).
Proof.
  intros Hfmt Harr Hmiss. cbn [set_field].
  destruct (_ =? 0); [reflexivity|].
  destruct (negb _); [reflexivity|].
  destruct (is_false _); [reflexivity|].
  rewrite Harr, Hfmt. apply for_each_skips.
  intros [name sub] Hin. cbn [fst snd py_get lift].
  unfold bind at 1. cbn [ret].
  destruct (Hmiss name sub Hin) as [-> | ->]; reflexivity.
Qed.

Lemma set_field_dict_missing_keys_witness :
  set_field strict ascii_runtime 3 image_flags Platform.ESP82 "flag" flag
            (VDict [("unrelated", VInt 1)]) 0 world0
  = (Ret image_flags, world0).
Proof.
  apply (set_field_dict_missing_keys strict ascii_runtime 2 image_flags
           Platform.ESP82 "flag" flag
           [("save_state", save_state); ("button_restrict", button_restrict)]
           [("unrelated", VInt 1)] 0 world0).
  - reflexivity.
  - reflexivity.
  - intros name sub [H | [H | []]]; injection H as <- _; left; reflexivity.
Defined.

(** ** Field codec: a value too large for a signed field *)

Lemma pack_item_signed_overflow (rt : runtime) (o : byteorder) (c : fcode)
    (val : Z) :
  is_intcode c = true -> is_signed c = true ->
  2 ^ (8 * code_size rt o c - 1) <= val ->
  pack_item rt o c val = PyExc StructError.
Proof.
  intros Hint Hs Hval.
  destruct c; try discriminate Hint; try discriminate Hs; unfold pack_item;
    cbn [is_signed];
    match goal with
    | |- context [val <=? ?hi] =>
        replace (val <=? hi) with false by (symmetry; apply Z.leb_gt; lia)
    end; rewrite andb_false_r; reflexivity.
Qed.

Lemma py_ne_same_int (x : Z) : py_ne (VInt x) (VInt x) = false.
Proof. cbn [py_ne]. rewrite Z.eqb_refl. reflexivity. Qed.

(** X30. Unlike an unsigned field, a signed integer field does not take a
    value above its range: for [2 ^ (w - 1) <= v < 2 ^ w] in a word of [w]
    bits, the [struct.error] of the packing is reported as
    [RESTORE_DATA_ERROR].  [set_field] then ends the program; with
    [ignorewarning] it returns, but not the image it was given:
    [struct.pack_into] has cleared the bytes of the field before it
    failed, so the field reads 0 afterwards, whatever it held. *)
Theorem set_field_signed_overflow (ARGS : args) (rt : runtime) (d : nat)
    (dobj : list Z) (platform_bits : Z) (fieldname : string) (fd : fielddef)
    (o : byteorder) (c : fcode) (addroffset v : Z) (w : world) :
  (Z.land (platform_ fd) platform_bits =? 0) = false ->
  is_filtergroup ARGS rt (group fd) = true ->
  special_field fieldname = false ->
  format_ fd = FStruct (mkfmt o None c) ->
  is_intcode c = true ->
  is_signed c = true ->
  0 < code_size rt o c ->
  arraydef fd = [] ->
  strindex fd = None ->
  bits fd = 0 ->
  converter fd = NoConverter ->
  0 <= baseaddr fd + addroffset
  /\ baseaddr fd + addroffset + code_size rt o c <= Z.of_nat (List.length dobj) ->
  py_truthy (validate_value (VInt v) fd) = true ->
  2 ^ (8 * code_size rt o c - 1) <= v < 2 ^ (8 * code_size rt o c) ->
  if ignorewarning ARGS
  then
    exists w',
      set_field ARGS rt (S d) dobj platform_bits fieldname fd (VInt v)
                addroffset w
      = (Ret (buf_write dobj (baseaddr fd + addroffset)
                (zeros (Z.to_nat (code_size rt o c)))), w')
      /\ EXIT_CODE w' = ExitCode.RESTORE_DATA_ERROR
      /\ In (mklog (Some WARNING) (Some ExitCode.RESTORE_DATA_ERROR)
                   (MsgPackError (baseaddr fd + addroffset))) (stderr w')
  else
    set_field ARGS rt (S d) dobj platform_bits fieldname fd (VInt v)
              addroffset w
    = (SysExit ExitCode.RESTORE_DATA_ERROR,
       mkworld ExitCode.RESTORE_DATA_ERROR
         (mklog None None (MsgPrematureExit ExitCode.RESTORE_DATA_ERROR)
          :: mklog (Some WARNING) (Some ExitCode.RESTORE_DATA_ERROR)
                   (MsgPackError (baseaddr fd + addroffset))
          :: stderr w)).
Proof.
  intros Hplat Hgroup Hname Hfmt Hint Hs Hsz Harr Hidx Hbits Hconv Haddr
         Hvalid Hv.
  assert (Hwrite : is_false (writeconverter fd) = false)
    by (unfold writeconverter; rewrite Hconv; reflexivity).
  pose proof (set_field_int_steps ARGS rt d dobj platform_bits fieldname fd o c
                addroffset v Hplat Hgroup Hwrite Hname Hfmt Hint Hsz Harr Hidx
                Hbits
                (fun w0 => readwrite_converter_none ARGS (VInt v) fd false
                             false w0 Hconv)
                Haddr Hvalid w) as Hrun.
  destruct (get_fieldvalue_int rt d fd o c dobj (baseaddr fd + addroffset)
              Hfmt Hint) as [p Hp]; try lia.
  destruct (get_fieldvalue_int rt d fd o c
              (buf_write dobj (baseaddr fd + addroffset)
                 (zeros (Z.to_nat (code_size rt o c))))
              (baseaddr fd + addroffset) Hfmt Hint) as [q Hq]; try lia.
  { rewrite buf_write_length; rewrite ?zeros_length; lia. }
  unfold bind at 1 in Hrun. unfold bind at 1 in Hrun.
  rewrite Hp in Hrun. cbn [lift ret] in Hrun.
  unfold bind at 1 in Hrun.
  rewrite (set_fieldvalue_int ARGS rt fd o c dobj (baseaddr fd + addroffset) v
             w Hfmt Hint Hsz) in Hrun by lia.
  assert (Hpos : 0 < 2 ^ (8 * code_size rt o c - 1))
    by (apply Z.pow_pos_nonneg; lia).
  rewrite item_value_nonneg in Hrun by lia.
  replace (code_size rt o c * 8) with (8 * code_size rt o c) in Hrun by lia.
  rewrite Z.mod_small in Hrun by lia.
  rewrite (pack_item_signed_overflow rt o c v Hint Hs) in Hrun by lia.
  destruct (ignorewarning ARGS); cbn [negb] in Hrun.
  - unfold exit_, message, bind, ret in Hrun.
    cbn [Z.eqb negb EXIT_CODE stderr] in Hrun.
    rewrite Hq in Hrun. cbn [lift] in Hrun. unfold ret in Hrun.
    destruct (py_ne (VInt p) (VInt q) && verbose ARGS);
      eexists; (split; [exact Hrun|]); cbn [EXIT_CODE stderr In]; auto.
  - exact Hrun.
Qed.

Lemma set_field_signed_overflow_witness :
  if ignorewarning lenient
  then
    exists w',
      set_field lenient ascii_runtime 1 (buf_write (zeros 0x800) 0x79C [5])
                Platform.ESP82 "adc_param3" adc_param3 (VInt 0x80000000) 0
                world0
      = (Ret (buf_write (buf_write (zeros 0x800) 0x79C [5])
                (baseaddr adc_param3 + 0)
                (zeros (Z.to_nat (code_size ascii_runtime LittleEndian Cl)))),
         w')
      /\ EXIT_CODE w' = ExitCode.RESTORE_DATA_ERROR
      /\ In (mklog (Some WARNING) (Some ExitCode.RESTORE_DATA_ERROR)
                   (MsgPackError (baseaddr adc_param3 + 0))) (stderr w')
  else
    set_field lenient ascii_runtime 1 (buf_write (zeros 0x800) 0x79C [5])
              Platform.ESP82 "adc_param3" adc_param3 (VInt 0x80000000) 0
              world0
    = (SysExit ExitCode.RESTORE_DATA_ERROR,
       mkworld ExitCode.RESTORE_DATA_ERROR
         (mklog None None (MsgPrematureExit ExitCode.RESTORE_DATA_ERROR)
          :: mklog (Some WARNING) (Some ExitCode.RESTORE_DATA_ERROR)
                   (MsgPackError (baseaddr adc_param3 + 0))
          :: stderr world0)).
Proof.
  apply (set_field_signed_overflow lenient ascii_runtime 0
           (buf_write (zeros 0x800) 0x79C [5])
           Platform.ESP82 "adc_param3" adc_param3 LittleEndian Cl 0 0x80000000
           world0); try reflexivity.
  - vm_compute. split; discriminate.
  - vm_compute. split; [discriminate | reflexivity].
Defined.
